(** * chatgpt-to-notion: incremental ingestion, checkpointing, batching,
      rendering and weekly-digest scheduling

    A shallow embedding of [src/chatgpt_to_notion.py] and of the scheduler
    part of [src/daily_chatgpt_summary.py], with the properties of the
    specification stated and settled against it.

    Conventions of the embedding.
    - A Python [str] is a list of Unicode code points ([N]); [len] is
      [length].  Literals are written as UTF-8 Rocq strings and decoded by
      [py].
    - A [dict] is a [gmap], a [set] is a [gset]; a JSON array is a list.
    - A calendar date is its proleptic Gregorian ordinal
      ([date.toordinal()]); a day key of the form YYYY-MM-DD is modelled by
      the date it names ([isoformat] is injective and order preserving on
      dates, so dictionary lookup and [sorted] on day keys agree with
      equality and order on ordinals).
    - Timestamps are seconds since the epoch, as integers; the code only
      compares them and converts them to a date.
    - Calls to the outside world (summarizer, publisher, clock, the
      interpreter's [hash]) are parameters of the functions that use them. *)

From Stdlib Require Import ZArith NArith Lia Ascii String.
From stdpp Require Import gmap list fin_maps sorting pretty.

Local Open Scope Z_scope.

(** ** Python strings *)

Abbreviation char := N (only parsing).
Abbreviation str := (list N) (only parsing).

Module PyStr.

(** UTF-8 decoding of a byte sequence; [acc] is the code point under
    construction and [need] the number of continuation bytes still due. *)
Fixpoint utf8_go (acc : N) (need : nat) (bs : list N) : str :=
  match bs with
  | [] => []
  | b :: bs' =>
      match need with
      | O =>
          if (b <? 128)%N then b :: utf8_go 0 0 bs'
          else if (b <? 224)%N then utf8_go (b - 192) 1 bs'
          else if (b <? 240)%N then utf8_go (b - 224) 2 bs'
          else utf8_go (b - 240) 3 bs'
      | S O => (acc * 64 + (b - 128))%N :: utf8_go 0 0 bs'
      | S n => utf8_go (acc * 64 + (b - 128)) n bs'
      end
  end.

Definition py (s : string) : str :=
  utf8_go 0 0 (List.map N_of_ascii (list_ascii_of_string s)).

Definition nl : N := 10.
Definition space : N := 32.
Definition hash_sign : N := 35.
Definition star : N := 42.

(** [str.isspace] for one character: the code points Python treats as
    whitespace when stripping. *)
Definition isspace (c : N) : bool :=
  ((9 <=? c) && (c <=? 13) || (28 <=? c) && (c <=? 32)
   || (c =? 133) || (c =? 160) || (c =? 5760)
   || (8192 <=? c) && (c <=? 8202)
   || (c =? 8232) || (c =? 8233) || (c =? 8239) || (c =? 8287)
   || (c =? 12288))%N.

Fixpoint lstrip (s : str) : str :=
  match s with
  | [] => []
  | c :: s' => if isspace c then lstrip s' else s
  end.

Fixpoint rstrip (s : str) : str :=
  match s with
  | [] => []
  | c :: s' =>
      match rstrip s' with
      | [] => if isspace c then [] else [c]
      | r => c :: r
      end
  end.

Definition strip (s : str) : str := lstrip (rstrip s).

(** [s.split('\n')]: never empty, one more piece than separators. *)
Fixpoint split_lines (s : str) : list str :=
  match s with
  | [] => [[]]
  | c :: s' =>
      if (c =? nl)%N then [] :: split_lines s'
      else match split_lines s' with
           | [] => [[c]]
           | l :: ls => (c :: l) :: ls
           end
  end.

Fixpoint startswith (s p : str) : bool :=
  match p, s with
  | [], _ => true
  | _ :: _, [] => false
  | a :: p', b :: s' => (a =? b)%N && startswith s' p'
  end.

(** [sep.join(l)] *)
Fixpoint join (sep : str) (l : list str) : str :=
  match l with
  | [] => []
  | [x] => x
  | x :: l' => x ++ sep ++ join sep l'
  end.

(** [s[a:b]] for [0 <= a], [0 <= b] *)
Definition slice (s : str) (a b : nat) : str := take (b - a) (drop a s).

(** Truthiness of a string. *)
Definition nonempty (s : str) : bool :=
  match s with [] => false | _ => true end.

(** [o or d] where [o] is a string or [None] *)
Definition or_else (o : option str) (d : str) : str :=
  match o with
  | Some (c :: s) => c :: s
  | _ => d
  end.

(** Decimal rendering of an integer, as an f-string does it. *)
Definition str_of_Z (z : Z) : str :=
  List.map N_of_ascii (list_ascii_of_string (pretty z)).

End PyStr.
Import PyStr.

(** ** Document renderer ([markdown_to_notion_blocks]) *)

Module Renderer.

(** A rich-text item: [{"type": "text", "text": {"content": c}}], with
    ["annotations": {"bold": True}] when [bold]. *)
Record TextSpan := { content : str; bold : bool }.

Definition plain (s : str) : TextSpan := {| content := s; bold := false |}.
Definition strong (s : str) : TextSpan := {| content := s; bold := true |}.

(** A block: [heading_1], [heading_2], [heading_3] or [paragraph], each
    holding its [rich_text]. *)
Inductive Block :=
| Heading (level : nat) (rich_text : list TextSpan)
| Paragraph (rich_text : list TextSpan).

Definition spacer : Block := Paragraph [plain []].

(** One match of the pattern [\*\*(.*?)\*\*]: its start, its end and
    group 1. *)
Record Match := { m_start : nat; m_end : nat; m_group : str }.

(** After an opening [**]: the shortest run of characters other than a
    newline that is followed by [**]; returns the run and what follows the
    closing marker. *)
Fixpoint close_bold (s : str) : option (str * str) :=
  match s with
  | [] => None
  | c :: s' =>
      if startswith s [star; star] then Some ([], drop 1 s')
      else if (c =? nl)%N then None
      else match close_bold s' with
           | Some (g, r) => Some (c :: g, r)
           | None => None
           end
  end.

Definition match_here (s : str) : option (str * str) :=
  if startswith s [star; star] then close_bold (drop 2 s) else None.

(** [re.finditer(bold_pattern, text)]: leftmost matches, not overlapping.
    [s] is [text[pos:]]; a match has at least four characters, so the
    fuel [length text] is never exhausted. *)
Fixpoint finditer_from (fuel : nat) (pos : nat) (s : str) : list Match :=
  match fuel with
  | O => []
  | S fuel' =>
      match s with
      | [] => []
      | _ :: s' =>
          match match_here s with
          | Some (g, rest) =>
              let e := (pos + 4 + length g)%nat in
              {| m_start := pos; m_end := e; m_group := g |}
                :: finditer_from fuel' e rest
          | None => finditer_from fuel' (S pos) s'
          end
      end
  end.

Definition finditer (text : str) : list Match :=
  finditer_from (length text) 0 text.

(** Body of the [for match in ...] loop of [parse_rich_text]; the state
    is [(rich_text, current_pos)]. *)
Definition rich_step (text : str) (st : list TextSpan * nat) (m : Match)
  : list TextSpan * nat :=
  let '(rich_text, current_pos) := st in
  let rich_text :=
    if (current_pos <? m_start m)%nat then
      let normal_text := slice text current_pos (m_start m) in
      if nonempty normal_text then rich_text ++ [plain normal_text]
      else rich_text
    else rich_text in
  (rich_text ++ [strong (m_group m)], m_end m).

Definition parse_rich_text (text : str) : list TextSpan :=
  let '(rich_text, current_pos) :=
    fold_left (rich_step text) (finditer text) ([], 0%nat) in
  let rich_text :=
    if (current_pos <? length text)%nat then
      let remaining_text := drop current_pos text in
      if nonempty remaining_text then rich_text ++ [plain remaining_text]
      else rich_text
    else rich_text in
  match rich_text with
  | [] => [plain text]
  | _ => rich_text
  end.

Definition paragraph_of (current_content : str) : Block :=
  Paragraph (parse_rich_text (strip current_content)).

(** Flush of the pending text before a heading. *)
Definition flush (st : list Block * str) : list Block * str :=
  let '(blocks, current_content) := st in
  if nonempty (strip current_content)
  then (blocks ++ [paragraph_of current_content], [])
  else (blocks, current_content).

(** A heading line of level [n]: flush, then the heading and two spacers
    unless the heading text is empty. *)
Definition heading_step (n : nat) (line : str) (st : list Block * str)
  : list Block * str :=
  let '(blocks, current_content) := flush st in
  let heading_text := strip (drop n line) in
  let heading_text :=
    if startswith heading_text [space] then drop 1 heading_text
    else heading_text in
  if nonempty heading_text
  then (blocks ++ [Heading n (parse_rich_text heading_text); spacer; spacer],
        current_content)
  else (blocks, current_content).

Definition next_action_label : str := Eval vm_compute in py "**次のアクション:**".

Definition max_chars_per_block_default : nat := 1900.

(** Body of the [for line in lines] loop. *)
Definition line_step (max_chars_per_block : nat) (st : list Block * str)
  (line : str) : list Block * str :=
  let h n := startswith line (repeat hash_sign n) in
  let is_heading3 := h 3%nat && negb (h 4%nat) in
  let is_heading2 := h 2%nat && negb (h 3%nat) in
  let is_heading1 := h 1%nat && negb (h 2%nat) && negb (h 3%nat) in
  if is_heading3 then heading_step 3 line st
  else if is_heading2 then heading_step 2 line st
  else if is_heading1 then heading_step 1 line st
  else
    let '(blocks, current_content) := st in
    let current_content :=
      if nonempty (strip line) then
        if startswith (strip line) next_action_label
        then current_content ++ line ++ [nl; nl]
        else current_content ++ line ++ [nl]
      else current_content in
    if (max_chars_per_block <? length current_content)%nat
    then (blocks ++ [paragraph_of current_content], [])
    else (blocks, current_content).

Definition markdown_to_notion_blocks_with (max_chars_per_block : nat)
  (markdown_text : str) : list Block :=
  fst (flush (fold_left (line_step max_chars_per_block)
                        (split_lines markdown_text) ([], []))).

Definition markdown_to_notion_blocks (markdown_text : str) : list Block :=
  markdown_to_notion_blocks_with max_chars_per_block_default markdown_text.

End Renderer.

(** ** Weekly digest scheduler *)

Module Scheduler.

(** [date.weekday()]: Monday is 0, Sunday is 6; ordinal 1 is a Monday. *)
Definition weekday (d : Z) : Z := (d + 6) mod 7.

(** The four lines computing [next_saturday] from [last_date]; they occur
    verbatim in [should_create_weekly_report] and in both [main]s. *)
Definition next_saturday (last_date : Z) : Z :=
  let last_date_weekday := weekday last_date in
  let next_saturday := last_date - last_date_weekday + 5 in
  if next_saturday <=? last_date then next_saturday + 7 else next_saturday.

(** [has_sufficient_weekly_data]: always [True] in the source. *)
Definition has_sufficient_weekly_data : bool := true.

(** [should_create_weekly_report], with the clock reading [today_date]
    and the stored date as arguments; [None] is an absent (or empty)
    [last_weekly_report_date].  [main] of [chatgpt_to_notion.py] computes
    [should_create] with the same lines. *)
Definition should_create_weekly_report (today_date : Z)
  (last_weekly_date : option Z) : bool :=
  match last_weekly_date with
  | Some last_date => today_date >=? next_saturday last_date
  | None => has_sufficient_weekly_data
  end.

(** Outcome of the page-creation call for the weekly report. *)
Inductive weekly_page :=
| PageWithUrl      (* a response carrying a non-empty "url" *)
| PageWithoutUrl   (* a 200/201 response without a usable "url" *)
| PageError.       (* any other status: the call raises *)

Inductive weekly_exit :=
| WeeklyNotDue | WeeklyNoReport | WeeklyFridaySkip | WeeklySaved | WeeklyFailed.

(** What the weekly part of a run leaves behind: the stored
    [last_weekly_report_date], the date the page was filed under (if a
    page was sent), and how the part ended. *)
Record weekly_result := {
  stored_date : option Z;
  filed_under : option Z;
  weekly_status : weekly_exit
}.

(** [registration_date] of [chatgpt_to_notion.main]; [None] is the early
    [return] taken when today is the Friday of the current week. *)
Definition registration_date (original_last_weekly_date : option Z)
  (today_date : Z) : option Z :=
  match original_last_weekly_date with
  | Some last_date => Some (next_saturday last_date + 1)
  | None =>
      let days_since_monday := weekday today_date in
      let monday := today_date - days_since_monday in
      let friday := monday + 4 in
      if today_date =? friday then None else Some (friday + 2)
  end.

(** Weekly part of [chatgpt_to_notion.main].  [today_date] is the clock
    reading used for the decision, [today_date'] the one read again before
    filing; [weekly_report] is the truthiness of what [create_weekly_report]
    returned; [publish] is the outcome of [notion_create_weekly_page] for a
    given filing date. *)
Definition weekly_step (weekly_report : bool) (publish : Z -> weekly_page)
  (last_weekly_date : option Z) (today_date today_date' : Z)
  : weekly_result :=
  let unchanged status filed :=
    {| stored_date := last_weekly_date; filed_under := filed;
       weekly_status := status |} in
  if should_create_weekly_report today_date last_weekly_date then
    if weekly_report then
      match registration_date last_weekly_date today_date' with
      | None => unchanged WeeklyFridaySkip None
      | Some registration_date =>
          match publish registration_date with
          | PageWithUrl =>
              {| stored_date := Some registration_date;
                 filed_under := Some registration_date;
                 weekly_status := WeeklySaved |}
          | PageWithoutUrl | PageError =>
              unchanged WeeklyFailed (Some registration_date)
          end
      end
    else unchanged WeeklyNoReport None
  else unchanged WeeklyNotDue None.

(** Weekly part of [daily_chatgpt_summary.main]: the page is titled and
    dated with today's date, [create_page] raises unless the status is
    200 or 201, and [save_last_weekly_report_date(workdir, today)]
    follows. *)
Definition daily_summary_weekly_step (weekly_report : bool)
  (publish : Z -> weekly_page)
  (last_weekly_date : option Z) (today_date today_date' : Z)
  : weekly_result :=
  let unchanged status filed :=
    {| stored_date := last_weekly_date; filed_under := filed;
       weekly_status := status |} in
  if should_create_weekly_report today_date last_weekly_date then
    if weekly_report then
      match publish today_date' with
      | PageWithUrl | PageWithoutUrl =>
          {| stored_date := Some today_date';
             filed_under := Some today_date';
             weekly_status := WeeklySaved |}
      | PageError => unchanged WeeklyFailed (Some today_date')
      end
    else unchanged WeeklyNoReport None
  else unchanged WeeklyNotDue None.

End Scheduler.

(** ** The export archive *)

Module Archive.

(** One element of [content["parts"]]: a string, or anything else. *)
Inductive Part :=
| PartStr (s : str)
| PartOther.

(** The [content] of a message: absent or [null]; a string; a dictionary
    with a "parts" entry (whose value may be [null]); or any other value,
    of which only the truthiness is read. *)
Inductive Content :=
| ContentNone
| ContentStr (s : str)
| ContentParts (parts : option (list Part))
| ContentOther (truthy : bool).

Record Message := {
  author_role : option str;
  msg_content : Content;
  create_time : option Z;
  msg_id : option str
}.

Record Node := { node_message : option Message }.

(** A conversation record; [conv_mapping] keeps the insertion order of
    the JSON object. *)
Record Conversation := {
  conv_id : option str;
  conv_conversation_id : option str;
  conv_title : option str;
  conv_mapping : option (list (str * Node));
  conv_messages : option (list Message)
}.

(** The tuple yielded by [iter_messages]. *)
Record Event := {
  ev_conv_id : str;
  ev_role : str;
  ev_text : str;
  ev_ts : option Z;
  ev_mid : str;
  ev_title : str
}.

End Archive.
Import Archive.

(** ** Event normalizer ([iter_messages]) *)

Module Normalizer.

Definition unknown_id : str := Eval vm_compute in py "(unknown)".
Definition mapping_prefix : str := Eval vm_compute in py "mapping-".
Definition legacy_prefix : str := Eval vm_compute in py "legacy-".

(** [conv.get("id") or conv.get("conversation_id") or "(unknown)"] *)
Definition conv_key (conv : Conversation) : str :=
  or_else (conv_id conv) (or_else (conv_conversation_id conv) unknown_id).

Definition part_strings (parts : list Part) : list str :=
  omap (fun p => match p with PartStr s => Some s | PartOther => None end)
       parts.

(** The [text] computed from [content]; [None] when neither branch of the
    [if] / [elif] applies. *)
Definition content_text (content : Content) : option str :=
  match content with
  | ContentParts parts => Some (join [nl] (part_strings (default [] parts)))
  | ContentStr s => Some s
  | ContentNone | ContentOther _ => None
  end.

Definition content_truthy (content : Content) : bool :=
  match content with
  | ContentNone => false
  | ContentStr s => nonempty s
  | ContentParts _ => true
  | ContentOther b => b
  end.

(** [node.get("message") or {}] *)
Definition empty_message : Message :=
  {| author_role := None; msg_content := ContentNone;
     create_time := None; msg_id := None |}.

Section WithHash.

(** The interpreter's [hash] on a tuple [(role, text, ts)]. *)
Variable py_hash : str -> str -> option Z -> Z.

(** Loop body for the graph shape ([mapping]). *)
Definition mapping_event (conv_id title : str) (entry : str * Node)
  : option Event :=
  let '(node_id, node) := entry in
  let msg := default empty_message (node_message node) in
  let role := or_else (author_role msg) [] in
  let content := msg_content msg in
  if negb (nonempty role) || negb (content_truthy content) then None
  else
    match content_text content with
    | Some (c :: t) =>
        Some {| ev_conv_id := conv_id; ev_role := role; ev_text := c :: t;
                ev_ts := create_time msg;
                ev_mid := or_else (msg_id msg) (mapping_prefix ++ node_id);
                ev_title := title |}
    | _ => None
    end.

(** Loop body for the flat shape ([messages]). *)
Definition legacy_event (conv_id title : str) (m : Message) : option Event :=
  let role := or_else (author_role m) [] in
  let ts := create_time m in
  match content_text (msg_content m) with
  | Some (c :: t) =>
      if nonempty role then
        let text := c :: t in
        Some {| ev_conv_id := conv_id; ev_role := role; ev_text := text;
                ev_ts := ts;
                ev_mid := or_else (msg_id m)
                            (legacy_prefix ++ str_of_Z (py_hash role text ts));
                ev_title := title |}
      else None
  | _ => None
  end.

(** [iter_messages]: the events in the order they are yielded. *)
Definition iter_messages (conv : Conversation) : list Event :=
  let conv_id := conv_key conv in
  let title := or_else (conv_title conv) [] in
  match conv_mapping conv with
  | Some (e :: es) => omap (mapping_event conv_id title) (e :: es)
  | _ => omap (legacy_event conv_id title) (default [] (conv_messages conv))
  end.

End WithHash.

End Normalizer.
Import Normalizer.

(** ** Checkpoint store *)

Module Checkpoint.

(** [state.json]: [{"version": .., "conv_hwm": {..}, "seen": {..}}] *)
Record State := {
  version : Z;
  conv_hwm : gmap (list N) Z;
  seen : gmap (list N) (list (list N))
}.

(** What [load_state] returns when the file does not exist. *)
Definition empty_state : State :=
  {| version := 1; conv_hwm := ∅; seen := ∅ |}.

Definition load_state (file : option State) : State :=
  default empty_state file.

(** [hwm.get(conv_id, -1)] *)
Definition hwm_of (st : State) (conv_id : str) : Z :=
  default (-1) (conv_hwm st !! conv_id).

(** [seen.get(conv_id, [])] *)
Definition seen_of (st : State) (conv_id : str) : list str :=
  default [] (seen st !! conv_id).

(** Body of the loop over [progress.items()] in [main]; [elements] stands
    for [list(new_seen)], whose order Python leaves unspecified. *)
Definition commit_entry (conv_id : str) (entry : gset (list N) * Z)
  (st : State) : State :=
  let '(new_seen, max_ts) := entry in
  {| version := version st;
     conv_hwm := if max_ts >? hwm_of st conv_id
                 then <[conv_id := max_ts]> (conv_hwm st)
                 else conv_hwm st;
     seen := <[conv_id := seen_of st conv_id ++ elements new_seen]> (seen st) |}.

(** The merge of the run's progress into the state. *)
Definition commit (st : State) (progress : gmap (list N) (gset (list N) * Z))
  : State :=
  map_fold commit_entry st progress.

End Checkpoint.
Import Checkpoint.

(** ** Day bucketer ([ts_to_day], [build_daily_raw]) *)

Module Bucketer.

Definition JST_OFFSET : Z := 32400.
Definition EPOCH_ORDINAL : Z := 719163.
(** The instants [datetime] can represent: years 1 to 9999. *)
Definition MIN_TS : Z := -62135596800.
Definition MAX_TS : Z := 253402300799.

(** [datetime.fromtimestamp(ts, tz=utc).astimezone(JST).date()]; [None]
    when the conversion raises. *)
Definition jst_date (ts : Z) : option Z :=
  if (MIN_TS <=? ts) && (ts + JST_OFFSET <=? MAX_TS)
  then Some (EPOCH_ORDINAL + (ts + JST_OFFSET) / 86400)
  else None.

(** [ts_to_day]: [today] is what [jst_today()] returns, [from_date] the
    parsed [from_date_str] ([None] when [strptime] raises).  The result
    [None] is the source's [None]: the event is dated before the floor. *)
Definition ts_to_day (today : Z) (ts : option Z) (from_date : option Z)
  : option Z :=
  match ts with
  | None => Some today
  | Some t =>
      match jst_date t, from_date with
      | Some date_obj, Some from_date =>
          if date_obj >=? from_date then Some date_obj else None
      | _, _ => Some today
      end
  end.

Definition role_user : str := Eval vm_compute in py "user".
Definition role_assistant : str := Eval vm_compute in py "assistant".
Definition label_user : str := Eval vm_compute in py "ユーザー".
Definition label_assistant : str := Eval vm_compute in py "アシスタント".

Definition bucket_line (ev : Event) : str :=
  let prefix :=
    if decide (ev_role ev = role_user) then label_user
    else if decide (ev_role ev = role_assistant) then label_assistant
    else ev_role ev in
  py "[" ++ prefix ++ py "] " ++ ev_title ev ++ py "｜" ++ strip (ev_text ev).

Definition truncation_suffix : str :=
  Eval vm_compute in [nl] ++ py "…（長文のため途中まで）".

Definition bullet : str := Eval vm_compute in [nl] ++ py "- ".

(** The text of one day: the bullet list of its lines, cut at [max_chars]
    characters with the suffix appended when it is longer.  [take] stands
    for [joined[:max_chars]] with [0 <= max_chars], which is what [main]
    passes; the properties about the content of a day text carry that
    condition. *)
Definition day_text (max_chars : Z) (lines : list str) : str :=
  let joined := bullet ++ join bullet lines in
  if Z.of_nat (length joined) >? max_chars
  then take (Z.to_nat max_chars) joined ++ truncation_suffix
  else joined.

(** State of the loop over one conversation's events: the day buckets,
    [new_seen] and [max_ts]. *)
Definition scan_state : Type := gmap Z (list (list N)) * gset (list N) * Z.

(** The two tests at the head of the loop body, each ending in
    [continue]: an event goes on to [ts_to_day] only when neither
    applies. *)
Definition passes_filter (last_ts : Z) (seen_set : gset (list N))
  (ev : Event) : bool :=
  if match ev_ts ev with Some ts => ts <=? last_ts | None => false end
  then false
  else if decide (ev_mid ev ∈ seen_set) then false
  else true.

(** The rest of the loop body: the floor test, the bucket, [new_seen] and
    [max_ts]. *)
Definition bucket_event (today : Z) (from_date : option Z)
  (acc : scan_state) (ev : Event) : scan_state :=
  let '(buckets, new_seen, max_ts) := acc in
  match ts_to_day today (ev_ts ev) from_date with
  | None => acc
  | Some day =>
      (<[day := default [] (buckets !! day) ++ [bucket_line ev]]> buckets,
       new_seen ∪ {[ev_mid ev]},
       match ev_ts ev with
       | Some ts => if ts >? max_ts then ts else max_ts
       | None => max_ts
       end)
  end.

(** Body of the loop over [iter_messages(conv)]. *)
Definition message_step (today : Z) (from_date : option Z) (last_ts : Z)
  (seen_set : gset (list N)) (acc : scan_state) (ev : Event) : scan_state :=
  if passes_filter last_ts seen_set ev
  then bucket_event today from_date acc ev
  else acc.

Section WithHash.

Variable py_hash : str -> str -> option Z -> Z.

(** The inner loop for one conversation, started from the buckets filled so
    far. *)
Definition scan_conv (today : Z) (from_date : option Z) (st : State)
  (buckets : gmap Z (list (list N))) (conv : Conversation) : scan_state :=
  let conv_id := conv_key conv in
  let last_ts := hwm_of st conv_id in
  let seen_set : gset (list N) := list_to_set (seen_of st conv_id) in
  fold_left (message_step today from_date last_ts seen_set)
            (iter_messages py_hash conv) (buckets, ∅, last_ts).

(** Body of the loop over [conversations]. *)
Definition conv_step (today : Z) (from_date : option Z) (st : State)
  (acc : gmap Z (list (list N)) * gmap (list N) (gset (list N) * Z))
  (conv : Conversation)
  : gmap Z (list (list N)) * gmap (list N) (gset (list N) * Z) :=
  let '(buckets, progress) := acc in
  let '(buckets', new_seen, max_ts) :=
    scan_conv today from_date st buckets conv in
  (buckets',
   if decide (new_seen = ∅) then progress
   else <[conv_key conv := (new_seen, max_ts)]> progress).

Definition max_chars_default : Z := 16000.

(** [build_daily_raw]: the day texts and the run's progress. *)
Definition build_daily_raw (today : Z) (conversations : list Conversation)
  (st : State) (max_chars : Z) (from_date : option Z)
  : gmap Z (list N) * gmap (list N) (gset (list N) * Z) :=
  let '(buckets, progress) :=
    fold_left (conv_step today from_date st) conversations (∅, ∅) in
  (day_text max_chars <$> buckets, progress).

End WithHash.

End Bucketer.
Import Bucketer.
(** ** Batch segmenter (the request-size logic of [main]) *)

Module Segmenter.

Definition len (s : str) : Z := Z.of_nat (length s).

(** Zero-padded decimal of a non-negative number. *)
Definition padded (width : nat) (z : Z) : str :=
  let digits := str_of_Z z in
  repeat 48%N (width - length digits) ++ digits.

(** [date.isoformat()] of the date with the given ordinal. *)
Definition isoformat (ordinal : Z) : str :=
  let z := ordinal - 719163 + 719468 in
  let era := z / 146097 in
  let doe := z - era * 146097 in
  let yoe := (doe - doe / 1460 + doe / 36524 - doe / 146096) / 365 in
  let doy := doe - (365 * yoe + yoe / 4 - yoe / 100) in
  let mp := (5 * doy + 2) / 153 in
  let d := doy - (153 * mp + 2) / 5 + 1 in
  let m := if mp <? 10 then mp + 3 else mp - 9 in
  let y := yoe + era * 400 + (if m <=? 2 then 1 else 0) in
  padded 4 y ++ py "-" ++ padded 2 m ++ py "-" ++ padded 2 d.

(** [sorted(daily_raw.keys())] *)
Definition sorted_days (daily_raw : gmap Z (list N)) : list Z :=
  merge_sort Z.le (elements (dom daily_raw)).

(** One round of [combined_text += f"\n## {day}\n{daily_raw[day]}\n"]. *)
Definition day_section (daily_raw : gmap Z (list N)) (day : Z) : str :=
  [nl] ++ py "## " ++ isoformat day ++ [nl]
       ++ default [] (daily_raw !! day) ++ [nl].

Definition combined_text (daily_raw : gmap Z (list N)) : str :=
  fold_left (fun acc day => acc ++ day_section daily_raw day)
            (sorted_days daily_raw) [].

Definition MAX_CHARS_PER_REQUEST : Z := 120000.

(** Body of the [for line in lines] loop that cuts the text; the state is
    [(chunks, current_chunk)]. *)
Definition chunk_step (max_chars : Z) (st : list (list N) * list N)
  (line : str) : list (list N) * list N :=
  let '(chunks, current_chunk) := st in
  if (len (current_chunk ++ line) >? max_chars) && nonempty current_chunk
  then (chunks ++ [strip current_chunk], line ++ [nl])
  else (chunks, current_chunk ++ line ++ [nl]).

Definition split_chunks (max_chars : Z) (combined_text : str) : list str :=
  let '(chunks, current_chunk) :=
    fold_left (chunk_step max_chars) (split_lines combined_text) ([], []) in
  if nonempty (strip current_chunk) then chunks ++ [strip current_chunk]
  else chunks.

(** The arguments of the successive [summarize] calls of a run, in order:
    none for a blank text, the chunks for a text above the threshold, the
    text itself otherwise. *)
Definition summarizer_inputs (max_chars : Z) (combined_text : str)
  : list str :=
  if len (strip combined_text) =? 0 then []
  else if len combined_text >? max_chars
       then split_chunks max_chars combined_text
       else [combined_text].

End Segmenter.
Import Segmenter.

(** ** Run orchestrator (the daily part of [main]) *)

Module Orchestrator.

(** What [notion_create_page] does for a day: returns a URL, returns
    [None], or raises. *)
Inductive page_outcome :=
| PageUrl (url : str)
| PageNone
| PageRaised.

(** [if url:] *)
Definition url_truthy (o : page_outcome) : bool :=
  match o with
  | PageUrl url => nonempty url
  | PageNone | PageRaised => false
  end.

(** Calls to the outside world, in the order they are made. *)
Inductive effect :=
| Summarized (raw_text : str)
| PageRequested (day : Z)
| StateSaved (st : State).

Inductive exit_status :=
| Completed
| SummarizerFailed
| PublishFailed (day : Z).

Record run_result := {
  effects : list effect;
  successful_days : list Z;
  memory : State;            (* the [state] dictionary at the end *)
  state_file : option State; (* the content of [state.json] at the end *)
  status : exit_status
}.

(** The [summarize] calls, up to the first one that raises. *)
Fixpoint summarize_all (summarize_ok : str -> bool) (inputs : list str)
  : list str * bool :=
  match inputs with
  | [] => ([], true)
  | raw_text :: rest =>
      if summarize_ok raw_text then
        let '(called, ok) := summarize_all summarize_ok rest in
        (raw_text :: called, ok)
      else ([raw_text], false)
  end.

(** The loop [for day in sorted(daily_raw.keys())]: the days saved so far
    and the day at which the run stopped, if any. *)
Fixpoint publish_loop (create_page : Z -> page_outcome) (days : list Z)
  (successful_days : list Z) : list Z * option Z :=
  match days with
  | [] => (successful_days, None)
  | day :: rest =>
      if url_truthy (create_page day)
      then publish_loop create_page rest (successful_days ++ [day])
      else (successful_days, Some day)
  end.

(** [if successful_days and not failed_days], on the path where no day
    failed. *)
Definition nonempty_days (days : list Z) : bool :=
  match days with [] => false | _ => true end.

(** [save_state]: the temporary file is written and moved over
    [state.json]. *)
Definition save_state (st : State) : option State := Some st.

Section WithWorld.

Variable py_hash : str -> str -> option Z -> Z.
(** Whether [summarize] returns for a given input (it raises otherwise). *)
Variable summarize_ok : str -> bool.
(** The outcome of [notion_create_page] for a day. *)
Variable create_page : Z -> page_outcome.

(** The daily part of [main], from [load_state] to [save_state]; [file] is
    the content of [state.json] when the run starts.  The optional
    [state_cleanup] hook is not part of the repository and is skipped, as
    the source does on [ImportError].  The lookup of the database
    properties, made between [build_daily_raw] and the first [summarize]
    call, is taken to return here; a run in which it raises makes none of
    the calls below ([main_run] adds that case). *)
Definition main_daily (today : Z) (from_date : option Z)
  (conversations : list Conversation) (file : option State) : run_result :=
  let st := load_state file in
  let '(daily_raw, progress) :=
    build_daily_raw py_hash today conversations st max_chars_default
                    from_date in
  let '(called, ok) :=
    summarize_all summarize_ok
      (summarizer_inputs MAX_CHARS_PER_REQUEST (combined_text daily_raw)) in
  if negb ok then
    {| effects := Summarized <$> called; successful_days := [];
       memory := st; state_file := file; status := SummarizerFailed |}
  else
    match publish_loop create_page (sorted_days daily_raw) [] with
    | (successful_days, Some day) =>
        {| effects := (Summarized <$> called)
                      ++ (PageRequested <$> (successful_days ++ [day]));
           successful_days := successful_days;
           memory := st; state_file := file; status := PublishFailed day |}
    | (successful_days, None) =>
        if nonempty_days successful_days then
          let st' := commit st progress in
          {| effects := (Summarized <$> called)
                        ++ (PageRequested <$> successful_days)
                        ++ [StateSaved st'];
             successful_days := successful_days;
             memory := st'; state_file := save_state st';
             status := Completed |}
        else
          {| effects := (Summarized <$> called)
                        ++ (PageRequested <$> successful_days);
             successful_days := successful_days;
             memory := st; state_file := file; status := Completed |}
    end.

End WithWorld.

End Orchestrator.
Import Orchestrator.
(** ** The full-export variant of the bucketer ([build_daily_raw_all_data]) *)

Module BucketerAll.

Section WithHash.

Variable py_hash : str -> str -> option Z -> Z.

(** The inner loop: no checkpoint test, [max_ts] starts at 0. *)
Definition scan_conv_all (today : Z) (from_date : option Z)
  (buckets : gmap Z (list (list N))) (conv : Conversation) : scan_state :=
  fold_left (bucket_event today from_date) (iter_messages py_hash conv)
            (buckets, ∅, 0).

Definition conv_step_all (today : Z) (from_date : option Z)
  (acc : gmap Z (list (list N)) * gmap (list N) (gset (list N) * Z))
  (conv : Conversation)
  : gmap Z (list (list N)) * gmap (list N) (gset (list N) * Z) :=
  let '(buckets, progress) := acc in
  let '(buckets', new_seen, max_ts) :=
    scan_conv_all today from_date buckets conv in
  (buckets',
   if decide (new_seen = ∅) then progress
   else <[conv_key conv := (new_seen, max_ts)]> progress).

Definition build_daily_raw_all_data (today : Z)
  (conversations : list Conversation) (max_chars : Z) (from_date : option Z)
  : gmap Z (list N) * gmap (list N) (gset (list N) * Z) :=
  let '(buckets, progress) :=
    fold_left (conv_step_all today from_date) conversations (∅, ∅) in
  (day_text max_chars <$> buckets, progress).

End WithHash.

End BucketerAll.
Import BucketerAll.

(** ** Week arithmetic of [daily_chatgpt_summary.py] *)

Module WeeklyDates.
Import Scheduler.

(** [get_weekly_date_range]: Monday and Friday of the week of today. *)
Definition get_weekly_date_range (today_date : Z) : Z * Z :=
  let days_since_monday := weekday today_date in
  let monday := today_date - days_since_monday in
  let friday := monday + 4 in
  (monday, friday).

(** [get_latest_friday_date] *)
Definition get_latest_friday_date (today_date : Z) : Z :=
  let days_since_monday := weekday today_date in
  let monday := today_date - days_since_monday in
  let friday := monday + 4 in
  if today_date <? friday then friday - 7 else friday.

End WeeklyDates.
Import WeeklyDates.

(** ** The stored weekly-report date ([weekly_report_config.json]) *)

Module WeeklyConfig.

(** The content of [weekly_report_config.json], by what [json.load] makes
    of it: text that is not JSON ([JSONDecodeError], which the code
    catches); a JSON object, whose values the code reads and writes are
    strings; or a file the code cannot use, holding JSON that is not an
    object (the later [config.get] or [config.update] raises
    [AttributeError]) or bytes that are not UTF-8 ([UnicodeDecodeError]),
    neither of which is caught. *)
Inductive config_file :=
| ConfigCorrupt
| ConfigJson (entries : gmap (list N) (list N))
| ConfigUnusable.

(** The two files of the work directory the functions look at; [None] is
    a file that does not exist.  A legacy text file that cannot be decoded
    is read as an empty one (the exception is caught). *)
Record workdir := {
  weekly_report_config : option config_file;
  last_weekly_report_txt : option str
}.

(** How a call ends: it returns a value, or it raises. *)
Inductive outcome (A : Type) :=
| Returned (a : A)
| Raised.
Arguments Returned {A} a.
Arguments Raised {A}.

Definition key_date : str := Eval vm_compute in py "last_weekly_report_date".
Definition key_migrated : str := Eval vm_compute in py "migrated_at".
Definition key_version : str := Eval vm_compute in py "version".
Definition version_1_0 : str := Eval vm_compute in py "1.0".

(** [get_last_weekly_report_date]: the work directory afterwards and how
    the call ends; [now] is the clock reading written on migration. *)
Definition get_last_weekly_report_date (now : str) (w : workdir)
  : workdir * outcome (option str) :=
  match last_weekly_report_txt w, weekly_report_config w with
  | Some txt, None =>
      let content := strip txt in
      if nonempty content then
        ({| weekly_report_config :=
              Some (ConfigJson
                      (<[key_date := content]>
                         (<[key_migrated := now]>
                            (<[key_version := version_1_0]> ∅))));
            last_weekly_report_txt := Some txt |},
         Returned (Some content))
      else (w, Returned None)
  | _, Some (ConfigJson config) => (w, Returned (config !! key_date))
  | _, Some ConfigCorrupt => (w, Returned None)
  | _, Some ConfigUnusable => (w, Raised)
  | None, None => (w, Returned None)
  end.


End WeeklyConfig.
Import WeeklyConfig.

(** ** The title and date properties of the database *)

Module Database.

Definition type_title : str := Eval vm_compute in py "title".
Definition type_date : str := Eval vm_compute in py "date".

(** The name of the first property of a type, in the order of
    [data["properties"].items()]. *)
Fixpoint first_of_type (ty : str) (props : list (list N * list N))
  : option str :=
  match props with
  | [] => None
  | (k, v) :: rest =>
      if decide (v = ty) then Some k else first_of_type ty rest
  end.

(** [notion_get_title_date_props] of [chatgpt_to_notion.py], on the
    properties of a successful response; [None] is the [StopIteration] of
    [next] without a default. *)
Definition notion_get_title_date_props (props : list (list N * list N))
  : option (str * option str) :=
  match first_of_type type_title props with
  | Some title_prop => Some (title_prop, first_of_type type_date props)
  | None => None
  end.

(** Body of the loop of [get_db_props]; a name counts as not yet found
    while it is [None] or empty. *)
Definition db_props_step (acc : option (list N) * option (list N))
  (entry : list N * list N) : option (list N) * option (list N) :=
  let '(title_prop, date_prop) := acc in
  let '(name, ty) := entry in
  let title_prop :=
    if bool_decide (ty = type_title) && negb (nonempty (or_else title_prop []))
    then Some name else title_prop in
  let date_prop :=
    if bool_decide (ty = type_date) && negb (nonempty (or_else date_prop []))
    then Some name else date_prop in
  (title_prop, date_prop).

(** [get_db_props] of [daily_chatgpt_summary.py], on the properties of a
    successful response; [None] is the [RuntimeError] raised when no title
    property was found. *)
Definition get_db_props (props : list (list N * list N))
  : option (str * option str) :=
  let '(title_prop, date_prop) :=
    fold_left db_props_step props (None, None) in
  match title_prop with
  | Some (c :: name) => Some (c :: name, date_prop)
  | _ => None
  end.

End Database.
Import Database.

(** ** The page of a day (the body of the publishing loop of [main]) *)

Module Pages.
Import Renderer.

Definition no_content_empty : str :=
  Eval vm_compute in py "会話内容なし（要約が空）".
Definition no_content_missing : str :=
  Eval vm_compute in py "会話内容なし（該当日付のデータなし）".
Definition heading_prefix : str := Eval vm_compute in py "## ".

(** The markdown [md] sent for a day; [day] is the day key and [summary]
    is [daily_summaries[day]], [None] when the key is absent. *)
Definition page_markdown (day : str) (summary : option str) : str :=
  match summary with
  | Some summary_content =>
      if nonempty (strip summary_content)
         && (len (strip summary_content) >? 5)
      then heading_prefix ++ day ++ [nl] ++ summary_content
      else heading_prefix ++ day ++ [nl; nl] ++ no_content_empty
  | None => heading_prefix ++ day ++ [nl; nl] ++ no_content_missing
  end.

(** The [children] of the page [notion_create_page] posts. *)
Definition page_children (day : str) (summary : option str) : list Block :=
  markdown_to_notion_blocks (page_markdown day summary).

End Pages.
Import Pages.

(** ** The daily part of [main], with the lookup of the database *)

Module FullRun.




End FullRun.
Import FullRun.
(** ** Observations on runs, used to state the properties *)

Module Observations.

(** The days for which a page was requested, in order. *)
Definition requested_days (es : list effect) : list Z :=
  omap (fun e => match e with PageRequested day => Some day | _ => None end) es.

(** The states written to [state.json], in order. *)
Definition saved_states (es : list effect) : list State :=
  omap (fun e => match e with StateSaved st => Some st | _ => None end) es.

(** The inputs of the [summarize] calls, in order. *)
Definition summarized_texts (es : list effect) : list str :=
  omap (fun e => match e with Summarized t => Some t | _ => None end) es.

(** An event whose timestamp converts, in the target timezone, to a date
    strictly before the floor. *)
Definition dated_before_floor (from_date : option Z) (ev : Event) : bool :=
  match ev_ts ev, from_date with
  | Some ts, Some floor =>
      match jst_date ts with
      | Some date_obj => date_obj <? floor
      | None => false
      end
  | _, _ => false
  end.

(** What one conversation contributes to the run's progress: the
    [new_seen] and [max_ts] its loop ends with. *)
Definition conv_progress (py_hash : str -> str -> option Z -> Z)
  (today : Z) (from_date : option Z) (st : State) (conv : Conversation)
  : gset (list N) * Z :=
  let '(_, new_seen, max_ts) := scan_conv py_hash today from_date st ∅ conv in
  (new_seen, max_ts).

(** The part of the loop state that goes into the progress. *)
Definition progress_of (acc : scan_state) : gset (list N) * Z :=
  (acc.1.2, acc.2).

(** The publish of a day succeeds. *)
Definition published_ok (create_page : Z -> page_outcome) (day : Z) : Prop :=
  url_truthy (create_page day) = true.

(** A text made of whitespace only. *)
Definition blank (s : list N) : Prop := Forall (fun c => isspace c = true) s.

(** The text of a group of lines, each followed by a newline: what the
    cutting loop accumulates in [current_chunk]. *)
Definition unlines (g : list (list N)) : list N :=
  concat ((fun l => l ++ [nl]) <$> g).

(** The chunk appended for a group of lines. *)
Definition chunk_of (g : list (list N)) : list N := strip (unlines g).

(** A text within the request threshold. *)
Definition fits (max_chars : Z) (s : list N) : Prop := len s <= max_chars.

(** [current_chunk] between two rounds of the cutting loop, while every
    line fits: empty, or ended by a newline and at most one character over
    the threshold. *)
Definition pending_ok (max_chars : Z) (cur : list N) : Prop :=
  cur = [] \/ len cur <= max_chars + 1 /\ exists s, cur = s ++ [nl].

(** [if mapping:] of [iter_messages]: the conversation is read in the
    graph shape. *)
Definition has_mapping (conv : Conversation) : bool :=
  match conv_mapping conv with
  | Some (_ :: _) => true
  | _ => false
  end.

(** The Checkpoint invariant, for one event of a conversation: when its
    id is in the conversation's seen list, its timestamp, if it has one, is
    at or below the conversation's high-water mark. *)
Definition seen_within_mark (st : State) (conv_id : list N) (ev : Event)
  : Prop :=
  ev_mid ev ∈ seen_of st conv_id ->
  forall ts, ev_ts ev = Some ts -> ts <= hwm_of st conv_id.

(** Message ids identify messages: two events of a conversation with the
    same id carry the same timestamp. *)
Definition ids_identify (evs : list Event) : Prop :=
  forall e1 e2, e1 ∈ evs -> e2 ∈ evs -> ev_mid e1 = ev_mid e2 ->
                ev_ts e1 = ev_ts e2.

End Observations.
Import Observations.

(** ** Further observations, on the renderer and the bucketer *)

Module MoreObservations.
Import Renderer.

(** The markdown a list of spans stands for: bold spans between [**]
    markers, plain spans as they are. *)
Definition unparse (spans : list TextSpan) : list N :=
  concat ((fun sp => if bold sp
                     then [star; star] ++ content sp ++ [star; star]
                     else content sp) <$> spans).

(** The number of [#] characters a line starts with. *)
Fixpoint leading_hashes (line : list N) : nat :=
  match line with
  | c :: rest => if (c =? hash_sign)%N then S (leading_hashes rest) else O
  | [] => O
  end.

(** Every heading has level 1, 2 or 3, stands for markdown that is not
    empty (its spans written back are not empty; the text shown may still
    be empty, when all its spans are bold and empty), and is directly
    followed by two paragraphs holding one empty plain span each. *)
Fixpoint headings_ok (blocks : list Block) : bool :=
  match blocks with
  | [] => true
  | Paragraph _ :: rest => headings_ok rest
  | Heading n rich_text :: Paragraph [s1] :: Paragraph [s2] :: rest =>
      (1 <=? n)%nat && (n <=? 3)%nat && nonempty (unparse rich_text)
      && negb (nonempty (content s1)) && negb (bold s1)
      && negb (nonempty (content s2)) && negb (bold s2)
      && headings_ok rest
  | Heading _ _ :: _ => false
  end.

(** The branch of the renderer's loop body taken by a line that is not a
    heading. *)
Definition text_step (max_chars_per_block : nat) (st : list Block * list N)
  (line : list N) : list Block * list N :=
  let '(blocks, current_content) := st in
  let current_content :=
    if nonempty (strip line) then
      if startswith (strip line) next_action_label
      then current_content ++ line ++ [nl; nl]
      else current_content ++ line ++ [nl]
    else current_content in
  if (max_chars_per_block <? length current_content)%nat
  then (blocks ++ [paragraph_of current_content], [])
  else (blocks, current_content).

(** The timestamps of an export are all at or after the epoch. *)
Definition timestamps_nonnegative (py_hash : str -> str -> option Z -> Z)
  (conversations : list Conversation) : Prop :=
  forall conv ev ts,
    conv ∈ conversations -> ev ∈ iter_messages py_hash conv ->
    ev_ts ev = Some ts -> 0 <= ts.

(** The same, as a test that can be run on an export. *)
Definition timestamps_nonnegativeb (py_hash : str -> str -> option Z -> Z)
  (conversations : list Conversation) : bool :=
  forallb (fun conv =>
             forallb (fun ev => match ev_ts ev with
                                | Some ts => 0 <=? ts
                                | None => true
                                end)
                     (iter_messages py_hash conv))
          conversations.

(** A progress entry as the full-export variant records it: its [max_ts]
    starts at 0, not at the -1 of an empty checkpoint. *)
Definition from_zero (entry : gset (list N) * Z) : gset (list N) * Z :=
  (entry.1, Z.max 0 entry.2).





(** A day key: not empty, made of digits and dashes. *)
Definition iso_chars (day : list N) : bool :=
  nonempty day
  && forallb (fun c => (48 <=? c) && (c <=? 57) || (c =? 45))%N day.

(** A database whose property names are not empty. *)
Definition named (props : list (list N * list N)) : Prop :=
  Forall (fun entry => entry.1 <> []) props.

End MoreObservations.
Import MoreObservations.
(** ** Sample inputs used by the evaluations below *)

Module Samples.

(** The renderer sample of the specification. *)
Definition sample_input : str :=
  py "## Day" ++ [nl] ++ py "**A:** x" ++ [nl] ++ py "rest".

(** Wednesday 2025-10-01 and Monday 2025-10-06 as ordinals. *)
Definition wed_2025_10_01 : Z := 739525.
Definition mon_2025_10_06 : Z := 739530.

(** An event stamped after the high-water mark whose id is already in the
    seen-set, and a checkpoint in which this is the case. *)
Definition late_seen_event : Event :=
  {| ev_conv_id := py "c1"; ev_role := py "user"; ev_text := py "hello";
     ev_ts := Some 100; ev_mid := py "m1"; ev_title := py "t" |}.

Definition late_seen_state : State :=
  {| version := 1; conv_hwm := {[ py "c1" := 50 ]};
     seen := {[ py "c1" := [py "m1"] ]} |}.

(** A graph-shaped conversation with two nodes holding the same message,
    neither with an id of its own. *)
Definition twin_message : Message :=
  {| author_role := Some (py "user"); msg_content := ContentStr (py "hello");
     create_time := Some 1758850000; msg_id := None |}.

Definition twin_conv : Conversation :=
  {| conv_id := Some (py "c1"); conv_conversation_id := None;
     conv_title := Some (py "t");
     conv_mapping := Some [ (py "n1", {| node_message := Some twin_message |});
                            (py "n2", {| node_message := Some twin_message |}) ];
     conv_messages := None |}.

(** A fixed value for the interpreter's hash, for closed evaluations. *)
Definition hash0 : str -> str -> option Z -> Z := fun _ _ _ => 0.

(** Noon (JST) of 2025-09-20, 2025-09-26 and 2025-09-27, and the ordinals
    of 2025-09-25, 2025-09-26, 2025-09-27 and 2025-09-28. *)
Definition ts_sep20 : Z := 1758337200.
Definition ts_sep26 : Z := 1758855600.
Definition ts_sep27 : Z := 1758942000.
Definition day_sep25 : Z := 739519.
Definition day_sep26 : Z := 739520.
Definition day_sep27 : Z := 739521.
Definition day_sep28 : Z := 739522.

Definition user_message (id text : string) (ts : Z) : Message :=
  {| author_role := Some (py "user"); msg_content := ContentStr (py text);
     create_time := Some ts; msg_id := Some (py id) |}.

Definition flat_conv (id : option str) (title : string)
  (messages : list Message) : Conversation :=
  {| conv_id := id; conv_conversation_id := None;
     conv_title := Some (py title); conv_mapping := None;
     conv_messages := Some messages |}.

(** The scenario of the specification: two conversations, each with a
    message of 2025-09-20 and one of 2025-09-26. *)
Definition scenario_convs : list Conversation :=
  [ flat_conv (Some (py "c1")) "first"
      [user_message "a1" "old one" ts_sep20; user_message "a2" "new one" ts_sep26];
    flat_conv (Some (py "c2")) "second"
      [user_message "b1" "old two" ts_sep20; user_message "b2" "new two" ts_sep26] ].

(** Two conversations without an id: both are filed under "(unknown)". *)
Definition anonymous_convs : list Conversation :=
  [ flat_conv None "first" [user_message "a" "later" ts_sep27];
    flat_conv None "second" [user_message "b" "earlier" ts_sep26] ].

(** A flat-shape conversation whose only message has neither an id nor a
    timestamp, and the hash of another process. *)
Definition untimed_conv : Conversation :=
  flat_conv (Some (py "c1")) "first"
    [ {| author_role := Some (py "user");
         msg_content := ContentStr (py "hello");
         create_time := None; msg_id := None |} ].

Definition hash1 : str -> str -> option Z -> Z := fun _ _ _ => 1.

(** A publisher and a summarizer that always succeed. *)
Definition always_published : Z -> page_outcome :=
  fun _ => PageUrl (py "https://www.notion.so/page").
Definition always_summarized : str -> bool := fun _ => true.

(** One conversation with a message on each of eight consecutive days,
    sized so that the combined text of the run has
    [MAX_CHARS_PER_REQUEST + 1] characters; every day text stays below the
    per-day cap. *)
Definition long_message (i : nat) (n : Z) : Message :=
  {| author_role := Some (py "user");
     msg_content := ContentStr (repeat 97%N (Z.to_nat n));
     create_time := Some (ts_sep26 + 86400 * Z.of_nat i);
     msg_id := Some (py "m" ++ str_of_Z (Z.of_nat i)) |}.

Definition long_export : list Conversation :=
  [ flat_conv (Some (py "c1")) "t"
      (((fun i => long_message i 14988) <$> seq 0 7) ++ [long_message 7 14861]) ].

Definition day_oct04 : Z := 739528.

(** A mapping with a single line longer than the threshold (longer than
    what [build_daily_raw] produces under its default cap). *)
Definition huge_day : gmap Z (list N) :=
  {[ day_sep26 := bullet ++ repeat 97%N (Z.to_nat 130000) ]}.

End Samples.
Import Samples.

(** ** Further sample inputs *)

Module MoreSamples.

(** A message with an id, a timestamp and text given as parts. *)
Definition parts_message : Message :=
  {| author_role := Some (py "assistant");
     msg_content := ContentParts (Some [PartStr (py "one"); PartOther;
                                        PartStr (py "two")]);
     create_time := Some ts_sep26; msg_id := Some (py "m1") |}.

(** A database with two date properties around its title property. *)
Definition sample_props : list (list N * list N) :=
  [(py "Date", type_date); (py "Name", type_title); (py "When", type_date)].

(** Sunday 2025-10-05. *)
Definition sun_2025_10_05 : Z := 739529.


(** A database lookup that returns. *)
Definition sample_db : option (list (list N * list N)) := Some sample_props.

End MoreSamples.
Import MoreSamples.
(** ** Properties of the renderer *)

Module RendererSpec.
Import Renderer.

(** A bold span consumes its text and the closing marker. *)
Lemma close_bold_length (s g r : list N) :
  close_bold s = Some (g, r) -> length s = (length g + 2 + length r)%nat.
Proof.
  revert g r. induction s as [|c s IH]; intros g r; [discriminate|].
  cbn [close_bold].
  destruct (startswith (c :: s) [star; star]) eqn:Hs.
  - intros [= <- <-]. destruct s as [|c' s]; [simpl in Hs|simpl; rewrite drop_0; lia].
    by rewrite andb_false_r in Hs.
  - destruct (c =? nl)%N; [discriminate|].
    destruct (close_bold s) as [[g' r']|]; [|discriminate].
    intros [= <- <-]. simpl. rewrite (IH g' r') by done. lia.
Qed.

Lemma match_here_length (s g r : list N) :
  match_here s = Some (g, r) -> length s = (length g + 4 + length r)%nat.
Proof.
  unfold match_here. destruct (startswith s [star; star]) eqn:Hs; [|discriminate].
  intros H. apply close_bold_length in H.
  destruct s as [|a [|b s]]; simpl in Hs; try discriminate.
  - by rewrite andb_false_r in Hs.
  - simpl in H. rewrite drop_0 in H. simpl. lia.
Qed.

(** The scan for bold spans ends within the fuel [finditer] gives it: any
    fuel at least the length of the text yields the same matches. *)
Lemma finditer_from_fuel (f1 f2 pos : nat) (s : list N) :
  (length s <= f1)%nat -> (length s <= f2)%nat ->
  finditer_from f1 pos s = finditer_from f2 pos s.
Proof.
  revert f2 pos s. induction f1 as [|f1 IH]; intros f2 pos s H1 H2.
  - destruct s; [|simpl in H1; lia]. by destruct f2.
  - destruct f2 as [|f2]; [destruct s; [done|simpl in H2; lia]|].
    destruct s as [|c s]; [done|]. cbn [finditer_from].
    destruct (match_here (c :: s)) as [[g r]|] eqn:Hm.
    + apply match_here_length in Hm. simpl in *.
      f_equal. apply IH; lia.
    + simpl in *. apply IH; lia.
Qed.

(** C9. The input ["## Day\n**A:** x\nrest"] renders as a level-2 heading
    "Day", two empty spacer paragraphs, and one paragraph made of the bold
    span "A:" followed by the plain span " x\nrest". *)
Theorem render_sample_blocks :
  markdown_to_notion_blocks sample_input =
  [ Heading 2 [plain (py "Day")];
    Paragraph [plain []];
    Paragraph [plain []];
    Paragraph [strong (py "A:"); plain (py " x" ++ [nl] ++ py "rest")] ].
Proof. vm_compute. reflexivity. Qed.

(** A heading line without text produces no heading, and the text that
    follows it is kept. *)
Example empty_heading_dropped :
  markdown_to_notion_blocks (py "### " ++ [nl] ++ py "text")
  = [ Paragraph [plain (py "text")] ].
Proof. vm_compute. reflexivity. Qed.

End RendererSpec.

(** ** Properties of the scheduler *)

Module SchedulerSpec.
Import Scheduler.

Lemma weekday_range d : 0 <= weekday d < 7.
Proof. unfold weekday. apply Z.mod_pos_bound. lia. Qed.

Lemma weekday_shift d k : weekday (d + 7 * k) = weekday d.
Proof.
  unfold weekday.
  replace (d + 7 * k + 6) with (d + 6 + k * 7) by lia.
  apply Z.mod_add. lia.
Qed.

Lemma next_saturday_cases last_date :
  next_saturday last_date =
  if weekday last_date <? 5 then last_date + (5 - weekday last_date)
  else last_date + (12 - weekday last_date).
Proof.
  unfold next_saturday. cbv zeta.
  pose proof (weekday_range last_date).
  destruct (Z.leb_spec (last_date - weekday last_date + 5) last_date);
    destruct (Z.ltb_spec (weekday last_date) 5); lia.
Qed.

Lemma next_saturday_is_saturday last_date :
  weekday (next_saturday last_date) = 5.
Proof.
  rewrite next_saturday_cases.
  pose proof (weekday_range last_date) as Hr.
  unfold weekday in *.
  destruct (Z.ltb_spec ((last_date + 6) mod 7) 5);
    Z.to_euclidean_division_equations; lia.
Qed.

(** C7. For a present last registration date, the computed next Saturday
    is a Saturday, lies strictly after that date and no Saturday lies
    strictly between them; from a Wednesday it is three days later, from a
    Saturday seven days later; and the digest is judged due exactly when
    today is on or after it. *)
Theorem next_saturday_first_after (last_date today_date : Z) :
  let sat := next_saturday last_date in
  weekday sat = 5 /\ last_date < sat
  /\ (forall d, last_date < d -> weekday d = 5 -> sat <= d)
  /\ (weekday last_date = 2 -> sat = last_date + 3)
  /\ (weekday last_date = 5 -> sat = last_date + 7)
  /\ (should_create_weekly_report today_date (Some last_date) = true
      <-> sat <= today_date).
Proof.
  cbv zeta. split; [apply next_saturday_is_saturday|].
  rewrite next_saturday_cases.
  pose proof (weekday_range last_date) as Hr.
  repeat split.
  - destruct (Z.ltb_spec (weekday last_date) 5); lia.
  - intros d Hd Hsat. unfold weekday in *.
    destruct (Z.ltb_spec ((last_date + 6) mod 7) 5);
      Z.to_euclidean_division_equations; lia.
  - intros ->. reflexivity.
  - intros ->. reflexivity.
  - unfold should_create_weekly_report. rewrite next_saturday_cases.
    intros H. apply Z.geb_le in H. lia.
  - unfold should_create_weekly_report. rewrite next_saturday_cases.
    intros H. apply Z.geb_le. lia.
Qed.

(** In the orchestrator a saved weekly run stores the date the page was
    filed under; with a prior registration this is the Sunday that follows
    the computed next Saturday. *)
Lemma weekly_step_stores_filing_date report publish last today today' :
  weekly_status (weekly_step report publish last today today') = WeeklySaved ->
  stored_date (weekly_step report publish last today today')
  = filed_under (weekly_step report publish last today today')
  /\ (forall last_date, last = Some last_date ->
       stored_date (weekly_step report publish last today today')
       = Some (next_saturday last_date + 1)
       /\ weekday (next_saturday last_date + 1) = 6).
Proof.
  unfold weekly_step.
  destruct (should_create_weekly_report today last); [|discriminate].
  destruct report; [|discriminate].
  destruct (registration_date last today') as [reg|] eqn:Hreg; [|discriminate].
  destruct (publish reg); try discriminate.
  intros _. split; [reflexivity|].
  intros last_date ->. simpl in Hreg. injection Hreg as <-.
  split; [reflexivity|].
  pose proof (next_saturday_is_saturday last_date) as Hs.
  unfold weekday in *. Z.to_euclidean_division_equations; lia.
Qed.

(** A failed weekly publish leaves the stored date as it was. *)
Lemma weekly_step_failure_keeps_date report publish last today today' :
  weekly_status (weekly_step report publish last today today') <> WeeklySaved ->
  stored_date (weekly_step report publish last today today') = last.
Proof.
  unfold weekly_step.
  destruct (should_create_weekly_report today last); [|reflexivity].
  destruct report; [|reflexivity].
  destruct (registration_date last today'); [|reflexivity].
  destruct (publish z); simpl; congruence.
Qed.

(** C8. Evaluation of both weekly paths with the last registration on
    Wednesday 2025-10-01, today Monday 2025-10-06 and a successful publish:
    [chatgpt_to_notion.main] stores Sunday 2025-10-05, the day after the
    computed Saturday, while [daily_chatgpt_summary.main] files the page
    under today's date and stores today's date. *)
Theorem daily_summary_stores_today :
  weekly_step true (fun _ => PageWithUrl) (Some wed_2025_10_01)
              mon_2025_10_06 mon_2025_10_06
  = {| stored_date := Some (next_saturday wed_2025_10_01 + 1);
       filed_under := Some (next_saturday wed_2025_10_01 + 1);
       weekly_status := WeeklySaved |}
  /\ daily_summary_weekly_step true (fun _ => PageWithUrl) (Some wed_2025_10_01)
                               mon_2025_10_06 mon_2025_10_06
  = {| stored_date := Some mon_2025_10_06;
       filed_under := Some mon_2025_10_06;
       weekly_status := WeeklySaved |}
  /\ next_saturday wed_2025_10_01 + 1 = 739529
  /\ mon_2025_10_06 <> next_saturday wed_2025_10_01 + 1.
Proof. vm_compute. repeat split; congruence. Qed.

End SchedulerSpec.
(** ** Properties of the normalizer and of the checkpoint filter *)

Module NormalizerSpec.

(** In the graph shape two nodes that hold the same role, text and
    timestamp and no id get different message ids: there the id comes from
    the key of the node. *)
Lemma synthesized_id_counterexample :
  exists e1 e2,
    (forall py_hash, iter_messages py_hash twin_conv = [e1; e2])
    /\ ev_role e1 = ev_role e2 /\ ev_text e1 = ev_text e2
    /\ ev_ts e1 = ev_ts e2
    /\ ev_mid e1 <> ev_mid e2.
Proof.
  eexists _, _. split; [intros h; vm_compute; reflexivity|].
  repeat split; vm_compute; congruence.
Qed.

(** A message without an id of its own gets, in the flat shape, the id
    "legacy-" followed by the interpreter's hash of its (role, text,
    timestamp), and in the graph shape the id "mapping-" followed by the
    key of its node. *)
Lemma synthesized_id_by_shape (py_hash : str -> str -> option Z -> Z)
  (conv_id title : str) :
  (forall m e,
      or_else (msg_id m) [] = [] ->
      legacy_event py_hash conv_id title m = Some e ->
      ev_mid e = legacy_prefix
                 ++ str_of_Z (py_hash (ev_role e) (ev_text e) (ev_ts e)))
  /\ (forall node_id node e,
      or_else (msg_id (default empty_message (node_message node))) [] = [] ->
      mapping_event conv_id title (node_id, node) = Some e ->
      ev_mid e = mapping_prefix ++ node_id).
Proof.
  split.
  - intros m e Hid. unfold legacy_event.
    destruct (content_text (msg_content m)) as [[|c t]|]; try discriminate.
    destruct (nonempty (or_else (author_role m) [])); [|discriminate].
    intros [= <-]. simpl.
    destruct (msg_id m) as [[|a i]|]; simpl in *; congruence.
  - intros node_id node e Hid. unfold mapping_event.
    set (msg := default empty_message (node_message node)) in *.
    destruct (negb _ || negb _); [discriminate|].
    destruct (content_text (msg_content msg)) as [[|c t]|]; try discriminate.
    intros [= <-]. simpl.
    destruct (msg_id msg) as [[|a i]|]; simpl in *; congruence.
Qed.

Lemma str_of_Z_inj (x y : Z) : str_of_Z x = str_of_Z y -> x = y.
Proof.
  unfold str_of_Z. intros H. apply (inj pretty).
  rewrite <- (string_of_list_ascii_of_string (pretty x)),
          <- (string_of_list_ascii_of_string (pretty y)).
  f_equal. revert H.
  generalize (list_ascii_of_string (pretty x)),
             (list_ascii_of_string (pretty y)).
  intros l1. induction l1 as [|a l1 IH]; intros [|b l2]; try discriminate.
  - done.
  - cbn [List.map]. intros [= Hab Hl]. f_equal; [|by apply IH].
    by rewrite <- (ascii_N_embedding a), <- (ascii_N_embedding b), Hab.
Qed.

(** In the flat shape the synthesized id of a message follows the hash:
    two interpreters give the message the same id exactly when their
    hashes of its (role, text, timestamp) agree. *)
Lemma legacy_id_follows_hash (h1 h2 : str -> str -> option Z -> Z)
  (conv_id title : str) (m : Message) (e1 e2 : Event) :
  or_else (msg_id m) [] = [] ->
  legacy_event h1 conv_id title m = Some e1 ->
  legacy_event h2 conv_id title m = Some e2 ->
  ev_role e1 = ev_role e2 /\ ev_text e1 = ev_text e2 /\ ev_ts e1 = ev_ts e2
  /\ (ev_mid e1 = ev_mid e2
      <-> h1 (ev_role e1) (ev_text e1) (ev_ts e1)
          = h2 (ev_role e1) (ev_text e1) (ev_ts e1)).
Proof.
  intros Hid H1 H2.
  destruct (synthesized_id_by_shape h1 conv_id title) as [L1 _].
  destruct (synthesized_id_by_shape h2 conv_id title) as [L2 _].
  rewrite (L1 m e1 Hid H1), (L2 m e2 Hid H2).
  unfold legacy_event in H1, H2.
  destruct (content_text (msg_content m)) as [[|c t]|]; try discriminate.
  destruct (nonempty (or_else (author_role m) [])); [|discriminate].
  injection H1 as <-. injection H2 as <-. cbn.
  repeat split; try done.
  - intros [= H]. by apply str_of_Z_inj.
  - by intros ->.
Qed.

(** In the graph shape the events, ids included, do not depend on the
    hash. *)
Lemma mapping_ids_are_stable (h1 h2 : str -> str -> option Z -> Z)
  (conv : Conversation) :
  has_mapping conv = true ->
  iter_messages h1 conv = iter_messages h2 conv.
Proof.
  unfold has_mapping, iter_messages.
  by destruct (conv_mapping conv) as [[|e es]|].
Qed.

(** C4. The code does not keep the synthesized id stable across runs.
    The export holds one conversation of the flat shape whose only message
    has neither an id nor a timestamp.  The id it gets is "legacy-"
    followed by the interpreter's hash of (role, text, timestamp), a hash
    that Python salts per process: with two values of the hash the same
    message gets two ids.  A first run commits the first id; the second
    run, in a process with another hash, does not find its id in the seen
    list, buckets the message again and records the second id, while with
    the hash of the first run it finds nothing new.  In general, in the
    flat shape two interpreters give a message the same id exactly when
    their hashes of its (role, text, timestamp) agree; in the graph shape
    the id is the key of the node and does not depend on the hash. *)
Theorem synthesized_id_changes_with_salt :
  let run1 := main_daily hash0 always_summarized always_published day_sep28
                         (Some day_sep25) [untimed_conv] None in
  let st1 := load_state (state_file run1) in
  (ev_mid <$> iter_messages hash0 untimed_conv = [py "legacy-0"]
   /\ ev_mid <$> iter_messages hash1 untimed_conv = [py "legacy-1"]
   /\ (fun e => (ev_role e, ev_text e, ev_ts e))
        <$> iter_messages hash0 untimed_conv
      = (fun e => (ev_role e, ev_text e, ev_ts e))
          <$> iter_messages hash1 untimed_conv)
  /\ (saved_states (effects run1) <> []
      /\ seen_of st1 (py "c1") = [py "legacy-0"])
  /\ (build_daily_raw hash0 day_sep28 [untimed_conv] st1 max_chars_default
                      (Some day_sep25) = (∅, ∅)
      /\ (build_daily_raw hash1 day_sep28 [untimed_conv] st1
                          max_chars_default (Some day_sep25)).2
         = {[ py "c1" := ({[ py "legacy-1" ]}, -1) ]}
      /\ dom (build_daily_raw hash1 day_sep28 [untimed_conv] st1
                              max_chars_default (Some day_sep25)).1
         = {[ day_sep28 ]})
  /\ (forall h1 h2 conv_id title m e1 e2,
         or_else (msg_id m) [] = [] ->
         legacy_event h1 conv_id title m = Some e1 ->
         legacy_event h2 conv_id title m = Some e2 ->
         (ev_mid e1 = ev_mid e2
          <-> h1 (ev_role e1) (ev_text e1) (ev_ts e1)
              = h2 (ev_role e1) (ev_text e1) (ev_ts e1)))
  /\ (forall h1 h2 conv,
         has_mapping conv = true ->
         iter_messages h1 conv = iter_messages h2 conv).
Proof.
  cbv zeta. split; [|split; [|split; [|split]]].
  - repeat split; vm_compute; reflexivity.
  - split; [vm_compute; discriminate|vm_compute; reflexivity].
  - repeat split; vm_compute; reflexivity.
  - intros h1 h2 conv_id title m e1 e2 Hid H1 H2.
    by destruct (legacy_id_follows_hash h1 h2 conv_id title m e1 e2 Hid H1 H2)
      as (_ & _ & _ & H).
  - intros h1 h2 conv. apply mapping_ids_are_stable.
Qed.

End NormalizerSpec.

Module FilterSpec.

Lemma passes_filter_true (last_ts : Z) (seen_set : gset (list N))
  (ev : Event) :
  passes_filter last_ts seen_set ev = true
  <-> match ev_ts ev with Some ts => ts > last_ts | None => True end
      /\ ev_mid ev ∉ seen_set.
Proof.
  unfold passes_filter.
  destruct (ev_ts ev) as [ts|].
  - destruct (Z.leb_spec ts last_ts); [split; [discriminate|lia]|].
    destruct (decide (ev_mid ev ∈ seen_set)); split; try done.
    + intros [_ ?]; done.
    + intros _. split; [lia|done].
  - destruct (decide (ev_mid ev ∈ seen_set)); split; try done.
    intros [_ ?]; done.
Qed.


(** The invariant is needed: in a state that lists the id of an
    event stamped after the high-water mark, the event is filtered out. *)
Lemma filter_outside_invariant :
  passes_filter (hwm_of late_seen_state (ev_conv_id late_seen_event))
                (list_to_set (seen_of late_seen_state
                                      (ev_conv_id late_seen_event)))
                late_seen_event = false
  /\ (exists ts, ev_ts late_seen_event = Some ts
                 /\ ts > hwm_of late_seen_state (ev_conv_id late_seen_event))
  /\ ~ seen_within_mark late_seen_state (ev_conv_id late_seen_event)
                        late_seen_event.
Proof.
  split; [|split].
  - apply not_true_iff_false. rewrite passes_filter_true.
    intros [_ Hnot]. apply Hnot. vm_compute. set_solver.
  - exists 100. split; [reflexivity|]. vm_compute. reflexivity.
  - intros H. unfold seen_within_mark in H.
    assert (100 <= hwm_of late_seen_state (ev_conv_id late_seen_event)) as Hb.
    { apply H; [|reflexivity]. vm_compute. set_solver. }
    vm_compute in Hb. by apply Hb.
Qed.



End FilterSpec.
(** ** Properties of the run orchestrator *)

Module OrchestratorSpec.

Section PublishLoop.

Variable create_page : Z -> page_outcome.

Lemma publish_loop_all_ok (days acc succ : list Z) :
  publish_loop create_page days acc = (succ, None) ->
  Forall (published_ok create_page) days /\ succ = acc ++ days.
Proof.
  revert acc. induction days as [|d days IH]; intros acc; simpl.
  - intros [= <-]. split; [constructor|by rewrite app_nil_r].
  - destruct (url_truthy (create_page d)) eqn:Hd; [|discriminate].
    intros H. apply IH in H as [Hall ->]. split.
    + constructor; done.
    + by rewrite <- app_assoc.
Qed.

Lemma publish_loop_first_failure (pre post acc : list Z) (d : Z) :
  Forall (published_ok create_page) pre ->
  url_truthy (create_page d) = false ->
  publish_loop create_page (pre ++ d :: post) acc = (acc ++ pre, Some d).
Proof.
  revert acc. induction pre as [|p pre IH]; intros acc Hpre Hd; simpl.
  - rewrite Hd. by rewrite app_nil_r.
  - inversion Hpre as [|? ? Hp Hpre']; subst. unfold published_ok in Hp.
    rewrite Hp, IH by done. by rewrite <- app_assoc.
Qed.

End PublishLoop.

Lemma requested_days_summarized (called : list (list N)) :
  requested_days (Summarized <$> called) = [].
Proof. induction called; simpl; auto. Qed.

Lemma requested_days_requested (days : list Z) :
  requested_days (PageRequested <$> days) = days.
Proof. induction days; simpl; [done|]. unfold requested_days in *. simpl. by f_equal. Qed.

Lemma saved_states_summarized (called : list (list N)) :
  saved_states (Summarized <$> called) = [].
Proof. induction called; simpl; auto. Qed.

Lemma saved_states_requested (days : list Z) :
  saved_states (PageRequested <$> days) = [].
Proof. induction days; simpl; auto. Qed.

Lemma requested_days_app (a b : list effect) :
  requested_days (a ++ b) = requested_days a ++ requested_days b.
Proof. unfold requested_days. apply omap_app. Qed.

Lemma saved_states_app (a b : list effect) :
  saved_states (a ++ b) = saved_states a ++ saved_states b.
Proof. unfold saved_states. apply omap_app. Qed.

(** C1. In every run, the checkpoint is written (or the state in memory
    changed) only if the publish of every day of the run succeeded; and if
    some day's publish fails, the run stops at the first such day: no page
    is requested for a later day, nothing is written, and both the file and
    the state in memory are what they were when the run started. *)
Theorem commit_requires_every_publish
  (py_hash : str -> str -> option Z -> Z) (summarize_ok : str -> bool)
  (create_page : Z -> page_outcome) (today : Z) (from_date : option Z)
  (conversations : list Conversation) (file : option State) :
  let r := main_daily py_hash summarize_ok create_page today from_date
                      conversations file in
  let days := sorted_days (build_daily_raw py_hash today conversations
                             (load_state file) max_chars_default from_date).1 in
  (saved_states (effects r) <> [] \/ state_file r <> file
   \/ memory r <> load_state file ->
   Forall (fun d => url_truthy (create_page d) = true) days
   /\ requested_days (effects r) = days
   /\ status r = Completed)
  /\ (forall pre d post,
        days = pre ++ d :: post ->
        Forall (fun d' => url_truthy (create_page d') = true) pre ->
        url_truthy (create_page d) = false ->
        saved_states (effects r) = []
        /\ state_file r = file
        /\ memory r = load_state file
        /\ (status r = PublishFailed d
            /\ requested_days (effects r) = pre ++ [d]
            /\ successful_days r = pre
            \/ status r = SummarizerFailed
               /\ requested_days (effects r) = [])).
Proof.
  cbv zeta. unfold main_daily.
  destruct (build_daily_raw _ _ _ _ _ _) as [daily_raw progress]. simpl fst.
  destruct (summarize_all _ _) as [called ok].
  destruct ok; simpl negb; cbv iota.
  2:{ simpl. rewrite saved_states_summarized, requested_days_summarized.
      split; [intros [?|[?|?]]; done|]. intros. repeat split; auto. }
  destruct (publish_loop _ _ _) as [succ [day|]] eqn:Hloop.
  - simpl. rewrite saved_states_app, saved_states_summarized,
      saved_states_requested, requested_days_app, requested_days_summarized,
      requested_days_requested. simpl.
    split; [intros [?|[?|?]]; done|].
    intros pre d post Hdays Hpre Hd.
    rewrite Hdays, (publish_loop_first_failure create_page pre post [] d)
      in Hloop by done.
    injection Hloop as <- <-. repeat split; auto.
  - apply publish_loop_all_ok in Hloop as [Hall ->]. simpl app in *.
    split.
    + destruct (sorted_days daily_raw) as [|d0 ds] eqn:Hds; simpl.
      * rewrite app_nil_r, saved_states_summarized.
        intros [?|[?|?]]; done.
      * intros _. rewrite requested_days_app, requested_days_summarized.
        simpl. rewrite requested_days_app.
        change (PageRequested d0 :: (PageRequested <$> ds))
          with (PageRequested <$> (d0 :: ds)).
        rewrite requested_days_requested. simpl. rewrite app_nil_r.
        repeat split; done.
    + intros pre d post Hdays Hpre Hd. exfalso.
      rewrite Hdays in Hall. apply Forall_app in Hall as [_ Hall].
      inversion Hall as [|? ? Hbad _]; subst. unfold published_ok in Hbad.
      congruence.
Qed.

End OrchestratorSpec.
(** ** Properties of the checkpoint store and of the bucketer *)

Module CheckpointSpec.

(** The state after a commit, entry by entry. *)
Lemma commit_lookup (st : State)
  (progress : gmap (list N) (gset (list N) * Z)) :
  version (commit st progress) = version st
  /\ forall c : list N,
      conv_hwm (commit st progress) !! c
      = match progress !! c with
        | Some (_, max_ts) =>
            if max_ts >? hwm_of st c then Some max_ts else conv_hwm st !! c
        | None => conv_hwm st !! c
        end
      /\ seen (commit st progress) !! c
         = match progress !! c with
           | Some (new_seen, _) => Some (seen_of st c ++ elements new_seen)
           | None => seen st !! c
           end.
Proof.
  unfold commit.
  apply (map_fold_weak_ind
           (fun r (m : gmap (list N) (gset (list N) * Z)) =>
              version r = version st
              /\ forall c : list N,
                  conv_hwm r !! c
                  = match m !! c with
                    | Some (_, max_ts) =>
                        if max_ts >? hwm_of st c then Some max_ts
                        else conv_hwm st !! c
                    | None => conv_hwm st !! c
                    end
                  /\ seen r !! c
                     = match m !! c with
                       | Some (new_seen, _) =>
                           Some (seen_of st c ++ elements new_seen)
                       | None => seen st !! c
                       end)).
  - split; [done|]. intros c. rewrite lookup_empty. done.
  - intros i [new_seen max_ts] m r Hi [Hv IH].
    split; [done|]. intros c.
    destruct (IH i) as [Hh Hs]. rewrite Hi in Hh, Hs.
    assert (hwm_of r i = hwm_of st i) as Hhw by (unfold hwm_of; by rewrite Hh).
    assert (seen_of r i = seen_of st i) as Hsn by (unfold seen_of; by rewrite Hs).
    destruct (decide (i = c)) as [<-|Hne].
    + rewrite lookup_insert_eq. simpl. rewrite Hhw, Hsn.
      rewrite lookup_insert_eq. split; [|done].
      destruct (max_ts >? hwm_of st i); [by rewrite lookup_insert_eq|done].
    + rewrite (lookup_insert_ne m) by done. simpl.
      rewrite lookup_insert_ne by done.
      destruct (IH c) as [Hhc Hsc]. split; [|done].
      destruct (max_ts >? hwm_of r i); [by rewrite lookup_insert_ne|done].
Qed.

Lemma commit_hwm_of (st : State)
  (progress : gmap (list N) (gset (list N) * Z)) (c : list N) :
  hwm_of (commit st progress) c
  = match progress !! c with
    | Some (_, max_ts) => Z.max max_ts (hwm_of st c)
    | None => hwm_of st c
    end.
Proof.
  destruct (commit_lookup st progress) as [_ H]. destruct (H c) as [Hh _].
  unfold hwm_of at 1. rewrite Hh.
  destruct (progress !! c) as [[ns mx]|]; [|done].
  destruct (Z.gtb_spec mx (hwm_of st c)); simpl; [lia|].
  fold (hwm_of st c). lia.
Qed.

Lemma commit_seen_of (st : State)
  (progress : gmap (list N) (gset (list N) * Z)) (c : list N) :
  seen_of (commit st progress) c
  = match progress !! c with
    | Some (new_seen, _) => seen_of st c ++ elements new_seen
    | None => seen_of st c
    end.
Proof.
  destruct (commit_lookup st progress) as [_ H]. destruct (H c) as [_ Hs].
  unfold seen_of at 1. rewrite Hs.
  destruct (progress !! c) as [[ns mx]|]; done.
Qed.

(** *** The loop over one conversation's events *)

Section Scan.

Variables (today : Z) (from_date : option Z) (last_ts : Z)
          (seen_set : gset (list N)).

Let step := message_step today from_date last_ts seen_set.

(** [new_seen] and [max_ts] only grow. *)
Lemma message_step_grows (acc : scan_state) (ev : Event) :
  acc.1.2 ⊆ (step acc ev).1.2 /\ acc.2 <= (step acc ev).2.
Proof.
  unfold step, message_step, bucket_event.
  destruct acc as [[b ns] mx]. simpl.
  destruct (passes_filter _ _ _); [|done].
  destruct (ts_to_day _ _ _); [|done]. simpl.
  split; [set_solver|].
  destruct (ev_ts ev) as [ts|]; [|lia].
  destruct (Z.gtb_spec ts mx); lia.
Qed.

Lemma scan_grows (evs : list Event) (acc : scan_state) :
  acc.1.2 ⊆ (fold_left step evs acc).1.2 /\ acc.2 <= (fold_left step evs acc).2.
Proof.
  revert acc. induction evs as [|ev evs IH]; intros acc; simpl; [done|].
  destruct (IH (step acc ev)) as [H1 H2].
  destruct (message_step_grows acc ev) as [H3 H4].
  split; [by transitivity (step acc ev).1.2|lia].
Qed.

(** Every event that is bucketed has its id in the final [new_seen] and its
    timestamp, if any, at or below the final [max_ts]. *)
Lemma scan_records_bucketed (evs : list Event) (acc : scan_state) (ev : Event) :
  ev ∈ evs ->
  passes_filter last_ts seen_set ev = true ->
  ts_to_day today (ev_ts ev) from_date <> None ->
  ev_mid ev ∈ (fold_left step evs acc).1.2
  /\ forall ts, ev_ts ev = Some ts -> ts <= (fold_left step evs acc).2.
Proof.
  revert acc. induction evs as [|e evs IH]; intros acc Hin Hp Hd.
  - by apply elem_of_nil in Hin.
  - apply elem_of_cons in Hin as [->|Hin]; [|by apply IH].
    simpl. destruct (scan_grows evs (step acc e)) as [H1 H2].
    assert (ev_mid e ∈ (step acc e).1.2
            /\ forall ts, ev_ts e = Some ts -> ts <= (step acc e).2) as [H3 H4].
    { unfold step, message_step, bucket_event. rewrite Hp.
      destruct acc as [[b ns] mx].
      destruct (ts_to_day _ _ _); [|done]. simpl.
      split; [apply elem_of_union; right; by apply elem_of_singleton|].
      intros ts ->. destruct (Z.gtb_spec ts mx); lia. }
    split; [by apply H1|]. intros ts Hts. specialize (H4 ts Hts). lia.
Qed.

(** The progress part of the loop does not depend on the buckets it
    starts from. *)
Lemma scan_progress_buckets (evs : list Event)
  (b b' : gmap Z (list (list N))) (ns : gset (list N)) (mx : Z) :
  progress_of (fold_left step evs (b, ns, mx))
  = progress_of (fold_left step evs (b', ns, mx)).
Proof.
  revert b b' ns mx. induction evs as [|ev evs IH]; intros b b' ns mx; [done|].
  simpl. unfold step at 2 4. unfold message_step, bucket_event.
  destruct (passes_filter _ _ _); [|apply IH].
  destruct (ts_to_day _ _ _); [|apply IH]. apply IH.
Qed.

End Scan.

(** The date a timestamp is filed under does not depend on the clock
    when the event is dated before the floor. *)
Lemma ts_to_day_floor (today : Z) (from_date : option Z) (ev : Event) :
  ts_to_day today (ev_ts ev) from_date = None
  <-> dated_before_floor from_date ev = true.
Proof.
  unfold ts_to_day, dated_before_floor.
  destruct (ev_ts ev) as [ts|]; [|done].
  destruct (jst_date ts) as [d|], from_date as [f|]; try done.
  destruct (Z.geb_spec d f), (Z.ltb_spec d f); try done; lia.
Qed.

(** *** The loop over the conversations *)

Section Build.

Variable py_hash : str -> str -> option Z -> Z.
Variables (today : Z) (from_date : option Z) (st : State).

Lemma scan_conv_progress (b : gmap Z (list (list N))) (conv : Conversation) :
  progress_of (scan_conv py_hash today from_date st b conv)
  = conv_progress py_hash today from_date st conv.
Proof.
  unfold conv_progress, scan_conv.
  rewrite (scan_progress_buckets _ _ _ _ _ b ∅).
  destruct (fold_left _ _ _) as [[? ?] ?]. done.
Qed.

Lemma conv_step_progress (b : gmap Z (list (list N)))
  (p : gmap (list N) (gset (list N) * Z)) (conv : Conversation) :
  (conv_step py_hash today from_date st (b, p) conv).2
  = if decide ((conv_progress py_hash today from_date st conv).1 = ∅)
    then p
    else <[conv_key conv := conv_progress py_hash today from_date st conv]> p.
Proof.
  unfold conv_step.
  rewrite <- (scan_conv_progress b conv).
  destruct (scan_conv _ _ _ _ _ _) as [[b' ns] mx]. simpl.
  unfold progress_of. simpl. destruct (decide (ns = ∅)); done.
Qed.

Lemma conv_step_pair (acc : gmap Z (list (list N))
                            * gmap (list N) (gset (list N) * Z))
  (conv : Conversation) :
  conv_step py_hash today from_date st acc conv
  = ((conv_step py_hash today from_date st acc conv).1,
     (conv_step py_hash today from_date st acc conv).2).
Proof. by destruct (conv_step _ _ _ _ _ _). Qed.

(** A conversation id none of whose conversations bucketed a new message
    gets no entry in the progress. *)
Lemma progress_absent (convs : list Conversation)
  (acc : gmap Z (list (list N)) * gmap (list N) (gset (list N) * Z))
  (c : list N) :
  (forall conv, conv ∈ convs -> conv_key conv = c ->
                (conv_progress py_hash today from_date st conv).1 = ∅) ->
  (fold_left (conv_step py_hash today from_date st) convs acc).2 !! c
  = acc.2 !! c.
Proof.
  revert acc. induction convs as [|k convs IH]; intros [b p] Hnone; [done|].
  cbn [fold_left]. rewrite IH.
  - rewrite conv_step_progress.
    destruct (decide _) as [|Hne]; [done|].
    rewrite lookup_insert_ne; [done|].
    intros Hk. apply Hne, Hnone; [apply elem_of_cons; by left|done].
  - intros conv Hin. apply Hnone. apply elem_of_cons. by right.
Qed.

(** With pairwise distinct conversation ids, the entry of a conversation
    is what its own loop produced. *)
Lemma progress_of_conv (convs : list Conversation)
  (acc : gmap Z (list (list N)) * gmap (list N) (gset (list N) * Z))
  (conv : Conversation) :
  NoDup (conv_key <$> convs) ->
  conv ∈ convs ->
  (fold_left (conv_step py_hash today from_date st) convs acc).2
    !! conv_key conv
  = if decide ((conv_progress py_hash today from_date st conv).1 = ∅)
    then acc.2 !! conv_key conv
    else Some (conv_progress py_hash today from_date st conv).
Proof.
  revert acc. induction convs as [|k convs IH]; intros [b p] Hnd Hin.
  - by apply elem_of_nil in Hin.
  - cbn [fold_left]. rewrite fmap_cons in Hnd.
    apply NoDup_cons in Hnd as [Hk Hnd].
    apply elem_of_cons in Hin as [->|Hin].
    + rewrite progress_absent.
      * rewrite conv_step_progress.
        destruct (decide _); [done|]. by rewrite lookup_insert_eq.
      * intros conv Hin Heq. exfalso. apply Hk. rewrite <- Heq.
        apply list_elem_of_fmap. eauto.
    + rewrite IH by done.
      destruct (decide _); [|done].
      rewrite conv_step_progress. destruct (decide _); [done|].
      rewrite lookup_insert_ne; [done|].
      intros Heq. apply Hk. rewrite Heq. apply list_elem_of_fmap. eauto.
Qed.

Lemma build_daily_raw_progress (convs : list Conversation) (max_chars : Z) :
  (build_daily_raw py_hash today convs st max_chars from_date).2
  = (fold_left (conv_step py_hash today from_date st) convs (∅, ∅)).2.
Proof.
  unfold build_daily_raw. by destruct (fold_left _ _ _).
Qed.

End Build.


End CheckpointSpec.
(** ** Floor exclusion and idempotence of ingestion *)

Module IngestSpec.
Import CheckpointSpec.

Section Floor.

Variables (today : Z) (from_date : option Z) (last_ts : Z)
          (seen_set : gset (list N)).

Let step := message_step today from_date last_ts seen_set.

Lemma message_step_before_floor (acc : scan_state) (ev : Event) :
  dated_before_floor from_date ev = true -> step acc ev = acc.
Proof.
  intros Hf. apply (ts_to_day_floor today) in Hf.
  unfold step, message_step, bucket_event. rewrite Hf.
  destruct (passes_filter _ _ _); by destruct acc as [[? ?] ?].
Qed.

Lemma scan_without_floor_events (evs : list Event) (acc : scan_state) :
  fold_left step evs acc
  = fold_left step
      (List.filter (fun ev => negb (dated_before_floor from_date ev)) evs) acc.
Proof.
  revert acc. induction evs as [|ev evs IH]; intros acc; [done|].
  simpl. destruct (dated_before_floor from_date ev) eqn:Hf; simpl.
  - rewrite message_step_before_floor by done. apply IH.
  - apply IH.
Qed.

(** Where the final [new_seen] and [max_ts] come from. *)
Lemma scan_sources (evs : list Event) (acc : scan_state) :
  (forall mid : list N, mid ∈ (fold_left step evs acc).1.2 ->
      mid ∈ acc.1.2
      \/ exists ev, ev ∈ evs /\ ev_mid ev = mid
                    /\ dated_before_floor from_date ev = false)
  /\ ((fold_left step evs acc).2 = acc.2
      \/ exists ev, ev ∈ evs /\ ev_ts ev = Some (fold_left step evs acc).2
                    /\ dated_before_floor from_date ev = false).
Proof.
  revert acc. induction evs as [|ev evs IH]; intros acc.
  - simpl. split; [by left|by left].
  - cbn [fold_left]. destruct (IH (step acc ev)) as [IHs IHm].
    assert (step acc ev = acc
            \/ dated_before_floor from_date ev = false
               /\ (step acc ev).1.2 = acc.1.2 ∪ {[ev_mid ev]}
               /\ ((step acc ev).2 = acc.2 \/ ev_ts ev = Some (step acc ev).2))
      as Hstep.
    { unfold step, message_step, bucket_event.
      destruct (passes_filter _ _ _); [|by left].
      destruct acc as [[b ns] mx].
      destruct (ts_to_day today (ev_ts ev) from_date) eqn:Hd; [|by left].
      right. split.
      - apply not_true_iff_false. rewrite <- (ts_to_day_floor today).
        congruence.
      - simpl. split; [done|].
        destruct (ev_ts ev) as [ts|]; [|by left].
        destruct (ts >? mx); [by right|by left]. }
    destruct Hstep as [Hsame|(Hf & Hns & Hmx)].
    + rewrite Hsame in *. split.
      * intros mid Hmid. destruct (IHs mid Hmid) as [?|(e & ? & ? & ?)];
          [by left|]. right. exists e. rewrite elem_of_cons. auto.
      * destruct IHm as [?|(e & ? & ? & ?)]; [by left|].
        right. exists e. rewrite elem_of_cons. auto.
    + split.
      * intros mid Hmid. destruct (IHs mid Hmid) as [Hin|(e & ? & ? & ?)].
        -- rewrite Hns in Hin. apply elem_of_union in Hin as [?|Hin];
             [by left|]. apply elem_of_singleton in Hin. right.
           exists ev. rewrite elem_of_cons. auto.
        -- right. exists e. rewrite elem_of_cons. auto.
      * destruct IHm as [Heq|(e & ? & ? & ?)].
        -- destruct Hmx as [Hmx|Hmx].
           ++ left. congruence.
           ++ right. exists ev. rewrite elem_of_cons, Heq. auto.
        -- right. exists e. rewrite elem_of_cons. auto.
Qed.

End Floor.

(** C6. An event dated before the floor leaves the buckets, [new_seen] and
    [max_ts] of the loop untouched; the loop over a conversation ends in the
    state it would reach with these events removed; and in the progress of
    a conversation every id marked seen is the id of an event not dated
    before the floor, and the maximum timestamp is the previous high-water
    mark or the timestamp of such an event. *)
Theorem floor_exclusion (py_hash : str -> str -> option Z -> Z)
  (today : Z) (from_date : option Z) (st : State) (conv : Conversation) :
  let last_ts := hwm_of st (conv_key conv) in
  let seen_set : gset (list N) := list_to_set (seen_of st (conv_key conv)) in
  (forall acc ev,
      ev ∈ iter_messages py_hash conv ->
      dated_before_floor from_date ev = true ->
      message_step today from_date last_ts seen_set acc ev = acc)
  /\ (forall buckets,
      scan_conv py_hash today from_date st buckets conv
      = fold_left (message_step today from_date last_ts seen_set)
          (List.filter (fun ev => negb (dated_before_floor from_date ev))
                       (iter_messages py_hash conv))
          (buckets, ∅, last_ts))
  /\ (forall mid : list N,
      mid ∈ (conv_progress py_hash today from_date st conv).1 ->
      exists ev, ev ∈ iter_messages py_hash conv /\ ev_mid ev = mid
                 /\ dated_before_floor from_date ev = false)
  /\ ((conv_progress py_hash today from_date st conv).2 = last_ts
      \/ exists ev, ev ∈ iter_messages py_hash conv
                    /\ ev_ts ev
                       = Some (conv_progress py_hash today from_date st conv).2
                    /\ dated_before_floor from_date ev = false).
Proof.
  cbv zeta. split; [|split].
  - intros acc ev _. apply message_step_before_floor.
  - intros buckets. unfold scan_conv. apply scan_without_floor_events.
  - pose proof (scan_sources today from_date (hwm_of st (conv_key conv))
                  (list_to_set (seen_of st (conv_key conv)))
                  (iter_messages py_hash conv)
                  (∅, ∅, hwm_of st (conv_key conv))) as [Hs Hm].
    unfold conv_progress, scan_conv.
    destruct (fold_left _ _ _) as [[b ns] mx]. simpl in *. split.
    + intros mid Hmid. destruct (Hs mid Hmid) as [Hin|?]; [|done].
      set_solver.
    + done.
Qed.

Lemma fold_left_fixed {A B : Type} (f : A -> B -> A) (l : list B) (a : A) :
  (forall x b, b ∈ l -> f x b = x) -> fold_left f l a = a.
Proof.
  induction l as [|b l IH]; intros Hf; [done|].
  simpl. rewrite Hf by (apply elem_of_cons; by left).
  apply IH. intros x b' Hin. apply Hf. apply elem_of_cons. by right.
Qed.

Section Rerun.

Variable py_hash : str -> str -> option Z -> Z.
Variables (today1 today2 : Z) (from_date : option Z) (st0 : State).
Variable convs : list Conversation.
Hypothesis distinct_ids : NoDup (conv_key <$> convs).

Let progress1 : gmap (list N) (gset (list N) * Z) :=
  (fold_left (conv_step py_hash today1 from_date st0) convs (∅, ∅)).2.
Let st1 : State := commit st0 progress1.

(** After the commit, the loop over a conversation of the same export
    finds nothing to bucket. *)
Lemma rescan_unchanged (conv : Conversation) (b : gmap Z (list (list N))) :
  conv ∈ convs ->
  scan_conv py_hash today2 from_date st1 b conv
  = (b, ∅, hwm_of st1 (conv_key conv)).
Proof.
  intros Hin. unfold scan_conv.
  set (c := conv_key conv).
  set (evs := iter_messages py_hash conv).
  set (last0 := hwm_of st0 c).
  set (seen0 := list_to_set (seen_of st0 c) : gset (list N)).
  set (F := fold_left (message_step today1 from_date last0 seen0) evs
                      (∅, ∅, last0)).
  assert (conv_progress py_hash today1 from_date st0 conv = (F.1.2, F.2))
    as Hcp.
  { unfold conv_progress, scan_conv. fold c evs last0 seen0 F.
    by destruct F as [[? ?] ?]. }
  pose proof (progress_of_conv py_hash today1 from_date st0 convs (∅, ∅) conv
                distinct_ids Hin) as HP.
  fold progress1 c in HP. rewrite Hcp in HP. simpl in HP.
  rewrite lookup_empty in HP.
  pose proof (scan_grows today1 from_date last0 seen0 evs (∅, ∅, last0))
    as [_ Hmx]. fold F in Hmx. simpl in Hmx.
  assert (last0 <= hwm_of st1 c) as Hlast.
  { unfold st1. rewrite commit_hwm_of, HP. fold last0.
    destruct (decide _); lia. }
  assert (forall mid : list N,
             mid ∈ seen0 \/ mid ∈ F.1.2 ->
             mid ∈ (list_to_set (seen_of st1 c) : gset (list N))) as Hseen.
  { intros mid Hmid. rewrite elem_of_list_to_set.
    unfold st1. rewrite commit_seen_of, HP.
    unfold seen0 in Hmid. rewrite elem_of_list_to_set in Hmid.
    destruct (decide (F.1.2 = ∅)) as [Hempty|_].
    - destruct Hmid as [?|Hmid]; [done|]. rewrite Hempty in Hmid.
      by apply not_elem_of_empty in Hmid.
    - rewrite elem_of_app, elem_of_elements. done. }
  apply fold_left_fixed. intros acc ev Hev.
  unfold message_step.
  destruct (passes_filter _ _ ev) eqn:Hp; [|done].
  apply FilterSpec.passes_filter_true in Hp as [Hts Hmid].
  assert (passes_filter last0 seen0 ev = true) as Hp0.
  { apply FilterSpec.passes_filter_true. split.
    - destruct (ev_ts ev); [lia|done].
    - intros Hbad. apply Hmid, Hseen. by left. }
  destruct (ts_to_day today1 (ev_ts ev) from_date) as [day|] eqn:Hd.
  - exfalso. apply Hmid, Hseen. right.
    refine (proj1 (scan_records_bucketed today1 from_date last0 seen0 evs
                     (∅, ∅, last0) ev Hev Hp0 _)).
    congruence.
  - apply ts_to_day_floor in Hd. apply (ts_to_day_floor today2) in Hd.
    unfold bucket_event. rewrite Hd. by destruct acc as [[? ?] ?].
Qed.

Lemma rebuild_unchanged (l : list Conversation)
  (acc : gmap Z (list (list N)) * gmap (list N) (gset (list N) * Z)) :
  (forall conv, conv ∈ l -> conv ∈ convs) ->
  fold_left (conv_step py_hash today2 from_date st1) l acc = acc.
Proof.
  intros Hl. apply fold_left_fixed. intros [b p] conv Hin.
  unfold conv_step. rewrite rescan_unchanged by auto.
  destruct (decide _); done.
Qed.

Lemma second_build_empty (max_chars : Z) :
  build_daily_raw py_hash today2 convs st1 max_chars from_date = (∅, ∅).
Proof.
  unfold build_daily_raw. rewrite rebuild_unchanged by auto.
  by rewrite fmap_empty.
Qed.

End Rerun.

(** A run that wrote the checkpoint wrote the merge of its progress. *)
Lemma main_daily_committed (py_hash : str -> str -> option Z -> Z)
  (summarize_ok : str -> bool) (create_page : Z -> page_outcome)
  (today : Z) (from_date : option Z) (conversations : list Conversation)
  (file : option State) :
  let r := main_daily py_hash summarize_ok create_page today from_date
                      conversations file in
  saved_states (effects r) <> [] ->
  state_file r
  = Some (commit (load_state file)
            (build_daily_raw py_hash today conversations (load_state file)
                             max_chars_default from_date).2)
  /\ memory r = load_state (state_file r).
Proof.
  cbv zeta. unfold main_daily.
  destruct (build_daily_raw _ _ _ _ _ _) as [daily_raw progress].
  destruct (summarize_all _ _) as [called ok].
  destruct ok; simpl negb; cbv iota.
  2:{ simpl. rewrite OrchestratorSpec.saved_states_summarized. done. }
  destruct (publish_loop _ _ _) as [succ [day|]].
  - simpl. rewrite OrchestratorSpec.saved_states_app,
      OrchestratorSpec.saved_states_summarized,
      OrchestratorSpec.saved_states_requested. done.
  - destruct (nonempty_days succ); simpl; [done|].
    rewrite OrchestratorSpec.saved_states_app,
      OrchestratorSpec.saved_states_summarized,
      OrchestratorSpec.saved_states_requested. done.
Qed.

(** A run over an export with nothing to bucket has no effect. *)
Lemma main_daily_nothing_new (py_hash : str -> str -> option Z -> Z)
  (summarize_ok : str -> bool) (create_page : Z -> page_outcome)
  (today : Z) (from_date : option Z) (conversations : list Conversation)
  (file : option State) :
  build_daily_raw py_hash today conversations (load_state file)
                  max_chars_default from_date = (∅, ∅) ->
  main_daily py_hash summarize_ok create_page today from_date
             conversations file
  = {| effects := []; successful_days := []; memory := load_state file;
       state_file := file; status := Completed |}.
Proof.
  intros Hb. unfold main_daily. rewrite Hb. reflexivity.
Qed.

(** Idempotence where it holds.  For an export whose conversations have
    pairwise distinct ids: if a first run wrote the checkpoint and the same
    export is ingested again (with the same floor and the same hash for
    synthesized ids), the second run finds no day text and no progress,
    calls nothing, and leaves the checkpoint, on file and in memory, as the
    first run left it. *)
Lemma second_run_is_empty (py_hash : str -> str -> option Z -> Z)
  (summarize_ok1 summarize_ok2 : str -> bool)
  (create_page1 create_page2 : Z -> page_outcome)
  (today1 today2 : Z) (from_date : option Z)
  (conversations : list Conversation) (file : option State) :
  NoDup (conv_key <$> conversations) ->
  let r1 := main_daily py_hash summarize_ok1 create_page1 today1 from_date
                       conversations file in
  saved_states (effects r1) <> [] ->
  let r2 := main_daily py_hash summarize_ok2 create_page2 today2 from_date
                       conversations (state_file r1) in
  build_daily_raw py_hash today2 conversations (load_state (state_file r1))
                  max_chars_default from_date = (∅, ∅)
  /\ effects r2 = []
  /\ state_file r2 = state_file r1
  /\ memory r2 = memory r1.
Proof.
  intros Hnd r1 Hsaved r2.
  destruct (main_daily_committed py_hash summarize_ok1 create_page1 today1
              from_date conversations file Hsaved) as [Hfile Hmem].
  fold r1 in Hfile, Hmem.
  assert (build_daily_raw py_hash today2 conversations
            (load_state (state_file r1)) max_chars_default from_date
          = (∅, ∅)) as Hb.
  { rewrite Hfile. simpl load_state at 1.
    rewrite build_daily_raw_progress.
    apply second_build_empty. exact Hnd. }
  split; [exact Hb|].
  unfold r2. rewrite main_daily_nothing_new by exact Hb. simpl.
  repeat split; congruence.
Qed.

(** The scenario of the specification: the checkpoint starts empty, the
    floor is 2025-09-25; there is exactly one day bucket, for 2025-09-26,
    with the text of both conversations, and the messages of 2025-09-20 are
    absent from the progress. *)
Example scenario_buckets :
  build_daily_raw hash0 day_sep28 scenario_convs empty_state
                  max_chars_default (Some day_sep25)
  = ({[ day_sep26 :=
          bullet ++ py "[" ++ label_user ++ py "] first｜new one"
          ++ bullet ++ py "[" ++ label_user ++ py "] second｜new two" ]},
     {[ py "c1" := ({[ py "a2" ]}, ts_sep26);
        py "c2" := ({[ py "b2" ]}, ts_sep26) ]}).
Proof. vm_compute. reflexivity. Qed.

(** The scenario of the specification, run twice. *)
Lemma second_run_scenario :
  build_daily_raw hash0 day_sep28 scenario_convs
    (load_state
       (state_file (main_daily hash0 always_summarized always_published
                               day_sep27 (Some day_sep25) scenario_convs
                               None)))
    max_chars_default (Some day_sep25) = (∅, ∅)
  /\ effects (main_daily hash0 always_summarized always_published day_sep28
                 (Some day_sep25) scenario_convs
                 (state_file
                    (main_daily hash0 always_summarized always_published
                                day_sep27 (Some day_sep25) scenario_convs
                                None))) = []
  /\ state_file (main_daily hash0 always_summarized always_published day_sep28
                 (Some day_sep25) scenario_convs
                 (state_file
                    (main_daily hash0 always_summarized always_published
                                day_sep27 (Some day_sep25) scenario_convs
                                None)))
     = state_file (main_daily hash0 always_summarized always_published
                              day_sep27 (Some day_sep25) scenario_convs None)
  /\ memory (main_daily hash0 always_summarized always_published day_sep28
                 (Some day_sep25) scenario_convs
                 (state_file
                    (main_daily hash0 always_summarized always_published
                                day_sep27 (Some day_sep25) scenario_convs
                                None)))
     = memory (main_daily hash0 always_summarized always_published
                          day_sep27 (Some day_sep25) scenario_convs None).
Proof.
  apply (second_run_is_empty hash0 always_summarized always_summarized
           always_published always_published day_sep27 day_sep28
           (Some day_sep25) scenario_convs None).
  - apply (bool_decide_unpack _). vm_compute. exact I.
  - vm_compute. congruence.
Qed.

(** A second process has another salt for [hash]: a flat-shape message
    with neither id nor timestamp gets another synthesized id and is
    bucketed again after a committed first run. *)
Lemma second_run_other_salt :
  saved_states
    (effects (main_daily hash0 always_summarized always_published day_sep28
                         (Some day_sep25) [untimed_conv] None)) <> []
  /\ dom (build_daily_raw hash1 day_sep28 [untimed_conv]
        (load_state
           (state_file (main_daily hash0 always_summarized always_published
                                   day_sep28 (Some day_sep25)
                                   [untimed_conv] None)))
        max_chars_default (Some day_sep25)).1
     = {[ day_sep28 ]}.
Proof. split; [vm_compute; discriminate|vm_compute; reflexivity]. Qed.

(** C2. Evaluation of two runs over the same export when two of its
    conversations share an id (here both lack one and are filed under
    "(unknown)"): the first run publishes every day and writes the
    checkpoint, in which the second conversation's progress has replaced
    the first's; the second run then buckets the first conversation's
    message again and has a non-empty progress, where the specification has both
    empty, and its commit changes the checkpoint. *)
Theorem second_run_rebuckets_shared_id :
  saved_states
    (effects (main_daily hash0 always_summarized always_published day_sep28
                         (Some day_sep25) anonymous_convs None)) <> []
  /\ (build_daily_raw hash0 day_sep28 anonymous_convs
        (load_state
           (state_file (main_daily hash0 always_summarized always_published
                                   day_sep28 (Some day_sep25)
                                   anonymous_convs None)))
        max_chars_default (Some day_sep25)).2
     = {[ unknown_id := ({[ py "a" ]}, ts_sep27) ]}
  /\ dom (build_daily_raw hash0 day_sep28 anonymous_convs
        (load_state
           (state_file (main_daily hash0 always_summarized always_published
                                   day_sep28 (Some day_sep25)
                                   anonymous_convs None)))
        max_chars_default (Some day_sep25)).1
     = {[ day_sep27 ]}
  /\ seen_of
       (load_state
          (state_file (main_daily hash0 always_summarized always_published
                                  day_sep28 (Some day_sep25)
                                  anonymous_convs None)))
       unknown_id = [py "b"]
  /\ seen_of
       (load_state
          (state_file
             (main_daily hash0 always_summarized always_published day_sep28
                (Some day_sep25) anonymous_convs
                (state_file (main_daily hash0 always_summarized
                                        always_published day_sep28
                                        (Some day_sep25)
                                        anonymous_convs None)))))
       unknown_id = [py "b"; py "a"].
Proof.
  split; [vm_compute; discriminate|].
  repeat split; vm_compute; reflexivity.
Qed.

End IngestSpec.
(** ** Properties of the batch segmenter *)

Module SegmenterSpec.

(** *** Stripping *)

Lemma lstrip_blank_app (w s : list N) : blank w -> lstrip (w ++ s) = lstrip s.
Proof.
  induction 1 as [|c w Hc _ IH]; [done|]. simpl. by rewrite Hc.
Qed.

Lemma lstrip_length (s : list N) : (length (lstrip s) <= length s)%nat.
Proof.
  induction s as [|c s IH]; simpl; [lia|].
  destruct (isspace c); simpl; lia.
Qed.

Lemma lstrip_nil_blank (s : list N) : lstrip s = [] -> blank s.
Proof.
  induction s as [|c s IH]; simpl; [constructor|].
  destruct (isspace c) eqn:Hc; [|discriminate].
  intros H. constructor; [exact Hc|exact (IH H)].
Qed.

Lemma rstrip_blank (w : list N) : blank w -> rstrip w = [].
Proof.
  induction 1 as [|c w Hc _ IH]; [done|]. simpl. by rewrite IH, Hc.
Qed.

Lemma rstrip_blank_app (s w : list N) : blank w -> rstrip (s ++ w) = rstrip s.
Proof.
  intros Hw. induction s as [|c s IH]; simpl.
  - by apply rstrip_blank.
  - by rewrite IH.
Qed.

Lemma rstrip_length (s : list N) : (length (rstrip s) <= length s)%nat.
Proof.
  induction s as [|c s IH]; simpl; [lia|].
  destruct (rstrip s) as [|r rs]; [destruct (isspace c)|]; simpl in *; lia.
Qed.

Lemma rstrip_blank_inv (s : list N) : blank (rstrip s) -> blank s.
Proof.
  induction s as [|c s IH]; simpl; [done|].
  destruct (rstrip s) as [|r rs].
  - destruct (isspace c) eqn:Hc.
    + intros _. constructor; [done|]. apply IH. constructor.
    + intros H. inversion H; congruence.
  - intros H. inversion H; subst. constructor; [done|]. by apply IH.
Qed.

Lemma strip_blank_app (s w : list N) : blank w -> strip (s ++ w) = strip s.
Proof. intros Hw. unfold strip. by rewrite rstrip_blank_app. Qed.

Lemma strip_length (s : list N) : (length (strip s) <= length s)%nat.
Proof.
  unfold strip.
  pose proof (lstrip_length (rstrip s)). pose proof (rstrip_length s). lia.
Qed.

Lemma strip_blank (s : list N) : blank s -> strip s = [].
Proof. intros Hs. unfold strip. by rewrite rstrip_blank. Qed.

Lemma strip_nil_blank (s : list N) : strip s = [] -> blank s.
Proof.
  unfold strip. intros H. by apply rstrip_blank_inv, lstrip_nil_blank.
Qed.

Lemma blank_nl : blank [nl].
Proof. repeat constructor. Qed.

Lemma strip_newline (s : list N) : strip (s ++ [nl]) = strip s.
Proof. apply strip_blank_app, blank_nl. Qed.

(** *** Lines *)

Lemma unlines_app (g h : list (list N)) :
  unlines (g ++ h) = unlines g ++ unlines h.
Proof. unfold unlines. by rewrite fmap_app, concat_app. Qed.

Lemma unlines_snoc (g : list (list N)) (l : list N) :
  unlines (g ++ [l]) = unlines g ++ l ++ [nl].
Proof. rewrite unlines_app. unfold unlines. simpl. by rewrite app_nil_r. Qed.

Lemma unlines_nil_inv (g : list (list N)) : unlines g = [] -> g = [].
Proof.
  destruct g as [|l g]; [done|]. unfold unlines. simpl.
  intros H. apply app_eq_nil in H as [H _].
  by apply app_eq_nil in H as [_ H].
Qed.

Lemma unlines_cons (l : list N) (g : list (list N)) :
  unlines (l :: g) = l ++ [nl] ++ unlines g.
Proof. unfold unlines. simpl. by rewrite <- app_assoc. Qed.

Lemma split_lines_unlines (s : list N) : unlines (split_lines s) = s ++ [nl].
Proof.
  induction s as [|c s IH]; [done|]. cbn [split_lines].
  destruct (N.eqb_spec c nl) as [->|Hc].
  - rewrite unlines_cons, IH. done.
  - destruct (split_lines s) as [|l ls]; [by destruct s|].
    rewrite unlines_cons in *. simpl in *. by rewrite IH.
Qed.

Lemma split_lines_not_nil (s : list N) : split_lines s <> [].
Proof.
  induction s as [|c s IH]; simpl; [done|].
  destruct (c =? nl)%N; [done|]. by destruct (split_lines s).
Qed.

(** *** The cutting loop *)

Section Chunks.

Variable max_chars : Z.

(** The chunks produced so far are the chunks of consecutive non-empty
    groups of lines, and [current_chunk] is the text of the group being
    filled. *)
Lemma chunk_fold_groups (ls : list (list N)) (gs : list (list (list N)))
  (g : list (list N)) :
  Forall (fun g => g <> []) gs ->
  exists gs' g',
    fold_left (chunk_step max_chars) ls (chunk_of <$> gs, unlines g)
    = (chunk_of <$> gs', unlines g')
    /\ Forall (fun g => g <> []) gs'
    /\ concat gs' ++ g' = concat gs ++ g ++ ls.
Proof.
  revert gs g. induction ls as [|line ls IH]; intros gs g Hgs.
  - exists gs, g. by rewrite app_nil_r.
  - cbn [fold_left]. unfold chunk_step at 2.
    destruct ((len (unlines g ++ line) >? max_chars) && nonempty (unlines g))
      eqn:Hcut.
    + apply andb_true_iff in Hcut as [_ Hne].
      assert (g <> []) as Hg by (intros ->; discriminate Hne).
      replace (line ++ [nl]) with (unlines [line])
        by (unfold unlines; simpl; by rewrite app_nil_r).
      replace ((chunk_of <$> gs) ++ [strip (unlines g)])
        with (chunk_of <$> (gs ++ [g])) by (by rewrite fmap_app).
      destruct (IH (gs ++ [g]) [line]) as (gs' & g' & Hf & Hgs' & Hcat).
      { apply Forall_app. split; [done|]. by constructor. }
      exists gs', g'. split; [done|]. split; [done|].
      rewrite Hcat, concat_app. simpl. rewrite app_nil_r.
      by rewrite <- !app_assoc.
    + replace (unlines g ++ line ++ [nl]) with (unlines (g ++ [line]))
        by apply unlines_snoc.
      destruct (IH gs (g ++ [line])) as (gs' & g' & Hf & Hgs' & Hcat); [done|].
      exists gs', g'. split; [done|]. split; [done|].
      rewrite Hcat. by rewrite <- !app_assoc.
Qed.

(** The calls for a text above the threshold, as groups of whole lines. *)
Lemma split_chunks_groups (text : list N) :
  exists gs g,
    concat gs ++ g = split_lines text
    /\ Forall (fun g => g <> []) gs
    /\ (strip (unlines g) <> []
        /\ split_chunks max_chars text = chunk_of <$> (gs ++ [g])
        \/ strip (unlines g) = []
           /\ split_chunks max_chars text = chunk_of <$> gs).
Proof.
  destruct (chunk_fold_groups (split_lines text) [] []) as (gs & g & Hf & Hgs & Hcat);
    [constructor|].
  exists gs, g. split; [done|]. split; [done|].
  unfold split_chunks. change (@nil (list N), @nil N)
    with (chunk_of <$> @nil (list (list N)), unlines []).
  rewrite Hf.
  destruct (strip (unlines g)) as [|c t] eqn:Hs; simpl.
  - by right.
  - left. split; [done|]. rewrite fmap_app. simpl. unfold chunk_of at 3.
    by rewrite Hs.
Qed.

Lemma pending_chunk_fits (cur : list N) :
  pending_ok max_chars cur -> cur <> [] -> fits max_chars (strip cur).
Proof.
  intros [->|[Hlen (s & ->)]] Hne; [done|].
  unfold fits, len in *. rewrite strip_newline.
  pose proof (strip_length s). rewrite length_app in Hlen. simpl in Hlen. lia.
Qed.

Lemma chunk_fold_fits (ls : list (list N)) (chunks : list (list N))
  (cur : list N) :
  Forall (fits max_chars) ls -> Forall (fits max_chars) chunks ->
  pending_ok max_chars cur ->
  Forall (fits max_chars) (fold_left (chunk_step max_chars) ls (chunks, cur)).1
  /\ pending_ok max_chars (fold_left (chunk_step max_chars) ls (chunks, cur)).2.
Proof.
  revert chunks cur. induction ls as [|line ls IH]; intros chunks cur Hls Hch Hcur.
  - done.
  - inversion Hls as [|? ? Hline Hls']; subst.
    cbn [fold_left]. unfold chunk_step at 2 4.
    assert (pending_ok max_chars (line ++ [nl])) as Hfresh.
    { right. split; [|eauto]. unfold fits, len in *.
      rewrite length_app. simpl. lia. }
    destruct (Z.gtb_spec (len (cur ++ line)) max_chars) as [Hgt|Hle]; simpl.
    + destruct cur as [|c cur'] eqn:Hc; simpl.
      * apply IH; done.
      * apply IH; [done| |done].
        apply Forall_app. split; [done|]. constructor; [|constructor].
        apply pending_chunk_fits; [done|]. discriminate.
    + apply IH; [done|done|].
      right. split; [|exists (cur ++ line); by rewrite <- app_assoc].
      unfold len in *. rewrite !length_app in *. simpl. lia.
Qed.

Lemma split_chunks_fits (text : list N) :
  Forall (fits max_chars) (split_lines text) ->
  Forall (fits max_chars) (split_chunks max_chars text).
Proof.
  intros Hls. unfold split_chunks.
  destruct (chunk_fold_fits (split_lines text) [] [] Hls) as [Hch Hcur];
    [constructor|by left|].
  destruct (fold_left _ _ _) as [chunks cur]. simpl in *.
  destruct (strip cur) eqn:Hs; simpl; [done|].
  apply Forall_app. split; [done|]. constructor; [|constructor].
  rewrite <- Hs. apply pending_chunk_fits; [done|].
  intros ->. discriminate Hs.
Qed.

(** A text that is not blank gets at least one chunk, and a single chunk
    is the stripped text itself. *)
Lemma split_chunks_not_nil (text : list N) :
  strip text <> [] -> split_chunks max_chars text <> [].
Proof.
  intros Hne.
  destruct (split_chunks_groups text) as (gs & g & Hcat & Hgs & [[_ ->]|[Hb ->]]).
  - rewrite fmap_app. simpl. intros H. by apply app_eq_nil in H as [_ H].
  - destruct gs as [|g1 gs]; [|done]. simpl in Hcat. subst g.
    rewrite split_lines_unlines, strip_newline in Hb. done.
Qed.

Lemma split_chunks_single (text c : list N) :
  split_chunks max_chars text = [c] -> c = strip text.
Proof.
  destruct (split_chunks_groups text) as (gs & g & Hcat & Hgs & [[_ ->]|[Hb ->]]).
  - rewrite fmap_app. simpl. intros H.
    destruct gs as [|g1 gs].
    + simpl in *. injection H as <-. subst g. unfold chunk_of.
      by rewrite split_lines_unlines, strip_newline.
    + simpl in H. injection H as _ H. exfalso.
      by apply app_eq_nil in H as [_ H].
  - destruct gs as [|g1 [|g2 gs]]; try discriminate.
    simpl. intros [= <-]. simpl in Hcat. rewrite app_nil_r in Hcat.
    unfold chunk_of.
    rewrite <- (strip_newline text), <- split_lines_unlines, <- Hcat.
    rewrite unlines_app. symmetry. apply strip_blank_app.
    by apply strip_nil_blank.
Qed.

End Chunks.

(** The per-day cap: a day text has at most [max_chars] characters plus
    the truncation suffix. *)
Lemma day_text_length (max_chars : Z) (lines : list (list N)) :
  0 <= max_chars -> len (day_text max_chars lines) <= max_chars + 13.
Proof.
  intros Hmax. unfold day_text, len.
  destruct (Z.gtb_spec (Z.of_nat (length (bullet ++ join bullet lines)))
                       max_chars) as [Hgt|Hle]; [|lia].
  rewrite length_app, length_take.
  change (length truncation_suffix) with 13%nat. lia.
Qed.

Lemma build_daily_raw_capped (py_hash : str -> str -> option Z -> Z)
  (today : Z) (conversations : list Conversation) (st : State)
  (max_chars : Z) (from_date : option Z) (day : Z) (text : list N) :
  0 <= max_chars ->
  (build_daily_raw py_hash today conversations st max_chars from_date).1
    !! day = Some text ->
  len text <= max_chars + 13.
Proof.
  intros Hmax. unfold build_daily_raw.
  destruct (fold_left _ _ _) as [buckets progress]. simpl.
  rewrite lookup_fmap. destruct (buckets !! day) as [lines|]; [|done].
  intros [= <-]. by apply day_text_length.
Qed.

(** C5, as stated, fails: for the empty mapping the combined text is
    within the threshold and no call is made; the run over [long_export]
    has a combined text of [MAX_CHARS_PER_REQUEST + 1] characters, which
    exceeds the threshold only by a newline that is stripped from every
    chunk, and sends it in a single call; and a mapping with a line longer
    than the threshold yields an input longer than the threshold. *)
Lemma segmenter_counterexample :
  (len (combined_text ∅) <= MAX_CHARS_PER_REQUEST
   /\ summarizer_inputs MAX_CHARS_PER_REQUEST (combined_text ∅) = [])
  /\ (let daily_raw :=
        (build_daily_raw hash0 day_oct04 long_export empty_state
                         max_chars_default (Some day_sep25)).1 in
      len (combined_text daily_raw) = MAX_CHARS_PER_REQUEST + 1
      /\ length (summarizer_inputs MAX_CHARS_PER_REQUEST
                                   (combined_text daily_raw)) = 1%nat
      /\ length (summarized_texts
                   (effects (main_daily hash0 always_summarized
                                        always_published day_oct04
                                        (Some day_sep25) long_export None)))
         = 1%nat)
  /\ (len (combined_text huge_day) > MAX_CHARS_PER_REQUEST
      /\ existsb (fun c => len c >? MAX_CHARS_PER_REQUEST)
                 (summarizer_inputs MAX_CHARS_PER_REQUEST
                                    (combined_text huge_day)) = true).
Proof.
  cbv zeta. split; [split; [vm_compute; congruence|reflexivity]|].
  split; [split; [|split]|split]; vm_compute; reflexivity.
Qed.

(** C5 (amended). For every day-to-text mapping and threshold: a blank
    combined text causes no summarizer call; a non-blank text of length at
    most the threshold causes exactly one call, with the full text; a longer
    text causes at least one call, the inputs are the stripped texts of
    consecutive groups of whole lines that cover the lines in order (the
    last group is dropped when blank), so no line is split; and, provided no
    single line exceeds the threshold, no input exceeds it, and there are at
    least two calls whenever the stripped text exceeds the threshold. *)
Theorem segmenter_fit (max_chars : Z) (daily_raw : gmap Z (list N)) :
  let text := combined_text daily_raw in
  let calls := summarizer_inputs max_chars text in
  (strip text = [] -> calls = [])
  /\ (strip text <> [] -> len text <= max_chars -> calls = [text])
  /\ (strip text <> [] -> len text > max_chars ->
      (1 <= length calls)%nat
      /\ (exists (gs : list (list (list N))) (g : list (list N)),
            concat gs ++ g = split_lines text
            /\ Forall (fun g => g <> []) gs
            /\ (strip (unlines g) <> [] /\ calls = chunk_of <$> (gs ++ [g])
                \/ strip (unlines g) = [] /\ calls = chunk_of <$> gs))
      /\ (Forall (fits max_chars) (split_lines text) ->
          Forall (fits max_chars) calls
          /\ (len (strip text) > max_chars -> (2 <= length calls)%nat))).
Proof.
  cbv zeta. set (text := combined_text daily_raw). clearbody text.
  unfold summarizer_inputs.
  split; [|split].
  - intros ->. reflexivity.
  - intros Hne Hle.
    destruct (strip text) eqn:Hs; [done|]. simpl.
    destruct (Z.gtb_spec (len text) max_chars); [lia|done].
  - intros Hne Hgt.
    destruct (strip text) as [|c0 t0] eqn:Hs; [done|].
    change (len (c0 :: t0) =? 0) with false. cbv iota.
    destruct (Z.gtb_spec (len text) max_chars) as [_|?]; [|lia].
    assert (strip text <> []) as Hne' by (rewrite Hs; done).
    pose proof (split_chunks_not_nil max_chars text Hne') as Hnil.
    split; [|split].
    + destruct (split_chunks max_chars text); [done|simpl; lia].
    + apply split_chunks_groups.
    + intros Hfit. pose proof (split_chunks_fits max_chars text Hfit) as Hall.
      split; [done|]. rewrite <- Hs. intros Hbig.
      destruct (split_chunks max_chars text) as [|c1 [|c2 cs]] eqn:Hc;
        [done| |simpl; lia].
      apply split_chunks_single in Hc. subst c1.
      inversion Hall as [|? ? Hc1 _]; subst. unfold fits in Hc1. lia.
Qed.

(** The scenario of the specification under a threshold of 60 characters:
    the combined text has 63 and is sent in two calls, cut between two
    lines. *)
Example scenario_two_calls :
  summarizer_inputs 60
    (combined_text
       (build_daily_raw hash0 day_sep28 scenario_convs empty_state
                        max_chars_default (Some day_sep25)).1)
  = [ py "## 2025-09-26" ++ [nl; nl]
        ++ py "- [" ++ label_user ++ py "] first｜new one";
      py "- [" ++ label_user ++ py "] second｜new two" ].
Proof. vm_compute. reflexivity. Qed.

(** In a run whose summarizer never raises, the calls made are these
    inputs. *)
Lemma main_daily_summarizer_calls (py_hash : str -> str -> option Z -> Z)
  (create_page : Z -> page_outcome) (today : Z) (from_date : option Z)
  (conversations : list Conversation) (file : option State) :
  summarized_texts
    (effects (main_daily py_hash (fun _ => true) create_page today from_date
                         conversations file))
  = summarizer_inputs MAX_CHARS_PER_REQUEST
      (combined_text
         (build_daily_raw py_hash today conversations (load_state file)
                          max_chars_default from_date).1).
Proof.
  unfold main_daily.
  destruct (build_daily_raw _ _ _ _ _ _) as [daily_raw progress]. simpl fst.
  assert (forall l, summarize_all (fun _ => true) l = (l, true)) as Hall.
  { induction l as [|x l IH]; simpl; [done|]. by rewrite IH. }
  rewrite Hall. simpl negb. cbv iota.
  assert (forall l, summarized_texts (Summarized <$> l) = l) as Hs.
  { induction l as [|x l IH]; [done|]. unfold summarized_texts in *. simpl.
    by f_equal. }
  assert (forall l, summarized_texts (PageRequested <$> l) = []) as Hp.
  { induction l as [|x l IH]; [done|]. done. }
  destruct (publish_loop _ _ _) as [succ [day|]]; simpl.
  - unfold summarized_texts at 1. rewrite omap_app.
    fold (summarized_texts (Summarized <$> summarizer_inputs MAX_CHARS_PER_REQUEST (combined_text daily_raw))).
    fold (summarized_texts (PageRequested <$> (succ ++ [day]))).
    by rewrite Hs, Hp, app_nil_r.
  - destruct (nonempty_days succ); simpl; unfold summarized_texts at 1;
      rewrite !omap_app;
      fold (summarized_texts (Summarized <$> summarizer_inputs MAX_CHARS_PER_REQUEST (combined_text daily_raw)));
      fold (summarized_texts (PageRequested <$> succ));
      rewrite Hs, Hp; simpl; by rewrite ?app_nil_r.
Qed.

End SegmenterSpec.
(** ** The Checkpoint invariant across a commit *)

Module InvariantSpec.

Lemma empty_state_within_mark (conv_id : list N) (ev : Event) :
  seen_within_mark empty_state conv_id ev.
Proof. intros Hin. by apply elem_of_nil in Hin. Qed.

Section Scan.

Variables (today : Z) (from_date : option Z) (last_ts : Z)
          (seen_set : gset (list N)).

(** Every id in [new_seen] is the id of an event that passed both tests
    and was filed under a day. *)
Lemma scan_new_source (evs : list Event) (acc : scan_state) (mid : list N) :
  mid ∈ (fold_left (message_step today from_date last_ts seen_set) evs
                   acc).1.2 ->
  mid ∈ acc.1.2
  \/ exists ev, ev ∈ evs /\ ev_mid ev = mid
                /\ passes_filter last_ts seen_set ev = true
                /\ ts_to_day today (ev_ts ev) from_date <> None.
Proof.
  revert acc. induction evs as [|e evs IH]; intros acc H; [by left|].
  cbn [fold_left] in H. apply IH in H as [H|(ev & Hin & Hev)].
  - unfold message_step in H.
    destruct (passes_filter last_ts seen_set e) eqn:Hp; [|by left].
    destruct acc as [[b ns] mx]. unfold bucket_event in H.
    destruct (ts_to_day today (ev_ts e) from_date) as [d|] eqn:Hd;
      [|by left]. cbn [fst snd] in *.
    apply elem_of_union in H as [H|H]; [by left|].
    apply elem_of_singleton in H as ->. right. exists e.
    split; [apply elem_of_cons; by left|]. by rewrite Hd.
  - right. exists ev. split; [apply elem_of_cons; by right|done].
Qed.

End Scan.

(** A commit keeps the Checkpoint invariant.  For an export whose
    conversations have pairwise distinct keys, and a conversation in which
    ids identify messages: if every event of the conversation satisfies the
    invariant in the state a run starts from, it does in the state the run
    commits.  The invariant holds in the empty state, so it holds in every
    state such runs write. *)
Lemma commit_keeps_seen_within_mark (py_hash : str -> str -> option Z -> Z)
  (today : Z) (from_date : option Z) (conversations : list Conversation)
  (st : State) (max_chars : Z) (conv : Conversation) :
  NoDup (conv_key <$> conversations) -> conv ∈ conversations ->
  ids_identify (iter_messages py_hash conv) ->
  (forall ev, ev ∈ iter_messages py_hash conv ->
              seen_within_mark st (conv_key conv) ev) ->
  forall ev, ev ∈ iter_messages py_hash conv ->
    seen_within_mark
      (commit st (build_daily_raw py_hash today conversations st max_chars
                                  from_date).2)
      (conv_key conv) ev.
Proof.
  intros Hnd Hconv Hids Hinv ev Hev Hin ts Hts.
  rewrite CheckpointSpec.commit_seen_of in Hin.
  rewrite CheckpointSpec.commit_hwm_of.
  rewrite CheckpointSpec.build_daily_raw_progress in *.
  rewrite (CheckpointSpec.progress_of_conv py_hash today from_date st
             conversations (∅, ∅) conv Hnd Hconv) in *.
  cbn [snd] in *. rewrite lookup_empty in *.
  destruct (decide _) as [|Hne]; [by apply (Hinv ev)|].
  set (c := conv_key conv) in *.
  set (evs := iter_messages py_hash conv) in *.
  set (last0 := hwm_of st c) in *.
  set (seen0 := list_to_set (seen_of st c) : gset (list N)).
  set (F := fold_left (message_step today from_date last0 seen0) evs
                      (∅, ∅, last0)).
  assert (conv_progress py_hash today from_date st conv = (F.1.2, F.2))
    as Hcp.
  { unfold conv_progress, scan_conv. fold c evs last0 seen0 F.
    by destruct F as [[? ?] ?]. }
  rewrite Hcp in *. clear Hne.
  apply elem_of_app in Hin as [Hin|Hin].
  - specialize (Hinv ev Hev Hin ts Hts). fold c last0 in Hinv. lia.
  - apply elem_of_elements in Hin.
    apply scan_new_source in Hin as [Hin|(ev' & Hev' & Hmid & Hp & Hd)];
      [by apply elem_of_empty in Hin|].
    pose proof (Hids ev' ev Hev' Hev Hmid) as Hsame. rewrite Hts in Hsame.
    pose proof (proj2 (CheckpointSpec.scan_records_bucketed today from_date
                         last0 seen0 evs (∅, ∅, last0) ev' Hev' Hp Hd)
                  ts Hsame) as Hle.
    fold F in Hle. lia.
Qed.

End InvariantSpec.
(** ** Further properties of the renderer *)

Module RendererMore.
Import Renderer.

(** Appends re-associated to the right, through conses. *)
Ltac norm_app := repeat (progress (rewrite <- ?app_assoc; cbn [app])).

Lemma startswith_two_stars (s : list N) :
  startswith s [star; star] = true -> exists r, s = star :: star :: r.
Proof.
  destruct s as [|a [|b r]]; cbn [startswith]; try discriminate.
  - rewrite andb_false_r. discriminate.
  - intros H. apply andb_true_iff in H as [Ha H].
    apply andb_true_iff in H as [Hb _].
    apply N.eqb_eq in Ha, Hb. subst. eauto.
Qed.

(** What a closed bold span is made of. *)
Lemma close_bold_spec (s g r : list N) :
  close_bold s = Some (g, r) -> s = g ++ [star; star] ++ r /\ nl ∉ g.
Proof.
  revert g r. induction s as [|c s IH]; intros g r; [discriminate|].
  cbn [close_bold].
  destruct (startswith (c :: s) [star; star]) eqn:Hs.
  - intros [= <- <-]. apply startswith_two_stars in Hs as [r' [= -> ->]].
    simpl. rewrite drop_0. split; [done|]. apply not_elem_of_nil.
  - destruct (N.eqb_spec c nl) as [->|Hc]; [discriminate|].
    destruct (close_bold s) as [[g' r']|]; [|discriminate].
    intros [= <- <-]. destruct (IH g' r' eq_refl) as [-> Hnl].
    split; [done|]. rewrite not_elem_of_cons. split; [congruence|done].
Qed.

Lemma match_here_spec (s g r : list N) :
  match_here s = Some (g, r) ->
  s = [star; star] ++ g ++ [star; star] ++ r /\ nl ∉ g.
Proof.
  unfold match_here. destruct (startswith s [star; star]) eqn:Hs; [|discriminate].
  apply startswith_two_stars in Hs as [r' ->]. simpl drop. rewrite drop_0.
  intros H. apply close_bold_spec in H as [-> Hnl]. done.
Qed.

Lemma unparse_app (a b : list TextSpan) :
  unparse (a ++ b) = unparse a ++ unparse b.
Proof. unfold unparse. by rewrite fmap_app, concat_app. Qed.

Lemma unparse_plain (s : list N) : unparse [plain s] = s.
Proof. unfold unparse. simpl. by rewrite app_nil_r. Qed.

Lemma unparse_strong (s : list N) :
  unparse [strong s] = [star; star] ++ s ++ [star; star].
Proof. unfold unparse. simpl. by rewrite app_nil_r. Qed.

(** The loop of [parse_rich_text] keeps the text: what the spans so far
    stand for, followed by the text from [current_pos] on, does not
    change. *)
Lemma rich_fold_keeps_text (text : list N) (fuel pos : nat) (s : list N)
  (rich_text : list TextSpan) (cur : nat) :
  drop pos text = s -> (length s <= fuel)%nat -> (cur <= pos)%nat ->
  (pos <= length text)%nat ->
  unparse (fold_left (rich_step text) (finditer_from fuel pos s)
                     (rich_text, cur)).1
  ++ drop (fold_left (rich_step text) (finditer_from fuel pos s)
                     (rich_text, cur)).2 text
  = unparse rich_text ++ drop cur text.
Proof.
  revert pos s rich_text cur.
  induction fuel as [|fuel IH]; intros pos s rt cur Hs Hlen Hcur Hpos.
  - done.
  - destruct s as [|c s']; [done|]. cbn [finditer_from].
    assert (pos < length text)%nat as Hlt.
    { apply (f_equal length) in Hs. rewrite length_drop in Hs. simpl in Hs. lia. }
    destruct (match_here (c :: s')) as [[g rest]|] eqn:Hm.
    + apply match_here_spec in Hm as [Hdec _].
      cbn [fold_left]. unfold rich_step at 2 4. cbn [m_start m_end m_group].
      assert (drop (pos + 4 + length g) text = rest) as Hrest.
      { replace (pos + 4 + length g)%nat with (pos + (4 + length g))%nat by lia.
        rewrite <- drop_drop, Hs, Hdec.
        change (drop (4 + length g) ([star; star] ++ g ++ [star; star] ++ rest))
          with (drop (2 + length g) (g ++ [star; star] ++ rest)).
        replace (2 + length g)%nat with (length g + 2)%nat by lia.
        by rewrite <- drop_drop, drop_app_length. }
      assert (pos + 4 + length g <= length text)%nat as Hend.
      { apply (f_equal length) in Hs. rewrite length_drop, Hdec in Hs.
        simpl in Hs. rewrite length_app in Hs. simpl in Hs. lia. }
      assert (length rest <= fuel)%nat as Hfuel.
      { rewrite Hdec in Hlen. simpl in Hlen. rewrite length_app in Hlen.
        simpl in Hlen. lia. }
      assert (drop cur text
              = slice text cur pos ++ [star; star] ++ g ++ [star; star] ++ rest)
        as Hcut.
      { unfold slice. rewrite <- Hdec, <- Hs.
        replace pos with (cur + (pos - cur))%nat at 2 by lia.
        rewrite <- drop_drop. by rewrite take_drop. }
      rewrite IH by (try done; lia).
      rewrite Hrest, Hcut, unparse_app, unparse_strong.
      destruct (Nat.ltb_spec cur pos) as [Hc|Hc].
      * destruct (slice text cur pos) as [|a n] eqn:Hn; simpl nonempty; cbv iota.
        -- by norm_app.
        -- rewrite unparse_app, unparse_plain. by norm_app.
      * assert (slice text cur pos = []) as ->.
        { unfold slice. replace (pos - cur)%nat with 0%nat by lia. done. }
        by norm_app.
    + apply IH; try lia.
      * rewrite <- (drop_drop text pos 1) || idtac.
        replace (S pos) with (pos + 1)%nat by lia.
        rewrite <- drop_drop, Hs. done.
      * simpl in Hlen. lia.
Qed.

Lemma unparse_parse (text : list N) : unparse (parse_rich_text text) = text.
Proof.
  unfold parse_rich_text, finditer.
  pose proof (rich_fold_keeps_text text (length text) 0 text [] 0) as H.
  rewrite drop_0 in H. specialize (H eq_refl). simpl in H.
  specialize (H (le_n _) (le_n _) (Nat.le_0_l _)).
  destruct (fold_left _ _ _) as [rt cur]. simpl in H.
  assert (unparse
            (if (cur <? length text)%nat
             then if nonempty (drop cur text) then rt ++ [plain (drop cur text)]
                  else rt
             else rt) = text) as Hfin.
  { destruct (Nat.ltb_spec cur (length text)) as [Hc|Hc].
    - destruct (drop cur text) as [|a r] eqn:Hd; simpl nonempty; cbv iota.
      + by rewrite app_nil_r in H.
      + by rewrite unparse_app, unparse_plain.
    - rewrite drop_ge in H by lia. by rewrite app_nil_r in H. }
  destruct (if (cur <? length text)%nat then _ else _) as [|sp sps] eqn:Hr.
  - apply unparse_plain.
  - exact Hfin.
Qed.

(** X1. [parse_rich_text] loses no character: writing its bold spans back
    between [**] markers and its plain spans as they are gives the text it
    was given. *)
Theorem parse_rich_text_round_trip (text : list N) :
  unparse (parse_rich_text text) = text.
Proof. apply unparse_parse. Qed.

(** *** The spans of a parsed text *)

Lemma finditer_groups (fuel pos : nat) (s : list N) :
  Forall (fun m => nl ∉ m_group m) (finditer_from fuel pos s).
Proof.
  revert pos s. induction fuel as [|fuel IH]; intros pos s; [constructor|].
  destruct s as [|c s']; [constructor|]. cbn [finditer_from].
  destruct (match_here (c :: s')) as [[g rest]|] eqn:Hm; [|apply IH].
  apply match_here_spec in Hm as [_ Hnl]. constructor; [done|apply IH].
Qed.

Lemma rich_fold_spans (text : list N) (ms : list Match)
  (rich_text : list TextSpan) (cur : nat) :
  Forall (fun m => nl ∉ m_group m) ms ->
  Forall (fun sp => if bold sp then nl ∉ content sp else content sp <> [])
         rich_text ->
  Forall (fun sp => if bold sp then nl ∉ content sp else content sp <> [])
         (fold_left (rich_step text) ms (rich_text, cur)).1.
Proof.
  intros Hms. revert rich_text cur.
  induction Hms as [|m ms Hm _ IH]; intros rt cur Hrt; [done|].
  cbn [fold_left]. unfold rich_step at 2. apply IH.
  apply Forall_app. split; [|by repeat constructor].
  destruct (cur <? m_start m)%nat; [|done].
  destruct (slice text cur (m_start m)) as [|a n] eqn:Hn; [done|].
  cbn [nonempty]. apply Forall_app. split; [done|]. by repeat constructor.
Qed.

(** X21. [parse_rich_text] never returns an empty list; for a text
    that is not empty, no span is empty unless it is bold, and a bold span
    holds no line break. *)
Theorem rich_text_spans_are_sound (text : str) :
  parse_rich_text text <> []
  /\ parse_rich_text [] = [plain []]
  /\ (text <> [] ->
      Forall (fun sp => if bold sp then nl ∉ content sp
                        else content sp <> [])
             (parse_rich_text text)).
Proof.
  split; [|split; [reflexivity|]].
  - unfold parse_rich_text. destruct (fold_left _ _ _) as [rt cur].
    by destruct (if (cur <? length text)%nat then _ else _).
  - intros Htext. unfold parse_rich_text, finditer.
    pose proof (rich_fold_spans text _ [] 0%nat
                  (finditer_groups (length text) 0 text) (Forall_nil_2 _))
      as Hrt.
    destruct (fold_left _ _ _) as [rt cur]. cbn [fst] in Hrt.
    destruct (Nat.ltb_spec cur (length text)) as [Hc|Hc].
    + destruct (drop cur text) as [|a r] eqn:Hd.
      { apply (f_equal length) in Hd. rewrite length_drop in Hd.
        cbn in Hd. lia. }
      cbn [nonempty]. destruct rt as [|sp rt]; cbn [app].
      * by repeat constructor.
      * rewrite app_comm_cons. apply Forall_app. split; [done|].
        by repeat constructor.
    + destruct rt as [|sp rt]; [|done].
      repeat constructor. by cbn.
Qed.

(** *** Headings *)

Lemma startswith_hashes (line : list N) (n : nat) :
  startswith line (repeat hash_sign n) = (n <=? leading_hashes line)%nat.
Proof.
  revert line. induction n as [|n IH]; intros line; [by destruct line|].
  destruct line as [|c line]; [done|].
  cbn [repeat startswith leading_hashes]. rewrite IH.
  rewrite (N.eqb_sym hash_sign c).
  by destruct (c =? hash_sign)%N.
Qed.

Lemma line_step_by_hashes (max_chars_per_block : nat)
  (st : list Block * list N) (line : list N) :
  line_step max_chars_per_block st line
  = if (1 <=? leading_hashes line)%nat && (leading_hashes line <=? 3)%nat
    then heading_step (leading_hashes line) line st
    else text_step max_chars_per_block st line.
Proof.
  unfold line_step. cbv zeta. rewrite !startswith_hashes.
  destruct (leading_hashes line) as [|[|[|[|n]]]]; reflexivity.
Qed.

(** X22. The level of a heading line is the number of [#] it starts
    with, when that is 1, 2 or 3; a line with four or more, like one with
    none, is ordinary text. *)
Theorem heading_level_is_hash_count (max_chars_per_block : nat)
  (st : list Block * str) (line : str) :
  line_step max_chars_per_block st line
  = if (1 <=? leading_hashes line)%nat && (leading_hashes line <=? 3)%nat
    then heading_step (leading_hashes line) line st
    else text_step max_chars_per_block st line.
Proof. apply line_step_by_hashes. Qed.

Lemma headings_ok_app (a b : list Block) :
  headings_ok a = true -> headings_ok (a ++ b) = headings_ok b.
Proof.
  remember (length a) as k eqn:Hk. revert a Hk.
  induction k as [k IH] using lt_wf_ind. intros a -> Ha.
  destruct a as [|[n rt|rt] a]; [done| |].
  - destruct a as [|[|[|s1 [|]]] [|[|[|s2 [|]]] a]]; try discriminate.
    cbn [headings_ok] in Ha. cbn [app headings_ok].
    apply andb_true_iff in Ha as [Ha Hrest]. rewrite Ha. cbn [andb].
    apply (IH (length a)); [cbn [length]; lia|done|done].
  - cbn [app headings_ok] in *.
    apply (IH (length a)); [cbn [length]; lia|done|done].
Qed.

Lemma flush_headings_ok (st : list Block * list N) :
  headings_ok st.1 = true -> headings_ok (flush st).1 = true.
Proof.
  destruct st as [blocks cur]. unfold flush. cbn [fst]. intros H.
  destruct (nonempty (strip cur)); [|done]. cbn [fst].
  by rewrite headings_ok_app.
Qed.

Lemma heading_step_headings_ok (n : nat) (line : list N)
  (st : list Block * list N) :
  (1 <= n <= 3)%nat -> headings_ok st.1 = true ->
  headings_ok (heading_step n line st).1 = true.
Proof.
  intros Hn H. unfold heading_step.
  pose proof (flush_headings_ok st H) as Hf.
  destruct (flush st) as [blocks cur]. cbn [fst] in Hf.
  destruct (nonempty _) eqn:Hne; [|done]. cbn [fst].
  rewrite headings_ok_app by done.
  cbn [headings_ok spacer plain content bold nonempty negb andb].
  rewrite unparse_parse, Hne.
  destruct (Nat.leb_spec 1 n), (Nat.leb_spec n 3); done || lia.
Qed.

Lemma text_step_headings_ok (max_chars_per_block : nat)
  (st : list Block * list N) (line : list N) :
  headings_ok st.1 = true ->
  headings_ok (text_step max_chars_per_block st line).1 = true.
Proof.
  destruct st as [blocks cur]. unfold text_step. cbn [fst]. intros H.
  destruct (_ <? _)%nat; [|done]. cbn [fst]. by rewrite headings_ok_app.
Qed.

Lemma line_fold_headings_ok (max_chars_per_block : nat)
  (lines : list (list N)) (st : list Block * list N) :
  headings_ok st.1 = true ->
  headings_ok (fold_left (line_step max_chars_per_block) lines st).1 = true.
Proof.
  revert st. induction lines as [|line lines IH]; intros st H; [done|].
  cbn [fold_left]. apply IH. rewrite line_step_by_hashes.
  destruct (Nat.leb_spec 1 (leading_hashes line)),
           (Nat.leb_spec (leading_hashes line) 3); cbn [andb];
    try (by apply text_step_headings_ok).
  by apply heading_step_headings_ok.
Qed.

(** The text a heading shows can be empty: a heading line whose text is
    an empty bold span gives a heading with one bold span without
    content. *)
Example empty_bold_heading :
  markdown_to_notion_blocks (py "## ****")
  = [Heading 2 [strong []]; spacer; spacer].
Proof. vm_compute. reflexivity. Qed.

(** X23. In the blocks [markdown_to_notion_blocks] returns, every
    heading has level 1, 2 or 3, comes from a heading text that is not
    empty (the markdown its spans stand for, bold spans between [**]
    markers, is not empty, so it has at least one span; the text it shows
    may be empty, as in [empty_bold_heading]), and is directly followed by
    two paragraphs that hold one empty plain span each. *)
Theorem rendered_headings_are_spaced (max_chars_per_block : nat)
  (markdown_text : str) :
  headings_ok (markdown_to_notion_blocks_with max_chars_per_block
                                              markdown_text) = true.
Proof.
  unfold markdown_to_notion_blocks_with.
  apply flush_headings_ok. by apply line_fold_headings_ok.
Qed.

(** *** Blank input *)

Lemma split_lines_blank (text : list N) :
  blank text -> Forall blank (split_lines text).
Proof.
  induction 1 as [|c s Hc Hs IH]; [by repeat constructor|].
  cbn [split_lines]. destruct (c =? nl)%N.
  - constructor; [constructor|done].
  - destruct (split_lines s) as [|l ls]; [by repeat constructor|].
    apply Forall_cons in IH as [Hl Hls]. constructor; [|done].
    by constructor.
Qed.

Lemma blank_line_step (max_chars_per_block : nat) (line : list N) :
  blank line -> line_step max_chars_per_block ([], []) line = ([], []).
Proof.
  intros Hb. rewrite line_step_by_hashes.
  assert (leading_hashes line = 0%nat) as ->.
  { destruct Hb as [|c s Hc _]; [done|]. cbn [leading_hashes].
    destruct (N.eqb_spec c hash_sign) as [->|]; [discriminate|done]. }
  cbn [Nat.leb andb]. unfold text_step.
  rewrite (SegmenterSpec.strip_blank line Hb). cbn [nonempty length].
  by destruct max_chars_per_block.
Qed.

(** X24. A text made of whitespace only (line breaks included) gives no
    block at all. *)
Theorem blank_text_gives_no_blocks (max_chars_per_block : nat)
  (markdown_text : str) :
  blank markdown_text ->
  markdown_to_notion_blocks_with max_chars_per_block markdown_text = [].
Proof.
  intros Hb. unfold markdown_to_notion_blocks_with.
  apply split_lines_blank in Hb.
  assert (fold_left (line_step max_chars_per_block)
                    (split_lines markdown_text) ([], []) = ([], [])) as ->;
    [|done].
  induction Hb as [|line lines Hline _ IH]; [done|].
  cbn [fold_left]. by rewrite blank_line_step.
Qed.

Lemma blank_text_gives_no_blocks_witness :
  blank (py "  " ++ [nl; nl] ++ py " ")
  /\ markdown_to_notion_blocks_with max_chars_per_block_default
       (py "  " ++ [nl; nl] ++ py " ") = [].
Proof.
  assert (blank (py "  " ++ [nl; nl] ++ py " ")) as Hb
    by (repeat constructor).
  split; [exact Hb|].
  apply (blank_text_gives_no_blocks max_chars_per_block_default
           (py "  " ++ [nl; nl] ++ py " ") Hb).
Defined.

End RendererMore.
(** ** Further properties of the scheduler and of the week arithmetic *)

Module SchedulerMore.
Import Scheduler.

(** Week arithmetic on ordinals, by the Euclidean division behind
    [weekday]. *)
Ltac week_arith :=
  unfold weekday in *; Z.to_euclidean_division_equations; lia.

Lemma next_saturday_from_sunday (last_date : Z) :
  weekday last_date = 6 -> next_saturday last_date = last_date + 6.
Proof.
  intros H. unfold next_saturday. cbv zeta. rewrite H.
  destruct (Z.leb_spec (last_date - 6 + 5) last_date); lia.
Qed.

(** X2. [get_weekly_date_range] returns the Monday and the Friday of the
    week (Monday to Sunday) that holds today. *)
Theorem weekly_range_is_monday_to_friday (today_date : Z) :
  weekday (get_weekly_date_range today_date).1 = 0
  /\ weekday (get_weekly_date_range today_date).2 = 4
  /\ (get_weekly_date_range today_date).2
     = (get_weekly_date_range today_date).1 + 4
  /\ (get_weekly_date_range today_date).1 <= today_date
     < (get_weekly_date_range today_date).1 + 7.
Proof.
  unfold get_weekly_date_range. cbv zeta. cbn [fst snd].
  repeat split; week_arith.
Qed.

(** X3. [get_latest_friday_date] returns the last Friday on or before
    today: a Friday, not after today, and less than a week back. *)
Theorem latest_friday_is_last_friday (today_date : Z) :
  weekday (get_latest_friday_date today_date) = 4
  /\ get_latest_friday_date today_date <= today_date
     < get_latest_friday_date today_date + 7.
Proof.
  unfold get_latest_friday_date. cbv zeta.
  destruct (Z.ltb_spec today_date (today_date - weekday today_date + 4));
    repeat split; week_arith.
Qed.

(** X4. Without a stored date, the orchestrator files the weekly page
    under the Sunday that closes the week of today, except on a Friday,
    when it files nothing. *)
Theorem first_registration_is_week_end (today_date : Z) :
  (weekday today_date = 4 -> registration_date None today_date = None)
  /\ (weekday today_date <> 4 ->
      exists d, registration_date None today_date = Some d
                /\ weekday d = 6 /\ today_date <= d < today_date + 7).
Proof.
  unfold registration_date. cbv zeta. split.
  - intros H. rewrite H.
    replace (today_date - 4 + 4) with today_date by lia.
    by rewrite Z.eqb_refl.
  - intros H.
    destruct (Z.eqb_spec today_date (today_date - weekday today_date + 4))
      as [He|He]; [lia|].
    eexists. split; [reflexivity|]. split; week_arith.
Qed.

(** X5. Once the stored date is a Sunday, the weekly report is due from
    the Saturday six days later, and a run that saves moves the stored
    date by exactly one week, however late it runs. *)
Theorem weekly_date_advances_one_week (last_date : Z) :
  weekday last_date = 6 ->
  (forall today_date,
      should_create_weekly_report today_date (Some last_date) = true
      <-> last_date + 6 <= today_date)
  /\ (forall weekly_report publish today_date today_date',
        weekly_status (weekly_step weekly_report publish (Some last_date)
                                   today_date today_date') = WeeklySaved ->
        stored_date (weekly_step weekly_report publish (Some last_date)
                                 today_date today_date')
        = Some (last_date + 7)
        /\ weekday (last_date + 7) = 6).
Proof.
  intros Hsun. split.
  - intros today_date. unfold should_create_weekly_report.
    rewrite next_saturday_from_sunday by done.
    split; intros H; [apply Z.geb_le in H|apply Z.geb_le]; lia.
  - intros weekly_report publish today_date today_date'.
    unfold weekly_step, registration_date.
    rewrite next_saturday_from_sunday by done.
    destruct (should_create_weekly_report _ _); [|discriminate].
    destruct weekly_report; [|discriminate].
    destruct (publish _); try discriminate.
    intros _. cbn [stored_date]. split; [f_equal; lia|week_arith].
Qed.

Lemma weekly_date_advances_one_week_witness :
  weekday sun_2025_10_05 = 6
  /\ (forall today_date,
        should_create_weekly_report today_date (Some sun_2025_10_05) = true
        <-> sun_2025_10_05 + 6 <= today_date)
  /\ (forall weekly_report publish today_date today_date',
        weekly_status (weekly_step weekly_report publish (Some sun_2025_10_05)
                                   today_date today_date') = WeeklySaved ->
        stored_date (weekly_step weekly_report publish (Some sun_2025_10_05)
                                 today_date today_date')
        = Some (sun_2025_10_05 + 7)
        /\ weekday (sun_2025_10_05 + 7) = 6).
Proof.
  split; [reflexivity|].
  apply (weekly_date_advances_one_week sun_2025_10_05). reflexivity.
Defined.

(** X6. The orchestrator changes the stored weekly date only when the
    report was due and was produced, and the page filed under the new
    date came back with a URL. *)
Theorem weekly_date_changes_only_on_success (weekly_report : bool)
  (publish : Z -> weekly_page) (last_weekly_date : option Z)
  (today_date today_date' : Z) :
  stored_date (weekly_step weekly_report publish last_weekly_date
                           today_date today_date') <> last_weekly_date ->
  should_create_weekly_report today_date last_weekly_date = true
  /\ weekly_report = true
  /\ exists d,
       stored_date (weekly_step weekly_report publish last_weekly_date
                                today_date today_date') = Some d
       /\ filed_under (weekly_step weekly_report publish last_weekly_date
                                   today_date today_date') = Some d
       /\ registration_date last_weekly_date today_date' = Some d
       /\ publish d = PageWithUrl.
Proof.
  unfold weekly_step.
  destruct (should_create_weekly_report today_date last_weekly_date);
    [|by intros []].
  destruct weekly_report; [|by intros []].
  destruct (registration_date last_weekly_date today_date') as [d|];
    [|by intros []].
  destruct (publish d) eqn:Hp; try by intros [].
  intros _. repeat split. by exists d.
Qed.

Lemma weekly_date_changes_only_on_success_witness :
  should_create_weekly_report mon_2025_10_06 (Some wed_2025_10_01) = true
  /\ true = true
  /\ exists d,
       stored_date (weekly_step true (fun _ => PageWithUrl)
                                (Some wed_2025_10_01)
                                mon_2025_10_06 mon_2025_10_06) = Some d
       /\ filed_under (weekly_step true (fun _ => PageWithUrl)
                                   (Some wed_2025_10_01)
                                   mon_2025_10_06 mon_2025_10_06) = Some d
       /\ registration_date (Some wed_2025_10_01) mon_2025_10_06 = Some d
       /\ (fun _ : Z => PageWithUrl) d = PageWithUrl.
Proof.
  apply (weekly_date_changes_only_on_success true (fun _ => PageWithUrl)
           (Some wed_2025_10_01) mon_2025_10_06 mon_2025_10_06).
  vm_compute. discriminate.
Defined.

End SchedulerMore.
(** ** Properties of the stored weekly-report date and of the database
       properties *)

Module ConfigMore.


(** X8. Reading the stored date twice gives the same answer, and the
    second read leaves the work directory as the first one left it: the
    migration of the legacy text file happens at most once. *)
Theorem weekly_date_read_is_idempotent (now now' : str) (w : workdir) :
  get_last_weekly_report_date now' (get_last_weekly_report_date now w).1
  = get_last_weekly_report_date now w.
Proof.
  unfold get_last_weekly_report_date.
  destruct w as [[[|config|]|] [txt|]]; cbn; try reflexivity.
  destruct (nonempty (strip txt)) eqn:Hne; cbn.
  - f_equal; try apply lookup_insert_eq.
  - by rewrite Hne.
Qed.



End ConfigMore.

Module DatabaseMore.

Lemma first_of_type_named (ty : list N) (props : list (list N * list N))
  (k : list N) :
  named props -> first_of_type ty props = Some k -> k <> [].
Proof.
  induction 1 as [|[k' v] props Hk _ IH]; [discriminate|].
  cbn [first_of_type]. destruct (decide (v = ty)); [|exact IH].
  by intros [= <-].
Qed.

(** The loop of [get_db_props], from names that are not empty. *)
Lemma db_props_fold (props : list (list N * list N))
  (title_prop date_prop : option (list N)) :
  named props -> title_prop <> Some [] -> date_prop <> Some [] ->
  fold_left db_props_step props (title_prop, date_prop)
  = (match title_prop with
     | Some _ => title_prop
     | None => first_of_type type_title props
     end,
     match date_prop with
     | Some _ => date_prop
     | None => first_of_type type_date props
     end).
Proof.
  intros Hn. revert title_prop date_prop.
  induction Hn as [|[k v] props Hk _ IH]; intros t d Ht Hd.
  - by destruct t, d.
  - cbn [fold_left db_props_step first_of_type]. cbn [fst] in Hk.
    assert (Some k <> Some []) as Hk' by congruence.
    destruct t as [[|c t]|], d as [[|c' d]|]; try done;
      cbn [or_else nonempty negb]; rewrite ?andb_true_r, ?andb_false_r;
      repeat case_bool_decide; repeat case_decide; try congruence;
      rewrite IH by done; try reflexivity.
Qed.

(** X10. On a database whose property names are not empty, the two
    lookups of the title and date properties, [get_db_props] and
    [notion_get_title_date_props], return the same names and fail on the
    same databases (those without a title property). *)
Theorem db_props_lookups_agree (props : list (list N * list N)) :
  named props -> get_db_props props = notion_get_title_date_props props.
Proof.
  intros Hn. unfold get_db_props, notion_get_title_date_props.
  rewrite db_props_fold by done.
  destruct (first_of_type type_title props) as [[|c k]|] eqn:Ht; try done.
  by apply first_of_type_named in Ht.
Qed.

Lemma db_props_lookups_agree_witness :
  named sample_props
  /\ get_db_props sample_props = notion_get_title_date_props sample_props.
Proof.
  assert (named sample_props) as Hn
    by (repeat constructor; vm_compute; discriminate).
  split; [exact Hn|]. apply (db_props_lookups_agree sample_props Hn).
Defined.

End DatabaseMore.
(** ** Further properties of the event normalizer *)

Module NormalizerMore.

Lemma or_else_default_nonempty (o : option (list N)) (d : list N) :
  d <> [] -> or_else o d <> [].
Proof. by destruct o as [[|c s]|]. Qed.

Lemma conv_key_nonempty (conv : Conversation) : conv_key conv <> [].
Proof.
  unfold conv_key. apply or_else_default_nonempty.
  by apply or_else_default_nonempty.
Qed.

Section WithHash.

Variable py_hash : str -> str -> option Z -> Z.

Lemma mapping_event_fields (conv_id title : list N) (entry : list N * Node)
  (ev : Event) :
  mapping_event conv_id title entry = Some ev ->
  ev_conv_id ev = conv_id /\ ev_title ev = title
  /\ ev_role ev <> [] /\ ev_text ev <> [] /\ ev_mid ev <> []
  /\ ev_ts ev = create_time (default empty_message (node_message entry.2)).
Proof.
  destruct entry as [node_id node]. unfold mapping_event.
  destruct (or_else (author_role _) []) as [|r role] eqn:Hrole;
    [discriminate|].
  destruct (negb (nonempty (r :: role)) || negb (content_truthy _));
    [discriminate|].
  destruct (content_text _) as [[|c t]|]; try discriminate.
  intros [= <-]. cbn. repeat split; try done.
  by apply or_else_default_nonempty.
Qed.

Lemma legacy_event_fields (conv_id title : list N) (m : Message)
  (ev : Event) :
  legacy_event py_hash conv_id title m = Some ev ->
  ev_conv_id ev = conv_id /\ ev_title ev = title
  /\ ev_role ev <> [] /\ ev_text ev <> [] /\ ev_mid ev <> []
  /\ ev_ts ev = create_time m.
Proof.
  unfold legacy_event.
  destruct (content_text _) as [[|c t]|]; try discriminate.
  destruct (or_else (author_role m) []) as [|r role] eqn:Hrole;
    [discriminate|].
  intros [= <-]. cbn. repeat split; try done.
  by apply or_else_default_nonempty.
Qed.

(** X11. Every event [iter_messages] yields carries the conversation's
    key (never empty: "(unknown)" at worst) and title, and a role, a text
    and a message id that are not empty. *)
Theorem yielded_events_are_complete (conv : Conversation) :
  Forall (fun ev =>
            ev_conv_id ev = conv_key conv /\ ev_conv_id ev <> []
            /\ ev_title ev = or_else (conv_title conv) []
            /\ ev_role ev <> [] /\ ev_text ev <> [] /\ ev_mid ev <> [])
         (iter_messages py_hash conv).
Proof.
  apply Forall_forall. intros ev Hev. unfold iter_messages in Hev.
  pose proof (conv_key_nonempty conv) as Hkey.
  destruct (conv_mapping conv) as [[|e es]|];
    apply list_elem_of_omap in Hev as (x & _ & Hx);
    (apply mapping_event_fields in Hx || apply legacy_event_fields in Hx);
    destruct Hx as (Hc & Ht & Hr & Htx & Hm & _); rewrite Hc; done.
Qed.

(** X12. A message that carries an id yields an event in the graph shape
    exactly when it does in the flat shape, and then the same event. *)
Theorem shapes_agree_on_identified_messages (conv_id title node_id : str)
  (m : Message) (ev : Event) :
  or_else (msg_id m) [] <> [] ->
  mapping_event conv_id title (node_id, {| node_message := Some m |}) = Some ev
  <-> legacy_event py_hash conv_id title m = Some ev.
Proof.
  intros Hid. unfold mapping_event, legacy_event. cbn [node_message].
  change (default empty_message (Some m)) with m.
  destruct (msg_id m) as [[|i mid]|]; try done. cbn [or_else].
  destruct (or_else (author_role m) []) as [|r role];
    destruct (msg_content m) as [|[|c s]|parts|[]];
    cbn [content_text content_truthy nonempty negb orb]; try done;
    by destruct (join [nl] _).
Qed.

End WithHash.

Lemma shapes_agree_on_identified_messages_witness :
  or_else (msg_id parts_message) [] <> []
  /\ (mapping_event (py "c1") (py "first")
        (py "n1", {| node_message := Some parts_message |})
      = Some {| ev_conv_id := py "c1"; ev_role := py "assistant";
                ev_text := py "one" ++ [nl] ++ py "two";
                ev_ts := Some ts_sep26; ev_mid := py "m1";
                ev_title := py "first" |}
      <-> legacy_event hash0 (py "c1") (py "first") parts_message
          = Some {| ev_conv_id := py "c1"; ev_role := py "assistant";
                    ev_text := py "one" ++ [nl] ++ py "two";
                    ev_ts := Some ts_sep26; ev_mid := py "m1";
                    ev_title := py "first" |}).
Proof.
  assert (or_else (msg_id parts_message) [] <> []) as Hid
    by (vm_compute; discriminate).
  split; [exact Hid|].
  exact (shapes_agree_on_identified_messages hash0 (py "c1") (py "first")
           (py "n1") parts_message _ Hid).
Defined.

End NormalizerMore.
(** ** Further properties of the bucketer and of the checkpoint *)

Module BucketerMore.

Lemma timestamps_nonnegativeb_sound (py_hash : str -> str -> option Z -> Z)
  (conversations : list Conversation) :
  timestamps_nonnegativeb py_hash conversations = true ->
  timestamps_nonnegative py_hash conversations.
Proof.
  unfold timestamps_nonnegativeb. intros H conv ev ts Hc Hev Hts.
  rewrite forallb_forall in H.
  apply list_elem_of_In, H in Hc. rewrite forallb_forall in Hc.
  apply list_elem_of_In, Hc in Hev. rewrite Hts in Hev. lia.
Qed.

(** *** Where a day key comes from *)

Section Keys.

Variables (today : Z) (from_date : option Z).

Lemma ts_to_day_range (ts : option Z) (floor day : Z) :
  from_date = Some floor -> ts_to_day today ts from_date = Some day ->
  floor <= day \/ day = today.
Proof.
  intros ->. unfold ts_to_day. destruct ts as [t|]; [|intros [= <-]; by right].
  destruct (jst_date t) as [d|]; [|intros [= <-]; by right].
  destruct (Z.geb_spec d floor); [|discriminate]. intros [= <-]. by left.
Qed.

Lemma bucket_event_keys (acc : scan_state) (ev : Event) (day : Z) :
  is_Some ((bucket_event today from_date acc ev).1.1 !! day) ->
  is_Some (acc.1.1 !! day)
  \/ ts_to_day today (ev_ts ev) from_date = Some day.
Proof.
  destruct acc as [[b ns] mx]. unfold bucket_event.
  destruct (ts_to_day _ _ _) as [d|]; [|by left]. cbn [fst].
  destruct (decide (d = day)) as [->|Hd]; [by right|].
  rewrite lookup_insert_ne by done. by left.
Qed.

(** A loop whose body either skips the event or buckets it. *)
Lemma fold_keys (step : scan_state -> Event -> scan_state) :
  (forall acc ev, step acc ev = acc
                  \/ step acc ev = bucket_event today from_date acc ev) ->
  forall (evs : list Event) (acc : scan_state) (day : Z),
    is_Some ((fold_left step evs acc).1.1 !! day) ->
    is_Some (acc.1.1 !! day)
    \/ exists ev, ev ∈ evs /\ ts_to_day today (ev_ts ev) from_date = Some day.
Proof.
  intros Hstep evs. induction evs as [|e evs IH]; intros acc day H;
    [by left|].
  cbn [fold_left] in H. apply IH in H as [H|(ev & Hin & Hev)].
  - destruct (Hstep acc e) as [Hs|Hs]; rewrite Hs in H; [by left|].
    apply bucket_event_keys in H as [H|H]; [by left|].
    right. exists e. split; [apply elem_of_cons; by left|done].
  - right. exists ev. split; [apply elem_of_cons; by right|done].
Qed.

Lemma message_step_skips_or_buckets (last_ts : Z) (seen_set : gset (list N))
  (acc : scan_state) (ev : Event) :
  message_step today from_date last_ts seen_set acc ev = acc
  \/ message_step today from_date last_ts seen_set acc ev
     = bucket_event today from_date acc ev.
Proof. unfold message_step. destruct (passes_filter _ _ _); auto. Qed.

Variable py_hash : str -> str -> option Z -> Z.

(** The loop over the conversations, for either variant of its body. *)
Lemma fold_conv_keys
  (cstep : gmap Z (list (list N)) * gmap (list N) (gset (list N) * Z)
           -> Conversation
           -> gmap Z (list (list N)) * gmap (list N) (gset (list N) * Z)) :
  (forall acc conv day,
      is_Some ((cstep acc conv).1 !! day) ->
      is_Some (acc.1 !! day)
      \/ exists ev, ev ∈ iter_messages py_hash conv
                    /\ ts_to_day today (ev_ts ev) from_date = Some day) ->
  forall convs acc day,
    is_Some ((fold_left cstep convs acc).1 !! day) ->
    is_Some (acc.1 !! day)
    \/ exists conv ev, conv ∈ convs /\ ev ∈ iter_messages py_hash conv
                       /\ ts_to_day today (ev_ts ev) from_date = Some day.
Proof.
  intros Hstep convs. induction convs as [|c convs IH]; intros acc day H;
    [by left|].
  cbn [fold_left] in H. apply IH in H as [H|(conv & ev & Hin & Hev & Hd)].
  - apply Hstep in H as [H|(ev & Hev & Hd)]; [by left|].
    right. exists c, ev. split; [apply elem_of_cons; by left|done].
  - right. exists conv, ev. split; [apply elem_of_cons; by right|done].
Qed.

Lemma conv_step_keys (st : State)
  (acc : gmap Z (list (list N)) * gmap (list N) (gset (list N) * Z))
  (conv : Conversation) (day : Z) :
  is_Some ((conv_step py_hash today from_date st acc conv).1 !! day) ->
  is_Some (acc.1 !! day)
  \/ exists ev, ev ∈ iter_messages py_hash conv
                /\ ts_to_day today (ev_ts ev) from_date = Some day.
Proof.
  destruct acc as [b p]. unfold conv_step, scan_conv. intros H.
  apply (fold_keys _ (message_step_skips_or_buckets
                        (hwm_of st (conv_key conv))
                        (list_to_set (seen_of st (conv_key conv))))
           (iter_messages py_hash conv)
           (b, ∅, hwm_of st (conv_key conv)) day).
  by destruct (fold_left _ _ _) as [[b' ns] mx].
Qed.

Lemma conv_step_all_keys
  (acc : gmap Z (list (list N)) * gmap (list N) (gset (list N) * Z))
  (conv : Conversation) (day : Z) :
  is_Some ((conv_step_all py_hash today from_date acc conv).1 !! day) ->
  is_Some (acc.1 !! day)
  \/ exists ev, ev ∈ iter_messages py_hash conv
                /\ ts_to_day today (ev_ts ev) from_date = Some day.
Proof.
  destruct acc as [b p]. unfold conv_step_all, scan_conv_all. intros H.
  apply (fold_keys _ (fun acc ev => or_intror eq_refl)
           (iter_messages py_hash conv) (b, ∅, 0) day).
  by destruct (fold_left _ _ _) as [[b' ns] mx].
Qed.

Lemma build_daily_raw_keys (convs : list Conversation) (st : State)
  (max_chars : Z) (day : Z) :
  is_Some ((build_daily_raw py_hash today convs st max_chars from_date).1
             !! day) ->
  exists conv ev, conv ∈ convs /\ ev ∈ iter_messages py_hash conv
                  /\ ts_to_day today (ev_ts ev) from_date = Some day.
Proof.
  unfold build_daily_raw. intros H.
  assert (is_Some ((fold_left (conv_step py_hash today from_date st) convs
                              (∅, ∅)).1 !! day)) as H'.
  { destruct (fold_left _ _ _) as [b p]. cbn [fst] in *.
    rewrite lookup_fmap in H. by apply fmap_is_Some in H. }
  apply (fold_conv_keys _ (conv_step_keys st)) in H' as [[x Hx]|Hsrc];
    [|done].
  cbn [fst] in Hx. by rewrite lookup_empty in Hx.
Qed.

Lemma build_daily_raw_all_data_keys (convs : list Conversation)
  (max_chars : Z) (day : Z) :
  is_Some ((build_daily_raw_all_data py_hash today convs max_chars
                                     from_date).1 !! day) ->
  exists conv ev, conv ∈ convs /\ ev ∈ iter_messages py_hash conv
                  /\ ts_to_day today (ev_ts ev) from_date = Some day.
Proof.
  unfold build_daily_raw_all_data. intros H.
  assert (is_Some ((fold_left (conv_step_all py_hash today from_date) convs
                              (∅, ∅)).1 !! day)) as H'.
  { destruct (fold_left _ _ _) as [b p]. cbn [fst] in *.
    rewrite lookup_fmap in H. by apply fmap_is_Some in H. }
  apply (fold_conv_keys _ conv_step_all_keys) in H' as [[x Hx]|Hsrc];
    [|done].
  cbn [fst] in Hx. by rewrite lookup_empty in Hx.
Qed.

End Keys.

(** X13. A day gets a text, from either builder, only when some message
    of the export is filed under it; with a floor date, such a day is on
    or after the floor, or is today (where messages without a usable
    timestamp go). *)
Theorem day_keys_come_from_messages (py_hash : str -> str -> option Z -> Z)
  (today : Z) (from_date : option Z) (conversations : list Conversation)
  (st : State) (max_chars : Z) (day : Z) (text : str) :
  (build_daily_raw py_hash today conversations st max_chars from_date).1
    !! day = Some text
  \/ (build_daily_raw_all_data py_hash today conversations max_chars
                               from_date).1 !! day = Some text ->
  (exists conv ev, conv ∈ conversations /\ ev ∈ iter_messages py_hash conv
                   /\ ts_to_day today (ev_ts ev) from_date = Some day)
  /\ (forall floor, from_date = Some floor -> floor <= day \/ day = today).
Proof.
  intros H.
  assert (exists conv ev, conv ∈ conversations
                          /\ ev ∈ iter_messages py_hash conv
                          /\ ts_to_day today (ev_ts ev) from_date = Some day)
    as Hsrc.
  { destruct H as [H|H].
    - by apply (build_daily_raw_keys today from_date py_hash conversations st
                  max_chars day).
    - by apply (build_daily_raw_all_data_keys today from_date py_hash
                  conversations max_chars day). }
  split; [exact Hsrc|].
  destruct Hsrc as (conv & ev & _ & _ & Hd). intros floor Hf.
  by apply (ts_to_day_range today from_date (ev_ts ev)).
Qed.

Lemma day_keys_come_from_messages_witness :
  (exists conv ev, conv ∈ scenario_convs /\ ev ∈ iter_messages hash0 conv
                   /\ ts_to_day day_sep28 (ev_ts ev) (Some day_sep25)
                      = Some day_sep26)
  /\ (forall floor, Some day_sep25 = Some floor ->
                    floor <= day_sep26 \/ day_sep26 = day_sep28).
Proof.
  apply (day_keys_come_from_messages hash0 day_sep28 (Some day_sep25)
           scenario_convs empty_state max_chars_default day_sep26
           (bullet ++ py "[" ++ label_user ++ py "] first｜new one"
            ++ bullet ++ py "[" ++ label_user ++ py "] second｜new two")).
  left. vm_compute. reflexivity.
Defined.

(** *** The full-export variant against a first incremental run *)

Section AllData.

Variable py_hash : str -> str -> option Z -> Z.
Variables (today : Z) (from_date : option Z).

Lemma passes_filter_fresh (ev : Event) :
  (forall ts, ev_ts ev = Some ts -> 0 <= ts) ->
  passes_filter (-1) ∅ ev = true.
Proof.
  intros H. unfold passes_filter. destruct (ev_ts ev) as [ts|].
  - specialize (H ts eq_refl). destruct (Z.leb_spec ts (-1)); [lia|].
    by destruct (decide _) as [Hin|]; [apply elem_of_empty in Hin|].
  - by destruct (decide _) as [Hin|]; [apply elem_of_empty in Hin|].
Qed.

Lemma bucket_event_from_zero (b : gmap Z (list (list N)))
  (ns : gset (list N)) (mx : Z) (ev : Event) :
  (forall ts, ev_ts ev = Some ts -> 0 <= ts) ->
  bucket_event today from_date (b, ns, Z.max 0 mx) ev
  = ((bucket_event today from_date (b, ns, mx) ev).1,
     Z.max 0 (bucket_event today from_date (b, ns, mx) ev).2).
Proof.
  intros H. unfold bucket_event.
  destruct (ts_to_day _ _ _) as [d|]; [|done]. cbn [fst snd]. f_equal.
  destruct (ev_ts ev) as [ts|]; [|done]. specialize (H ts eq_refl).
  destruct (Z.gtb_spec ts (Z.max 0 mx)), (Z.gtb_spec ts mx); lia.
Qed.

Lemma scan_from_zero (evs : list Event) (b : gmap Z (list (list N)))
  (ns : gset (list N)) (mx : Z) :
  (forall ev ts, ev ∈ evs -> ev_ts ev = Some ts -> 0 <= ts) ->
  fold_left (bucket_event today from_date) evs (b, ns, Z.max 0 mx)
  = ((fold_left (message_step today from_date (-1) ∅) evs (b, ns, mx)).1,
     Z.max 0
       (fold_left (message_step today from_date (-1) ∅) evs (b, ns, mx)).2).
Proof.
  revert b ns mx. induction evs as [|e evs IH]; intros b ns mx H; [done|].
  assert (forall ts, ev_ts e = Some ts -> 0 <= ts) as He.
  { intros ts. apply H, elem_of_cons. by left. }
  cbn [fold_left]. unfold message_step at 2 4.
  rewrite passes_filter_fresh by done.
  rewrite bucket_event_from_zero by done.
  destruct (bucket_event today from_date (b, ns, mx) e) as [[b' ns'] mx'].
  apply IH. intros ev ts Hin. apply H, elem_of_cons. by right.
Qed.

Lemma conv_step_from_zero (b : gmap Z (list (list N)))
  (p : gmap (list N) (gset (list N) * Z)) (conv : Conversation) :
  (forall ev ts, ev ∈ iter_messages py_hash conv -> ev_ts ev = Some ts ->
                 0 <= ts) ->
  conv_step_all py_hash today from_date (b, from_zero <$> p) conv
  = ((conv_step py_hash today from_date empty_state (b, p) conv).1,
     from_zero <$> (conv_step py_hash today from_date empty_state (b, p)
                              conv).2).
Proof.
  intros H. unfold conv_step_all, conv_step, scan_conv_all, scan_conv.
  change (hwm_of empty_state (conv_key conv)) with (-1).
  change (list_to_set (seen_of empty_state (conv_key conv)))
    with (∅ : gset (list N)).
  change 0 with (Z.max 0 (-1)) at 1.
  rewrite scan_from_zero by done.
  destruct (fold_left _ _ _) as [[b' ns] mx]. cbn [fst snd].
  destruct (decide (ns = ∅)); [done|]. by rewrite fmap_insert.
Qed.

Lemma fold_from_zero (convs : list Conversation)
  (b : gmap Z (list (list N))) (p : gmap (list N) (gset (list N) * Z)) :
  timestamps_nonnegative py_hash convs ->
  fold_left (conv_step_all py_hash today from_date) convs
            (b, from_zero <$> p)
  = ((fold_left (conv_step py_hash today from_date empty_state) convs
                (b, p)).1,
     from_zero <$> (fold_left (conv_step py_hash today from_date empty_state)
                              convs (b, p)).2).
Proof.
  revert b p. induction convs as [|c convs IH]; intros b p H; [done|].
  cbn [fold_left]. rewrite conv_step_from_zero.
  - destruct (conv_step _ _ _ _ _ _) as [b' p']. apply IH.
    intros conv ev ts Hin. apply H, elem_of_cons. by right.
  - intros ev ts. apply H, elem_of_cons. by left.
Qed.

End AllData.

(** X14. On an export whose timestamps are not negative,
    [build_daily_raw_all_data] returns the day texts of [build_daily_raw]
    run from an empty checkpoint, and the same progress but for a [max_ts]
    that is never below 0. *)
Theorem all_data_is_first_run (py_hash : str -> str -> option Z -> Z)
  (today : Z) (conversations : list Conversation) (max_chars : Z)
  (from_date : option Z) :
  timestamps_nonnegative py_hash conversations ->
  build_daily_raw_all_data py_hash today conversations max_chars from_date
  = ((build_daily_raw py_hash today conversations empty_state max_chars
                      from_date).1,
     from_zero <$> (build_daily_raw py_hash today conversations empty_state
                                    max_chars from_date).2).
Proof.
  intros H. unfold build_daily_raw_all_data, build_daily_raw.
  pose proof (fold_from_zero py_hash today from_date conversations ∅ ∅ H)
    as Hf.
  rewrite fmap_empty in Hf. rewrite Hf. clear Hf.
  by destruct (fold_left (conv_step _ _ _ _) _ _) as [b p].
Qed.

Lemma all_data_is_first_run_witness :
  timestamps_nonnegative hash0 scenario_convs
  /\ build_daily_raw_all_data hash0 day_sep28 scenario_convs
       max_chars_default (Some day_sep25)
     = ((build_daily_raw hash0 day_sep28 scenario_convs empty_state
                         max_chars_default (Some day_sep25)).1,
        from_zero <$> (build_daily_raw hash0 day_sep28 scenario_convs
                         empty_state max_chars_default (Some day_sep25)).2).
Proof.
  assert (timestamps_nonnegative hash0 scenario_convs) as H
    by (apply timestamps_nonnegativeb_sound; vm_compute; reflexivity).
  split; [exact H|].
  apply (all_data_is_first_run hash0 day_sep28 scenario_convs
           max_chars_default (Some day_sep25) H).
Defined.

(** *** What the progress holds *)

Section Progress.

Variable py_hash : str -> str -> option Z -> Z.
Variables (today : Z) (from_date : option Z) (st : State).

(** Whatever enters [new_seen] was not in the stored ids. *)
Lemma scan_new_unseen (last_ts : Z) (seen_set : gset (list N))
  (evs : list Event) (acc : scan_state) (mid : list N) :
  mid ∈ (fold_left (message_step today from_date last_ts seen_set) evs acc).1.2 ->
  mid ∈ acc.1.2 \/ mid ∉ seen_set.
Proof.
  revert acc. induction evs as [|e evs IH]; intros acc H; [by left|].
  cbn [fold_left] in H. apply IH in H as [H|H]; [|by right].
  unfold message_step in H.
  destruct (passes_filter last_ts seen_set e) eqn:Hp; [|by left].
  apply FilterSpec.passes_filter_true in Hp as [_ Hp].
  destruct acc as [[b ns] mx]. unfold bucket_event in H.
  destruct (ts_to_day _ _ _); [|by left]. cbn [fst snd] in *.
  apply elem_of_union in H as [H|H]; [by left|].
  apply elem_of_singleton in H as ->. by right.
Qed.

Lemma conv_progress_new (conv : Conversation) :
  (forall mid, mid ∈ (conv_progress py_hash today from_date st conv).1 ->
               mid ∉ seen_of st (conv_key conv))
  /\ hwm_of st (conv_key conv)
     <= (conv_progress py_hash today from_date st conv).2.
Proof.
  rewrite <- (CheckpointSpec.scan_conv_progress py_hash today from_date st
                ∅ conv).
  unfold scan_conv, progress_of. cbn [fst snd]. split.
  - intros mid H. apply scan_new_unseen in H as [H|H].
    + by apply elem_of_empty in H.
    + intros Hin. apply H. by apply elem_of_list_to_set.
  - exact (proj2 (CheckpointSpec.scan_grows today from_date _ _ _
                    (∅, ∅, hwm_of st (conv_key conv)))).
Qed.

(** Every entry of the progress is what the loop of one conversation with
    that key produced, and holds at least one id. *)
Lemma progress_entry_source (convs : list Conversation)
  (acc : gmap Z (list (list N)) * gmap (list N) (gset (list N) * Z))
  (c : list N) (entry : gset (list N) * Z) :
  (fold_left (conv_step py_hash today from_date st) convs acc).2 !! c
  = Some entry ->
  acc.2 !! c = Some entry
  \/ exists conv, conv ∈ convs /\ conv_key conv = c
                  /\ entry = conv_progress py_hash today from_date st conv
                  /\ entry.1 <> ∅.
Proof.
  revert acc. induction convs as [|k convs IH]; intros [b p] H; [by left|].
  cbn [fold_left] in H. rewrite CheckpointSpec.conv_step_pair in H.
  apply IH in H as [H|(conv & Hin & Hk & He & Hne)].
  - cbn [snd] in H. rewrite CheckpointSpec.conv_step_progress in H.
    destruct (decide _) as [|Hne]; [by left|].
    destruct (decide (conv_key k = c)) as [<-|Hk].
    + rewrite lookup_insert_eq in H. injection H as <-.
      right. exists k. split; [apply elem_of_cons; by left|done].
    + rewrite lookup_insert_ne in H by done. by left.
  - right. exists conv. split; [apply elem_of_cons; by right|done].
Qed.

Lemma build_progress_entry (convs : list Conversation) (max_chars : Z)
  (c : list N) (entry : gset (list N) * Z) :
  (build_daily_raw py_hash today convs st max_chars from_date).2 !! c
  = Some entry ->
  exists conv, conv ∈ convs /\ conv_key conv = c
               /\ entry = conv_progress py_hash today from_date st conv
               /\ entry.1 <> ∅.
Proof.
  rewrite CheckpointSpec.build_daily_raw_progress. intros H.
  apply progress_entry_source in H as [H|H]; [|done].
  cbn [snd] in H. by rewrite lookup_empty in H.
Qed.

End Progress.

(** X15. Every entry of the progress [build_daily_raw] returns belongs
    to a conversation of the export, holds at least one message id, holds
    no id the checkpoint already lists for that conversation, and has a
    [max_ts] at or above the stored high-water mark. *)
Theorem progress_entries_are_new (py_hash : str -> str -> option Z -> Z)
  (today : Z) (conversations : list Conversation) (st : State)
  (max_chars : Z) (from_date : option Z) (c : str)
  (new_seen : gset (list N)) (max_ts : Z) :
  (build_daily_raw py_hash today conversations st max_chars from_date).2
    !! c = Some (new_seen, max_ts) ->
  (exists conv, conv ∈ conversations /\ conv_key conv = c)
  /\ new_seen <> ∅
  /\ (forall mid, mid ∈ new_seen -> mid ∉ seen_of st c)
  /\ hwm_of st c <= max_ts.
Proof.
  intros H. apply build_progress_entry in H as (conv & Hin & <- & He & Hne).
  destruct (conv_progress_new py_hash today from_date st conv) as [Hs Hh].
  rewrite <- He in Hs, Hh. repeat split; try done. by exists conv.
Qed.

Lemma progress_entries_are_new_witness :
  (exists conv, conv ∈ scenario_convs /\ conv_key conv = py "c1")
  /\ ({[ py "a2" ]} : gset (list N)) <> ∅
  /\ (forall mid, mid ∈ ({[ py "a2" ]} : gset (list N)) ->
                  mid ∉ seen_of empty_state (py "c1"))
  /\ hwm_of empty_state (py "c1") <= ts_sep26.
Proof.
  apply (progress_entries_are_new hash0 day_sep28 scenario_convs empty_state
           max_chars_default (Some day_sep25) (py "c1") {[ py "a2" ]}
           ts_sep26).
  vm_compute. reflexivity.
Defined.

(** X16. Committing the progress of a run keeps the list of seen ids of
    a conversation free of duplicates. *)
Theorem commit_keeps_seen_duplicate_free
  (py_hash : str -> str -> option Z -> Z) (today : Z)
  (conversations : list Conversation) (st : State) (max_chars : Z)
  (from_date : option Z) (c : str) :
  NoDup (seen_of st c) ->
  NoDup (seen_of
           (commit st (build_daily_raw py_hash today conversations st
                                       max_chars from_date).2) c).
Proof.
  intros Hnd. rewrite CheckpointSpec.commit_seen_of.
  destruct (_ !! c) as [[ns mx]|] eqn:Hp; [|done].
  apply build_progress_entry in Hp as (conv & _ & <- & He & _).
  destruct (conv_progress_new py_hash today from_date st conv) as [Hs _].
  rewrite <- He in Hs. cbn [fst] in Hs.
  apply NoDup_app. split; [done|]. split; [|apply NoDup_elements].
  intros mid Hin Hnew. apply elem_of_elements in Hnew. by apply (Hs mid).
Qed.

Lemma commit_keeps_seen_duplicate_free_witness :
  NoDup (seen_of late_seen_state (ev_conv_id late_seen_event))
  /\ NoDup (seen_of
              (commit late_seen_state
                 (build_daily_raw hash0 day_sep28 scenario_convs
                    late_seen_state max_chars_default (Some day_sep25)).2)
              (ev_conv_id late_seen_event)).
Proof.
  assert (NoDup (seen_of late_seen_state (ev_conv_id late_seen_event))) as H
    by (apply (bool_decide_unpack _); vm_compute; exact I).
  split; [exact H|].
  apply (commit_keeps_seen_duplicate_free hash0 day_sep28 scenario_convs
           late_seen_state max_chars_default (Some day_sep25)
           (ev_conv_id late_seen_event) H).
Defined.

(** X17. With a cap that is not negative, every day text, from either
    builder, has at most the cap plus the 13 characters of the truncation
    notice. *)
Theorem day_texts_are_capped (py_hash : str -> str -> option Z -> Z)
  (today : Z) (conversations : list Conversation) (st : State)
  (max_chars : Z) (from_date : option Z) (day : Z) (text : str) :
  0 <= max_chars ->
  (build_daily_raw py_hash today conversations st max_chars from_date).1
    !! day = Some text
  \/ (build_daily_raw_all_data py_hash today conversations max_chars
                               from_date).1 !! day = Some text ->
  len text <= max_chars + len truncation_suffix.
Proof.
  intros Hcap H. change (len truncation_suffix) with 13.
  unfold build_daily_raw, build_daily_raw_all_data in H.
  destruct (fold_left (conv_step _ _ _ _) _ _) as [b p].
  destruct (fold_left (conv_step_all _ _ _) _ _) as [b' p'].
  cbn [fst] in H. rewrite !lookup_fmap in H.
  destruct H as [H|H]; apply fmap_Some in H as (lines & _ & ->);
    by apply SegmenterSpec.day_text_length.
Qed.

Lemma day_texts_are_capped_witness :
  len (bullet ++ py "[" ++ label_user ++ py "] first｜new one"
       ++ bullet ++ py "[" ++ label_user ++ py "] second｜new two")
  <= max_chars_default + len truncation_suffix.
Proof.
  apply (day_texts_are_capped hash0 day_sep28 scenario_convs empty_state
           max_chars_default (Some day_sep25) day_sep26).
  - vm_compute. discriminate.
  - left. vm_compute. reflexivity.
Defined.

End BucketerMore.
(** ** Further properties of a run *)

Module OrchestratorMore.

(** *** The order of the day keys *)

Lemma strictly_sorted (l : list Z) :
  StronglySorted Z.le l -> NoDup l -> StronglySorted Z.lt l.
Proof.
  induction 1 as [|x l Hs IH Hx]; intros Hnd; [constructor|].
  apply NoDup_cons in Hnd as [Hnin Hnd]. constructor; [by apply IH|].
  apply Forall_forall. intros y Hy.
  rewrite Forall_forall in Hx. specialize (Hx y Hy).
  assert (x <> y) by (intros ->; done). lia.
Qed.

Lemma sorted_days_strict (daily_raw : gmap Z (list N)) :
  StronglySorted Z.lt (sorted_days daily_raw).
Proof.
  unfold sorted_days. apply strictly_sorted.
  - apply StronglySorted_merge_sort; apply _.
  - rewrite merge_sort_Permutation. apply NoDup_elements.
Qed.

Lemma sorted_days_keys (daily_raw : gmap Z (list N)) (day : Z) :
  day ∈ sorted_days daily_raw -> is_Some (daily_raw !! day).
Proof.
  unfold sorted_days. rewrite merge_sort_Permutation, elem_of_elements.
  apply elem_of_dom.
Qed.

(** The publishing loop requests pages for a prefix of the days. *)
Lemma publish_loop_prefix (create_page : Z -> page_outcome)
  (days acc succ : list Z) (stop : option Z) :
  publish_loop create_page days acc = (succ, stop) ->
  exists pre post,
    days = pre ++ post /\ succ = acc ++ pre
    /\ match stop with
       | None => post = []
       | Some day => exists post', post = day :: post'
       end.
Proof.
  revert acc. induction days as [|d days IH]; intros acc; cbn [publish_loop].
  - intros [= <- <-]. exists [], []. by rewrite !app_nil_r.
  - destruct (url_truthy (create_page d)).
    + intros H. apply IH in H as (pre & post & -> & -> & Hstop).
      exists (d :: pre), post. by rewrite <- app_assoc.
    + intros [= <- <-]. exists [], (d :: days).
      rewrite !app_nil_r. eauto.
Qed.

(** *** The shape of the effects *)

Lemma effects_split (called : list (list N)) (days : list Z)
  (saved : list State) :
  summarized_texts ((Summarized <$> called) ++ (PageRequested <$> days)
                    ++ (StateSaved <$> saved)) = called
  /\ requested_days ((Summarized <$> called) ++ (PageRequested <$> days)
                     ++ (StateSaved <$> saved)) = days
  /\ saved_states ((Summarized <$> called) ++ (PageRequested <$> days)
                   ++ (StateSaved <$> saved)) = saved.
Proof.
  unfold summarized_texts, requested_days, saved_states.
  rewrite !omap_app.
  assert (forall (A B : Type) (f : A -> effect) (g : effect -> option B)
                 (l : list A),
             (forall x, g (f x) = None) -> omap g (f <$> l) = []) as Hnone.
  { intros A B f g l H. induction l as [|x l IH]; [done|].
    cbn. by rewrite H. }
  assert (forall (A : Type) (f : A -> effect) (g : effect -> option A)
                 (l : list A),
             (forall x, g (f x) = Some x) -> omap g (f <$> l) = l) as Hsome.
  { intros A f g l H. induction l as [|x l IH]; [done|].
    cbn. rewrite H. cbn. by f_equal. }
  rewrite !Hsome by done. rewrite !Hnone by done.
  by rewrite !app_nil_r.
Qed.

(** The effects of a run, by their kinds. *)
Lemma main_daily_effects (py_hash : str -> str -> option Z -> Z)
  (summarize_ok : str -> bool) (create_page : Z -> page_outcome)
  (today : Z) (from_date : option Z) (conversations : list Conversation)
  (file : option State) :
  let r := main_daily py_hash summarize_ok create_page today from_date
                      conversations file in
  let days := sorted_days (build_daily_raw py_hash today conversations
                             (load_state file) max_chars_default from_date).1 in
  exists called requested saved,
    effects r = (Summarized <$> called) ++ (PageRequested <$> requested)
                ++ (StateSaved <$> saved)
    /\ (exists post, days = requested ++ post)
    /\ (length saved <= 1)%nat
    /\ (status r = SummarizerFailed -> requested = [] /\ saved = [])
    /\ (saved <> [] -> status r = Completed /\ requested = days).
Proof.
  cbv zeta. unfold main_daily.
  destruct (build_daily_raw _ _ _ _ _ _) as [daily_raw progress]. cbn [fst].
  destruct (summarize_all _ _) as [called ok].
  destruct ok; cbn [negb].
  2:{ exists called, [], []. cbn [effects status fmap list_fmap app].
      rewrite app_nil_r. repeat split; eauto; try done; cbn [length]; lia. }
  destruct (publish_loop _ _ _) as [succ [day|]] eqn:Hloop;
    apply publish_loop_prefix in Hloop
      as (pre & post & Hdays & -> & Hstop); cbn [app] in *.
  - destruct Hstop as [post' ->].
    exists called, (pre ++ [day]), []. cbn [effects status].
    rewrite app_nil_r. repeat split; try done; try (cbn [length]; lia).
    exists post'. by rewrite Hdays, <- app_assoc.
  - subst post. rewrite app_nil_r in Hdays. subst pre.
    destruct (nonempty_days (sorted_days daily_raw)); cbn [effects status].
    + exists called, (sorted_days daily_raw), [commit (load_state file) progress].
      repeat split; try done; try (cbn [length]; lia). exists []. by rewrite app_nil_r.
    + exists called, (sorted_days daily_raw), [].
      rewrite app_nil_r. repeat split; try done; try (cbn [length]; lia).
      exists []. by rewrite app_nil_r.
Qed.

(** X18. Of the calls the daily part of a run makes to the summarizer,
    to the page creation and to the checkpoint file, the summarizer calls
    come first, then the page requests, then at most one write of the
    checkpoint; and a run whose summarizer raised requests no page and
    writes nothing. *)
Theorem effects_are_ordered (py_hash : str -> str -> option Z -> Z)
  (summarize_ok : str -> bool) (create_page : Z -> page_outcome)
  (today : Z) (from_date : option Z) (conversations : list Conversation)
  (file : option State) :
  let r := main_daily py_hash summarize_ok create_page today from_date
                      conversations file in
  effects r
  = (Summarized <$> summarized_texts (effects r))
    ++ (PageRequested <$> requested_days (effects r))
    ++ (StateSaved <$> saved_states (effects r))
  /\ (length (saved_states (effects r)) <= 1)%nat
  /\ (status r = SummarizerFailed ->
      requested_days (effects r) = [] /\ saved_states (effects r) = []).
Proof.
  cbv zeta.
  destruct (main_daily_effects py_hash summarize_ok create_page today
              from_date conversations file)
    as (called & requested & saved & He & _ & Hlen & Hfail & _).
  destruct (effects_split called requested saved) as (Hs & Hr & Hv).
  rewrite He, Hs, Hr, Hv. done.
Qed.

(** X19. The pages of a run are requested in strictly ascending date
    order, so no day is requested twice, and only for days that have a day
    text. *)
Theorem pages_requested_in_date_order (py_hash : str -> str -> option Z -> Z)
  (summarize_ok : str -> bool) (create_page : Z -> page_outcome)
  (today : Z) (from_date : option Z) (conversations : list Conversation)
  (file : option State) :
  let r := main_daily py_hash summarize_ok create_page today from_date
                      conversations file in
  StronglySorted Z.lt (requested_days (effects r))
  /\ Forall (fun day =>
               is_Some ((build_daily_raw py_hash today conversations
                           (load_state file) max_chars_default from_date).1
                          !! day))
            (requested_days (effects r)).
Proof.
  cbv zeta.
  destruct (main_daily_effects py_hash summarize_ok create_page today
              from_date conversations file)
    as (called & requested & saved & He & [post Hdays] & _).
  destruct (effects_split called requested saved) as (_ & Hr & _).
  rewrite He, Hr.
  pose proof (sorted_days_strict
                (build_daily_raw py_hash today conversations
                   (load_state file) max_chars_default from_date).1) as Hs.
  rewrite Hdays in Hs. split; [by apply StronglySorted_app_1_l in Hs|].
  apply Forall_forall. intros day Hday. apply sorted_days_keys.
  rewrite Hdays. apply elem_of_app. by left.
Qed.

(** X20. Idempotence where it holds.  After a run that wrote the
    checkpoint for an export whose conversations have pairwise distinct
    keys, a run over any selection of those conversations, in any order,
    with the same floor and the same hash, calls no summarizer, requests
    no page, writes no checkpoint and leaves the state as it is. *)
Theorem rerun_on_processed_conversations
  (py_hash : str -> str -> option Z -> Z)
  (summarize_ok1 summarize_ok2 : str -> bool)
  (create_page1 create_page2 : Z -> page_outcome)
  (today1 today2 : Z) (from_date : option Z)
  (conversations selection : list Conversation) (file : option State) :
  NoDup (conv_key <$> conversations) ->
  (forall conv, conv ∈ selection -> conv ∈ conversations) ->
  let r1 := main_daily py_hash summarize_ok1 create_page1 today1 from_date
                       conversations file in
  saved_states (effects r1) <> [] ->
  let r2 := main_daily py_hash summarize_ok2 create_page2 today2 from_date
                       selection (state_file r1) in
  effects r2 = [] /\ status r2 = Completed
  /\ state_file r2 = state_file r1 /\ memory r2 = memory r1.
Proof.
  intros Hnd Hsel r1 Hsaved r2.
  destruct (IngestSpec.main_daily_committed py_hash summarize_ok1
              create_page1 today1 from_date conversations file Hsaved)
    as [Hfile Hmem].
  fold r1 in Hfile, Hmem.
  assert (build_daily_raw py_hash today2 selection
            (load_state (state_file r1)) max_chars_default from_date
          = (∅, ∅)) as Hb.
  { rewrite Hfile. cbn [load_state default]. unfold id.
    rewrite CheckpointSpec.build_daily_raw_progress.
    unfold build_daily_raw.
    rewrite (IngestSpec.rebuild_unchanged py_hash today1 today2 from_date
               (load_state file) conversations Hnd selection (∅, ∅) Hsel).
    by rewrite fmap_empty. }
  unfold r2. rewrite IngestSpec.main_daily_nothing_new by exact Hb.
  cbn [effects status state_file memory]. repeat split; congruence.
Qed.

Lemma rerun_on_processed_conversations_witness :
  effects (main_daily hash0 always_summarized always_published day_sep28
             (Some day_sep25) (reverse scenario_convs)
             (state_file (main_daily hash0 always_summarized always_published
                            day_sep27 (Some day_sep25) scenario_convs None)))
  = []
  /\ status (main_daily hash0 always_summarized always_published day_sep28
               (Some day_sep25) (reverse scenario_convs)
               (state_file (main_daily hash0 always_summarized
                              always_published day_sep27 (Some day_sep25)
                              scenario_convs None)))
     = Completed
  /\ state_file (main_daily hash0 always_summarized always_published
                   day_sep28 (Some day_sep25) (reverse scenario_convs)
                   (state_file (main_daily hash0 always_summarized
                                  always_published day_sep27
                                  (Some day_sep25) scenario_convs None)))
     = state_file (main_daily hash0 always_summarized always_published
                     day_sep27 (Some day_sep25) scenario_convs None)
  /\ memory (main_daily hash0 always_summarized always_published
               day_sep28 (Some day_sep25) (reverse scenario_convs)
               (state_file (main_daily hash0 always_summarized
                              always_published day_sep27
                              (Some day_sep25) scenario_convs None)))
     = memory (main_daily hash0 always_summarized always_published
                 day_sep27 (Some day_sep25) scenario_convs None).
Proof.
  apply (rerun_on_processed_conversations hash0 always_summarized
           always_summarized always_published always_published day_sep27
           day_sep28 (Some day_sep25) scenario_convs
           (reverse scenario_convs) None).
  - apply (bool_decide_unpack _). vm_compute. exact I.
  - intros conv. apply elem_of_reverse.
  - vm_compute. discriminate.
Defined.

End OrchestratorMore.
(** ** The day texts, as a function of the export *)

Module DayTextsMore.


Section Lines.

Variables (today : Z) (from_date : option Z).





Variable py_hash : str -> str -> option Z -> Z.



End Lines.



(** *** When a run is silent *)








End DayTextsMore.
(** ** The page of a day *)

Module PagesMore.
Import Renderer.

Lemma iso_char_plain (c : N) :
  ((48 <=? c) && (c <=? 57) || (c =? 45))%N = true ->
  isspace c = false /\ c <> nl /\ c <> star /\ c <> hash_sign.
Proof.
  intros H.
  assert (c = 45 \/ c = 48 \/ c = 49 \/ c = 50 \/ c = 51 \/ c = 52 \/ c = 53
          \/ c = 54 \/ c = 55 \/ c = 56 \/ c = 57)%N as Hc.
  { apply orb_true_iff in H as [H|H].
    - apply andb_true_iff in H as [H1 H2].
      apply N.leb_le in H1, H2. lia.
    - apply N.eqb_eq in H. lia. }
  repeat destruct Hc as [->|Hc]; try subst c; by vm_compute.
Qed.

Lemma iso_chars_plain (day : list N) :
  iso_chars day = true ->
  day <> []
  /\ Forall (fun c => isspace c = false /\ c <> nl /\ c <> star
                      /\ c <> hash_sign) day.
Proof.
  unfold iso_chars. intros H. apply andb_true_iff in H as [Hne H].
  split; [by destruct day|].
  rewrite forallb_forall in H. apply Forall_forall. intros c Hc.
  by apply iso_char_plain, H, list_elem_of_In.
Qed.

Lemma split_lines_first (a b : list N) :
  nl ∉ a -> split_lines (a ++ [nl] ++ b) = a :: split_lines b.
Proof.
  induction a as [|c a IH]; intros Hnl.
  - cbn. done.
  - apply not_elem_of_cons in Hnl as [Hc Hnl].
    cbn [app split_lines]. destruct (N.eqb_spec c nl); [done|].
    change (a ++ nl :: b) with (a ++ [nl] ++ b). by rewrite IH.
Qed.

Lemma rstrip_plain (s : list N) :
  Forall (fun c => isspace c = false) s -> rstrip s = s.
Proof.
  induction 1 as [|c s Hc _ IH]; [done|].
  cbn [rstrip]. rewrite IH, Hc. by destruct s.
Qed.

Lemma lstrip_plain (s : list N) :
  Forall (fun c => isspace c = false) s -> lstrip s = s.
Proof. destruct 1 as [|c s Hc _]; [done|]. cbn [lstrip]. by rewrite Hc. Qed.

Lemma finditer_without_stars (fuel pos : nat) (s : list N) :
  star ∉ s -> finditer_from fuel pos s = [].
Proof.
  revert pos s. induction fuel as [|fuel IH]; intros pos s Hs; [done|].
  destruct s as [|c s]; [done|].
  apply not_elem_of_cons in Hs as [Hc Hs]. cbn [finditer_from].
  unfold match_here. cbn [startswith].
  destruct (N.eqb_spec star c) as [Heq|_]; [by symmetry in Heq|].
  cbn [andb]. by apply IH.
Qed.

Lemma parse_rich_text_plain (text : list N) :
  text <> [] -> star ∉ text -> parse_rich_text text = [plain text].
Proof.
  intros Hne Hs. unfold parse_rich_text, finditer.
  rewrite finditer_without_stars by done. cbn [fold_left].
  destruct text as [|c text]; [done|]. reflexivity.
Qed.

(** The blocks appended so far stay where they are. *)
Lemma flush_extends (st : list Block * list N) :
  exists more, (flush st).1 = st.1 ++ more.
Proof.
  destruct st as [blocks cur]. unfold flush.
  destruct (nonempty (strip cur)); cbn [fst]; [eauto|].
  exists []. by rewrite app_nil_r.
Qed.

Lemma line_step_extends (max_chars_per_block : nat)
  (st : list Block * list N) (line : list N) :
  exists more, (line_step max_chars_per_block st line).1 = st.1 ++ more.
Proof.
  rewrite RendererMore.line_step_by_hashes.
  destruct (_ && _).
  - unfold heading_step. destruct (flush_extends st) as [more Hm].
    destruct (flush st) as [blocks cur]. cbn [fst] in Hm. subst blocks.
    destruct (nonempty _); cbn [fst]; [|eauto].
    rewrite <- app_assoc. eauto.
  - destruct st as [blocks cur]. unfold text_step.
    destruct (_ <? _)%nat; cbn [fst]; [eauto|].
    exists []. by rewrite app_nil_r.
Qed.

Lemma line_fold_extends (max_chars_per_block : nat)
  (lines : list (list N)) (st : list Block * list N) :
  exists more,
    (fold_left (line_step max_chars_per_block) lines st).1 = st.1 ++ more.
Proof.
  revert st. induction lines as [|line lines IH]; intros st.
  - exists []. by rewrite app_nil_r.
  - cbn [fold_left].
    destruct (IH (line_step max_chars_per_block st line)) as [more1 H1].
    destruct (line_step_extends max_chars_per_block st line) as [more2 H2].
    rewrite H1, H2, <- app_assoc. eauto.
Qed.

(** The first line of a page: the heading of the day. *)
Lemma day_heading_step (max_chars_per_block : nat) (day : list N) :
  iso_chars day = true ->
  line_step max_chars_per_block ([], []) (heading_prefix ++ day)
  = ([Heading 2 [plain day]; spacer; spacer], []).
Proof.
  intros Hd. apply iso_chars_plain in Hd as [Hne Hd].
  destruct day as [|c day]; [done|].
  apply Forall_cons in Hd as [(Hc & _ & Hstar & Hhash) Hd].
  assert (Forall (fun c => isspace c = false) (c :: day)) as Hplain.
  { constructor; [done|]. eapply Forall_impl; [exact Hd|]. by intros ? []. }
  assert (star ∉ c :: day) as Hnostar.
  { apply not_elem_of_cons. split; [done|].
    intros Hin. rewrite Forall_forall in Hd.
    by destruct (Hd _ Hin) as (_ & _ & ? & _). }
  rewrite RendererMore.line_step_by_hashes.
  assert (leading_hashes (heading_prefix ++ c :: day) = 2%nat) as ->.
  { cbn. by destruct (N.eqb_spec c hash_sign). }
  cbn [Nat.leb andb]. unfold heading_step, flush. cbn [strip rstrip lstrip nonempty].
  change (drop 2 (heading_prefix ++ c :: day)) with (space :: c :: day).
  assert (strip (space :: c :: day) = c :: day) as ->.
  { unfold strip. change (rstrip (space :: c :: day))
      with (match rstrip (c :: day) with
            | [] => if isspace space then [] else [space]
            | r => space :: r
            end).
    rewrite (rstrip_plain (c :: day)) by done.
    change (lstrip (space :: c :: day)) with (lstrip (c :: day)).
    by apply lstrip_plain. }
  cbn [startswith]. destruct (N.eqb_spec space c) as [<-|_]; [done|].
  cbn [andb nonempty app]. by rewrite parse_rich_text_plain.
Qed.

(** X27. The page of a day always opens with the day as a level-2
    heading followed by two empty paragraphs, whether the summary of the
    day is used, is too short, or is missing. *)
Theorem daily_page_opens_with_the_day (day : str) (summary : option str) :
  iso_chars day = true ->
  exists rest,
    page_children day summary
    = Heading 2 [plain day] :: spacer :: spacer :: rest.
Proof.
  intros Hd. unfold page_children.
  assert (exists body, page_markdown day summary
                       = (heading_prefix ++ day) ++ [nl] ++ body)
    as [body ->].
  { unfold page_markdown. destruct summary as [content|].
    - destruct (_ && _); rewrite app_assoc; [eauto|].
      by exists ([nl] ++ no_content_empty).
    - rewrite app_assoc. by exists ([nl] ++ no_content_missing). }
  unfold markdown_to_notion_blocks, markdown_to_notion_blocks_with.
  rewrite split_lines_first.
  - cbn [fold_left]. rewrite day_heading_step by done.
    destruct (line_fold_extends max_chars_per_block_default
                (split_lines body) ([Heading 2 [plain day]; spacer; spacer], []))
      as [more1 H1].
    destruct (flush_extends
                (fold_left (line_step max_chars_per_block_default)
                   (split_lines body)
                   ([Heading 2 [plain day]; spacer; spacer], [])))
      as [more2 H2].
    rewrite H2, H1. cbn [fst app]. eauto.
  - apply iso_chars_plain in Hd as [_ Hd]. rewrite Forall_forall in Hd.
    intros Hin. apply elem_of_app in Hin as [Hin|Hin].
    + vm_compute in Hin. repeat (apply elem_of_cons in Hin as [Hin|Hin];
                                 [discriminate|]).
      by apply elem_of_nil in Hin.
    + by destruct (Hd _ Hin) as (_ & ? & _).
Qed.

Lemma daily_page_opens_with_the_day_witness :
  iso_chars (isoformat day_sep26) = true
  /\ exists rest,
       page_children (isoformat day_sep26) None
       = Heading 2 [plain (isoformat day_sep26)] :: spacer :: spacer :: rest.
Proof.
  assert (iso_chars (isoformat day_sep26) = true) as Hd
    by (vm_compute; reflexivity).
  split; [exact Hd|].
  apply (daily_page_opens_with_the_day (isoformat day_sep26) None Hd).
Defined.

End PagesMore.
